(** * Salary dashboard: the ingestion pipeline of [DataParser]

    A shallow embedding of [services/dataParser] (the second document of
    [src/components/EmployeeDetail.tsx]): the two synonym tables,
    [mapColumns] with its value coercion, the two row validators,
    [parseFile] and the rows [parseXLSX] makes of a worksheet; of the budget
    constraints [EmployeeDetail] hands to the raise recommendation, its
    lookup of a field under several names and its performance badge; and of
    the session recovery and the employee update of [App].

    Conventions of the embedding.
    - Text is a [string] of ASCII characters; [toLowerCase] and [trim] act on
      the ASCII letters and the ASCII white space.
    - A JavaScript number is a [number]: [NaN], an infinity, or a finite value
      kept as an exact rational.  [parseFloat] and [Number] round the value
      of the literal they read to the nearest double ([toDouble]); the two
      quotients the pipeline computes ([ratio], [div100]) are kept exact.
    - A JavaScript object is the list of its entries in [Object.keys] order.
    - A computation that may throw returns an [outcome].
    - [ErrorHandler.validateFile], [ErrorHandler.validateDataStructure] and the
      two decoders ([parseCSV] wraps Papaparse, [parseXLSX] wraps the xlsx
      library and a [FileReader]) are collaborators outside the modelled file:
      [parseFile] takes them as parameters.
    - A decoded row holds one cell per header; the decoders of the source
      never yield a row that is not an object. *)

From Stdlib Require Import Strings.String Strings.Ascii Lists.List.
From Stdlib Require Import ZArith.ZArith QArith.QArith QArith.Qminmax Bool.Bool.
From Stdlib Require Import Numbers.DecimalString Arith.PeanoNat micromega.Lia.
From Stdlib Require Numbers.DecimalNat QArith.Qcanon.
Import ListNotations.

Local Open Scope string_scope.
Local Open Scope list_scope.

(** ** JavaScript strings *)

Module JsString.

(** The white space that [String.prototype.trim] and [parseFloat] skip
    (TAB, LF, VT, FF, CR, SP). *)
Definition isWhiteSpace (c : ascii) : bool :=
  let n := nat_of_ascii c in
  Nat.eqb n 32 || (Nat.leb 9 n && Nat.leb n 13).

Definition isDigit (c : ascii) : bool :=
  let n := nat_of_ascii c in
  Nat.leb 48 n && Nat.leb n 57.

Definition lowerChar (c : ascii) : ascii :=
  let n := nat_of_ascii c in
  if Nat.leb 65 n && Nat.leb n 90 then ascii_of_nat (n + 32) else c.

Fixpoint toLowerCase (s : string) : string :=
  match s with
  | EmptyString => EmptyString
  | String c r => String (lowerChar c) (toLowerCase r)
  end.

Fixpoint trimStart (s : string) : string :=
  match s with
  | EmptyString => EmptyString
  | String c r => if isWhiteSpace c then trimStart r else s
  end.

Fixpoint trimEnd (s : string) : string :=
  match s with
  | EmptyString => EmptyString
  | String c r =>
      match trimEnd r with
      | EmptyString => if isWhiteSpace c then EmptyString else String c EmptyString
      | t => String c t
      end
  end.

Definition trim (s : string) : string := trimEnd (trimStart s).

(** [s.includes(sub)] *)
Fixpoint includes (s sub : string) : bool :=
  if prefix sub s then true
  else match s with
       | EmptyString => false
       | String _ r => includes r sub
       end.

Fixpoint hasChar (c : ascii) (s : string) : bool :=
  match s with
  | EmptyString => false
  | String d r => Ascii.eqb d c || hasChar c r
  end.

(** [s.replace(c, '')] with a one-character string pattern: only the first
    occurrence goes. *)
Fixpoint removeFirst (c : ascii) (s : string) : string :=
  match s with
  | EmptyString => EmptyString
  | String d r => if Ascii.eqb d c then r else String d (removeFirst c r)
  end.

(** [s.replace(/[...]/g, '')]: every character of the class goes. *)
Fixpoint removeAll (inClass : ascii -> bool) (s : string) : string :=
  match s with
  | EmptyString => EmptyString
  | String d r =>
      if inClass d then removeAll inClass r else String d (removeAll inClass r)
  end.

(** [s.split(sep).pop()]: what follows the last separator. *)
Fixpoint splitPop (sep : ascii) (s : string) : string :=
  match s with
  | EmptyString => EmptyString
  | String c r =>
      if Ascii.eqb c sep || hasChar sep r then splitPop sep r else s
  end.

Fixpoint drop (n : nat) (s : string) : string :=
  match n, s with
  | O, _ => s
  | S _, EmptyString => EmptyString
  | S m, String _ r => drop m r
  end.

Definition isEmpty (s : string) : bool :=
  match s with EmptyString => true | _ => false end.

Definition ofNat (n : nat) : string := NilEmpty.string_of_uint (Nat.to_uint n).

(** [xs.join(sep)] *)
Fixpoint join (sep : string) (xs : list string) : string :=
  match xs with
  | [] => EmptyString
  | [x] => x
  | x :: r => x ++ sep ++ join sep r
  end.

End JsString.

(** ** JavaScript numbers *)

Module JsNumber.
Import JsString.

Inductive number : Type :=
| NaN
| Fin (q : Q)
| Infinity (negative : bool).

Definition isNaN (n : number) : bool :=
  match n with NaN => true | _ => false end.

Definition isZero (n : number) : bool :=
  match n with Fin q => Qeq_bool q 0 | _ => false end.

(** [a < b] and [a <= b] on numbers; every comparison with [NaN] is false. *)
Definition lt (a b : number) : bool :=
  match a, b with
  | NaN, _ | _, NaN => false
  | Fin x, Fin y => negb (Qle_bool y x)
  | Fin _, Infinity neg => negb neg
  | Infinity neg, Fin _ => neg
  | Infinity na, Infinity nb => na && negb nb
  end.

Definition le (a b : number) : bool :=
  match a, b with
  | NaN, _ | _, NaN => false
  | Fin x, Fin y => Qle_bool x y
  | Fin _, Infinity neg => negb neg
  | Infinity neg, Fin _ => neg
  | Infinity na, Infinity nb => na || negb nb
  end.

Definition ofZ (z : Z) : number := Fin (inject_Z z).

(** [a / b] for two array lengths; [0 / 0] is [NaN].  Below 2^32 two such
    quotients, rounded to doubles, compare as the exact ones do, also against
    the literal [0.1]. *)
Definition ratio (a b : nat) : number :=
  match b with
  | O => match a with O => NaN | S _ => Infinity false end
  | S _ => Fin (Qred (Z.of_nat a # Pos.of_nat b))
  end.

(** [n / 100] *)
Definition div100 (n : number) : number :=
  match n with
  | Fin q => Fin (Qred (q / inject_Z 100))
  | other => other
  end.

Definition digitValue (c : ascii) : Z := Z.of_nat (nat_of_ascii c - 48).

(** Reads a run of decimal digits onto [acc]: the value, how many digits
    were read, and the rest of the text. *)
Fixpoint spanDigits (s : string) (acc : Z) (count : nat) : Z * nat * string :=
  match s with
  | String c r =>
      if isDigit c then spanDigits r (10 * acc + digitValue c)%Z (S count)
      else (acc, count, s)
  | EmptyString => (acc, count, s)
  end.

Definition parseSign (s : string) : bool * string :=
  match s with
  | String "-"%char r => (true, r)
  | String "+"%char r => (false, r)
  | _ => (false, s)
  end.

(** ExponentPart, read only when at least one digit follows the [e]. *)
Definition parseExponent (s : string) : Z * string :=
  match s with
  | String c r =>
      if Ascii.eqb c "e" || Ascii.eqb c "E" then
        let (neg, r1) := parseSign r in
        match spanDigits r1 0%Z 0 with
        | (_, O, _) => (0%Z, s)
        | (v, S _, r2) => ((if neg then Z.opp v else v), r2)
        end
      else (0%Z, s)
  | EmptyString => (0%Z, s)
  end.

(** The longest prefix that is a StrUnsignedDecimalLiteral other than
    [Infinity]: digits, an optional fraction, an optional exponent. *)
Definition parseUnsignedDecimal (s : string) : option (Q * string) :=
  let '(ip, ni, r1) := spanDigits s 0%Z 0 in
  let '(m, nf, r2) :=
    match r1 with
    | String "."%char t => spanDigits t ip 0
    | _ => (ip, O, r1)
    end in
  match ni, nf with
  | O, O => None
  | _, _ =>
      let (e, r3) := parseExponent r2 in
      Some (Qred (inject_Z m * Qpower (inject_Z 10) (e - Z.of_nat nf)), r3)
  end.

(** [num / den] for [den > 0], rounded to the nearest integer, a tie to the
    even one. *)
Definition roundHalfEven (num den : Z) : Z :=
  let fl := (num / den)%Z in
  match (2 * (num mod den) ?= den)%Z with
  | Lt => fl
  | Gt => (fl + 1)%Z
  | Eq => if Z.even fl then fl else (fl + 1)%Z
  end.

(** [n / d] divided by [2 ^ t], as a fraction of integers. *)
Definition scaleDown (n d t : Z) : Z * Z :=
  if (0 <=? t)%Z then (n, (d * 2 ^ t)%Z) else ((n * 2 ^ (- t))%Z, d).

(** The [e] with [2 ^ e <= n / d < 2 ^ (e + 1)], for [n] and [d] above zero. *)
Definition binade (n d : Z) : Z :=
  let e := (Z.log2 n - Z.log2 d)%Z in
  let (num, den) := scaleDown n d e in
  if (num <? den)%Z then (e - 1)%Z else e.

(** The Number value of a mathematical value: the double nearest to [q], a
    tie going to the even significand.  A double has 53 significant bits and
    its last place is worth at least [2 ^ -1074]; what rounds to [2 ^ 1024]
    or more is an infinity.  The result is kept as the exact rational the
    double stands for. *)
Definition toDouble (q : Q) : number :=
  let n := Z.abs (Qnum q) in
  let d := Zpos (Qden q) in
  if (n =? 0)%Z then Fin 0
  else
    let t := (Z.max (binade n d) (-1022) - 52)%Z in
    let (num, den) := scaleDown n d t in
    let m := (Z.sgn (Qnum q) * roundHalfEven num den)%Z in
    if (0 <=? t)%Z then
      if (2 ^ 1024 <=? Z.abs m * 2 ^ t)%Z then Infinity (Qnum q <? 0)%Z
      else Fin (inject_Z (m * 2 ^ t))
    else Fin (Qred (m # Z.to_pos (2 ^ (- t)))).

(** The longest prefix that is a StrDecimalLiteral, with what follows it. *)
Definition parseDecimalPrefix (s : string) : option (number * string) :=
  let (neg, r) := parseSign s in
  if prefix "Infinity" r then Some (Infinity neg, drop 8 r)
  else match parseUnsignedDecimal r with
       | Some (q, rest) => Some (toDouble (if neg then Qopp q else q), rest)
       | None => None
       end.

(** [parseFloat(s)] *)
Definition parseFloat (s : string) : number :=
  match parseDecimalPrefix (trimStart s) with
  | Some (n, _) => n
  | None => NaN
  end.

Definition radixDigit (radix : Z) (c : ascii) : option Z :=
  let n := nat_of_ascii c in
  let v :=
    if Nat.leb 48 n && Nat.leb n 57 then Some (Z.of_nat (n - 48))
    else if Nat.leb 97 n && Nat.leb n 102 then Some (Z.of_nat (n - 87))
    else if Nat.leb 65 n && Nat.leb n 70 then Some (Z.of_nat (n - 55))
    else None in
  match v with
  | Some d => if Z.ltb d radix then Some d else None
  | None => None
  end.

Fixpoint radixDigits (radix : Z) (s : string) (acc : Z) : option Z :=
  match s with
  | EmptyString => Some acc
  | String c r =>
      match radixDigit radix c with
      | Some d => radixDigits radix r (radix * acc + d)%Z
      | None => None
      end
  end.

(** NonDecimalIntegerLiteral: [0b], [0o] and [0x] literals. *)
Definition parseNonDecimal (s : string) : number :=
  match s with
  | String "0"%char (String x (String c r)) =>
      let radix :=
        if Ascii.eqb x "x" || Ascii.eqb x "X" then Some 16%Z
        else if Ascii.eqb x "o" || Ascii.eqb x "O" then Some 8%Z
        else if Ascii.eqb x "b" || Ascii.eqb x "B" then Some 2%Z
        else None in
      match radix with
      | Some b =>
          match radixDigits b (String c r) 0%Z with
          | Some v => toDouble (inject_Z v)
          | None => NaN
          end
      | None => NaN
      end
  | _ => NaN
  end.

(** [Number(s)], the conversion a relational operator applies to a string
    operand: the whole trimmed text must be one numeric literal, and the
    empty text is [0]. *)
Definition ofString (s : string) : number :=
  let t := trim s in
  if isEmpty t then ofZ 0
  else match parseDecimalPrefix t with
       | Some (n, EmptyString) => n
       | _ => parseNonDecimal t
       end.

End JsNumber.

(** ** JavaScript values, objects and exceptions *)

Module JsValue.
Import JsString JsNumber.

(** What a cell of a decoded row or a field of a mapped row holds. *)
Inductive value : Type :=
| VUndefined
| VNull
| VString (s : string)
| VNumber (n : number).

(** ToBoolean *)
Definition truthy (v : value) : bool :=
  match v with
  | VUndefined | VNull => false
  | VString s => negb (isEmpty s)
  | VNumber n => negb (isNaN n || isZero n)
  end.

(** [typeof v === 'number'] and [typeof v === 'string'] *)
Definition isNumber (v : value) : bool :=
  match v with VNumber _ => true | _ => false end.

Definition isString (v : value) : bool :=
  match v with VString _ => true | _ => false end.

(** ToNumber, as the relational operators apply it to an operand. *)
Definition toNumber (v : value) : number :=
  match v with
  | VUndefined => NaN
  | VNull => ofZ 0
  | VString s => ofString s
  | VNumber n => n
  end.

(** [a || b] *)
Definition orElse (a b : value) : value := if truthy a then a else b.

(** An object: its entries in [Object.keys] order, keys pairwise distinct. *)
Definition object : Type := list (string * value).

Definition keys (o : object) : list string := map fst o.

(** [o[k]]; a missing property reads as [undefined]. *)
Fixpoint get (o : object) (k : string) : value :=
  match o with
  | [] => VUndefined
  | (k', v) :: r => if String.eqb k' k then v else get r k
  end.

(** [o[k] = v]: an existing property keeps its place, a new one goes last. *)
Fixpoint set (o : object) (k : string) (v : value) : object :=
  match o with
  | [] => [(k, v)]
  | (k', v') :: r =>
      if String.eqb k' k then (k, v) :: r else (k', v') :: set r k v
  end.

End JsValue.

(** A thrown value: an [Error] (a [TypeError] is one) with its message, or
    something that is not an [Error]. *)
Inductive thrown : Type :=
| ThrownError (message : string)
| ThrownOther.

(** The result of a computation that may throw. *)
Inductive outcome (A : Type) : Type :=
| Return (a : A)
| Throw (e : thrown).

Arguments Return {A} a.
Arguments Throw {A} e.

Definition bind {A B : Type} (m : outcome A) (k : A -> outcome B) : outcome B :=
  match m with
  | Return a => k a
  | Throw e => Throw e
  end.

Notation "x <- m ;; k" := (bind m (fun x => k))
  (at level 61, m at next level, right associativity).

Definition returns {A : Type} (m : outcome A) : bool :=
  match m with Return _ => true | Throw _ => false end.

(** [xs.map((x, i) => f(x, i))], indices starting at [i]. *)
Fixpoint mapWithIndex {A B : Type} (f : A -> nat -> B) (xs : list A) (i : nat)
  : list B :=
  match xs with
  | [] => []
  | x :: r => f x i :: mapWithIndex f r (S i)
  end.

(** [xs.map(f)] for an [f] that may throw: the first exception ends it. *)
Fixpoint mapOutcome {A B : Type} (f : A -> outcome B) (xs : list A)
  : outcome (list B) :=
  match xs with
  | [] => Return []
  | x :: r => y <- f x ;; ys <- mapOutcome f r ;; Return (y :: ys)
  end.

(** ** The synonym tables *)

(** Header synonyms of a salary sheet, in the order of the source. *)
Definition SALARY_COLUMN_MAPPINGS : list (string * string) :=
  [ ("employee_id", "employeeId");
    ("employeeid", "employeeId");
    ("emp_id", "employeeId");
    ("id", "employeeId");
    ("employee id", "employeeId");
    ("employee number", "employeeId");
    ("employee_number", "employeeId");
    ("email", "email");
    ("email_address", "email");
    ("e-mail", "email");
    ("work_email", "email");
    ("name", "name");
    ("full_name", "name");
    ("employee_name", "name");
    ("full name", "name");
    ("employee full name", "name");
    ("employee_full_name", "name");
    ("first_name", "firstName");
    ("firstname", "firstName");
    ("first name", "firstName");
    ("last_name", "lastName");
    ("lastname", "lastName");
    ("last name", "lastName");
    ("country", "country");
    ("location", "country");
    ("currency", "currency");
    ("curr", "currency");
    ("country iso2", "country");
    ("base_salary", "baseSalary");
    ("basesalary", "baseSalary");
    ("salary", "baseSalary");
    ("annual_salary", "baseSalary");
    ("base salary", "baseSalary");
    ("annual salary", "baseSalary");
    ("base pay all countries", "baseSalary");
    ("total base pay", "baseSalary");
    ("annual calculated base pay all countries", "baseSalary");
    ("salary_grade_min", "salaryGradeMin");
    ("grade_min", "salaryGradeMin");
    ("min_salary", "salaryGradeMin");
    ("min pay grade value", "salaryGradeMin");
    ("salary_grade_mid", "salaryGradeMid");
    ("grade_mid", "salaryGradeMid");
    ("mid_salary", "salaryGradeMid");
    ("mid pay grade value", "salaryGradeMid");
    ("salary_grade_max", "salaryGradeMax");
    ("grade_max", "salaryGradeMax");
    ("max_salary", "salaryGradeMax");
    ("max pay grade value", "salaryGradeMax");
    ("comparatio", "comparatio");
    ("time_in_role", "timeInRole");
    ("months_in_role", "timeInRole");
    ("tenure", "timeInRole");
    ("time in role", "timeInRole");
    ("latest hire date", "hireDate");
    ("job entry start date", "roleStartDate");
    ("hire_date", "hireDate");
    ("start_date", "hireDate");
    ("role_start_date", "roleStartDate");
    ("current_role_start", "roleStartDate");
    ("last_raise_date", "lastRaiseDate");
    ("last raise date", "lastRaiseDate");
    ("last salary change date", "lastRaiseDate");
    ("department", "departmentCode");
    ("department_code", "departmentCode");
    ("department - cc based", "departmentCode");
    ("job_title", "jobTitle");
    ("title", "jobTitle");
    ("business title", "jobTitle");
    ("job profile", "jobTitle");
    ("job function", "jobTitle");
    ("job family", "jobTitle");
    ("manager_id", "managerId");
    ("manager id", "managerId");
    ("manager employee number", "managerId");
    ("manager_name", "managerName");
    ("manager name", "managerName");
    ("manager full name", "managerName");
    ("manager_full_name", "managerName");
    ("first line manager", "managerName");
    ("direct manager", "managerName");
    ("supervisor", "managerName");
    ("grade band", "gradeLevel");
    ("grade_band", "gradeLevel");
    ("compensation grade profile", "gradeLevel");
    ("salary range segment", "salaryRangeSegment");
    ("salary_range_segment", "salaryRangeSegment");
    ("range_segment", "salaryRangeSegment");
    ("below range minimum?", "belowRangeMinimum");
    ("below_range_minimum?", "belowRangeMinimum");
    ("below range minimum", "belowRangeMinimum");
    ("below_range_minimum", "belowRangeMinimum");
    ("is_below_minimum", "belowRangeMinimum") ].

(** Header synonyms of a performance sheet, in the order of the source. *)
Definition PERFORMANCE_COLUMN_MAPPINGS : list (string * string) :=
  [ ("employee_id", "employeeId");
    ("employeeid", "employeeId");
    ("emp_id", "employeeId");
    ("id", "employeeId");
    ("employee id", "employeeId");
    ("employee number", "employeeId");
    ("employee_number", "employeeId");
    ("associate id", "employeeId");
    ("associate_id", "employeeId");
    ("email", "email");
    ("name", "name");
    ("employee_name", "name");
    ("employee full name", "name");
    ("employee_full_name", "name");
    ("worker", "name");
    ("performance_rating", "performanceRating");
    ("rating", "performanceRating");
    ("performance", "performanceRating");
    ("perf_rating", "performanceRating");
    ("performance rating", "performanceRating");
    ("overall performance rating", "performanceRating");
    ("overall_performance_rating", "performanceRating");
    ("overall performance rating (current)", "performanceRating");
    ("performance: what (current)", "performanceRating");
    ("performance: how (current)", "performanceRating");
    ("calibrated value: overall performance rating", "performanceRating");
    ("calibrated value: performance: what", "performanceRating");
    ("calibrated value: performance: how", "performanceRating");
    ("pre-calibrated value: overall performance rating", "performanceRating");
    ("calibrated value: identified as future talent?", "futuretalent");
    ("calibrated value: movement readiness", "movementReadiness");
    ("calibrated value: proposed talent actions", "proposedTalentActions");
    ("calibrated value: future talent: growth agility", "businessImpactScore");
    ("calibrated value: future talent: change agility", "businessImpactScore");
    ("business_impact", "businessImpactScore");
    ("business_impact_score", "businessImpactScore");
    ("impact_score", "businessImpactScore");
    ("business impact", "businessImpactScore");
    ("retention_risk", "retentionRisk");
    ("risk_score", "retentionRisk");
    ("retention risk", "retentionRisk");
    ("flight_risk", "retentionRisk");
    ("identified as future talent?", "retentionRisk");
    ("identified as future talent? (current)", "retentionRisk") ].

(** ** DataParser *)

Module DataParser.
Import JsString JsNumber JsValue.

(** The file types of a [FileUploadResult]. *)
Inductive FileType : Type := salary | performance | unknown.

Definition FileType_eqb (a b : FileType) : bool :=
  match a, b with
  | salary, salary | performance, performance | unknown, unknown => true
  | _, _ => false
  end.

Definition assoc (table : list (string * string)) (k : string) : option string :=
  option_map snd (find (fun entry => String.eqb (fst entry) k) table).

(** [mappings[normalizedKey]] on the table, a plain object: its own
    properties, then the two lower-case names every object inherits, a
    function and an object, both truthy.  Used as a property key they turn
    into their string form. *)
Definition lookupMapping (mappings : list (string * string)) (normalizedKey : string)
  : option string :=
  match assoc mappings normalizedKey with
  | Some mappedField => Some mappedField
  | None =>
      if String.eqb normalizedKey "constructor"
      then Some "function Object() { [native code] }"
      else if String.eqb normalizedKey "__proto__"
      then Some "[object Object]"
      else None
  end.

Definition numericFields : list string :=
  [ "baseSalary"; "salaryGradeMin"; "salaryGradeMid"; "salaryGradeMax";
    "timeInRole"; "businessImpactScore"; "retentionRisk" ].

Definition isQuote (c : ascii) : bool :=
  Ascii.eqb c "034" || Ascii.eqb c "039".

(** The ASCII members of the currency class; its other members are symbols
    outside ASCII, which the third replacement removes as well. *)
Definition isCurrencyOrComma (c : ascii) : bool :=
  Ascii.eqb c "$" || Ascii.eqb c ",".

Definition notDigitDotDash (c : ascii) : bool :=
  negb (isDigit c || Ascii.eqb c "." || Ascii.eqb c "-").

(** The three replacements and the trim that give [cleanValue]. *)
Definition cleanValue (text : string) : string :=
  trim (removeAll notDigitDotDash
          (removeAll isCurrencyOrComma (removeAll isQuote text))).

(** [value.trim()] and [value.toLowerCase()], which throw a [TypeError] on
    a value that is not a string. *)
Definition callTrim (v : value) : outcome string :=
  match v with
  | VString s => Return (trim s)
  | _ => Throw (ThrownError "value.trim is not a function")
  end.

Definition callToLowerCase (v : value) : outcome string :=
  match v with
  | VString s => Return (toLowerCase s)
  | _ => Throw (ThrownError "value.toLowerCase is not a function")
  end.

(** The body of [if (typeof value === 'string' && value !== '')] in
    [mapColumns]: [text] is the cell, the result is the final [value]. *)
Definition coerceText (mappedField : string) (text : string) : outcome value :=
  let afterNumeric :=
    if existsb (String.eqb mappedField) numericFields then
      let numValue := parseFloat (cleanValue text) in
      if negb (isNaN numValue) then VNumber numValue else VString text
    else VString text in
  afterRating <-
    (if String.eqb mappedField "performanceRating" then
       trimmed <- callTrim afterNumeric ;;
       if includes trimmed "%" then
         let numValue := parseFloat (trim (removeFirst "%" trimmed)) in
         if negb (isNaN numValue) then Return (VNumber (div100 numValue))
         else Return (VString trimmed)
       else Return (VString trimmed)
     else Return afterNumeric) ;;
  if String.eqb mappedField "retentionRisk" then
    lowered <- callToLowerCase afterRating ;;
    let lowerValue := trim lowered in
    if String.eqb lowerValue "yes" || String.eqb lowerValue "y"
       || String.eqb lowerValue "true"
    then Return (VNumber (ofZ 1))
    else if String.eqb lowerValue "no" || String.eqb lowerValue "n"
            || String.eqb lowerValue "false"
    then Return (VNumber (ofZ 0))
    else Return afterRating
  else Return afterRating.

(** What [mapColumns] stores for a cell under [mappedField]. *)
Definition coerce (mappedField : string) (cell : value) : outcome value :=
  match cell with
  | VString text =>
      if negb (isEmpty text) then coerceText mappedField text else Return cell
  | _ => Return cell
  end.

Definition normalizeKey (key : string) : string := trim (toLowerCase key).

(** One turn of [Object.keys(row).forEach]. *)
Definition mapEntry (mappings : list (string * string)) (mappedRow : object)
  (entry : string * value) : outcome object :=
  let (key, cell) := entry in
  match lookupMapping mappings (normalizeKey key) with
  | Some mappedField =>
      v <- coerce mappedField cell ;;
      Return (set mappedRow mappedField v)
  | None => Return mappedRow
  end.

Fixpoint forEachEntry (mappings : list (string * string)) (entries : object)
  (mappedRow : object) : outcome object :=
  match entries with
  | [] => Return mappedRow
  | entry :: rest =>
      mappedRow' <- mapEntry mappings mappedRow entry ;;
      forEachEntry mappings rest mappedRow'
  end.

Definition mapRow (mappings : list (string * string)) (row : object)
  : outcome object :=
  forEachEntry mappings row [].

Definition mapColumns (data : list object) (mappings : list (string * string))
  : outcome (list object) :=
  mapOutcome (mapRow mappings) data.

(** *** Row validation *)

Module Validation.
Record ValidationResult : Type := {
  isValid : bool;
  errors : list string;
  warnings : list string;
  employeeId : value
}.
End Validation.
Definition ValidationResult : Type := Validation.ValidationResult.

Definition pushIf (condition : bool) (message : string) : list string :=
  if condition then [message] else [].

Definition rowLabel (row : object) (index : nat) : value :=
  orElse (get row "employeeId") (VString ("Row " ++ ofNat (index + 1))).

Definition validateSalaryRow (row : object) (index : nat) : ValidationResult :=
  let baseSalary := get row "baseSalary" in
  let timeInRole := get row "timeInRole" in
  let errors :=
    pushIf (negb (truthy (get row "employeeId"))) "Employee ID is required"
    ++ pushIf (negb (truthy (get row "name"))
               && negb (truthy (get row "firstName"))
               && negb (truthy (get row "lastName")))
         "Employee name is required"
    ++ pushIf (negb (truthy baseSalary) || le (toNumber baseSalary) (ofZ 0))
         "Valid base salary is required"
    ++ pushIf (truthy baseSalary && negb (isNumber baseSalary))
         "Base salary must be a number" in
  let warnings :=
    pushIf (negb (truthy (get row "country")))
      "Country/location information is missing"
    ++ pushIf (negb (truthy (get row "currency")))
         "Currency information is missing"
    ++ pushIf (truthy timeInRole
               && (negb (isNumber timeInRole) || lt (toNumber timeInRole) (ofZ 0)))
         "Time in role should be a positive number (months)" in
  {| Validation.isValid := Nat.eqb (length errors) 0;
     Validation.errors := errors;
     Validation.warnings := warnings;
     Validation.employeeId := rowLabel row index |}.

Definition validateSalaryData (data : list object) : list ValidationResult :=
  mapWithIndex validateSalaryRow data 0.

Definition validatePerformanceRow (row : object) (index : nat) : ValidationResult :=
  let performanceRating := get row "performanceRating" in
  let retentionRisk := get row "retentionRisk" in
  let errors :=
    pushIf (negb (truthy (get row "employeeId"))) "Employee ID is required" in
  let ratingWarning :=
    match performanceRating with
    | VUndefined | VNull => []
    | VNumber n =>
        pushIf (lt n (ofZ 0) || lt (ofZ 5) n)
          "Numeric performance rating should be between 0 and 5"
    | VString s =>
        pushIf (isEmpty (trim s)) "Performance rating cannot be empty"
    end in
  let warnings :=
    ratingWarning
    ++ pushIf (truthy retentionRisk
               && (negb (isNumber retentionRisk)
                   || lt (toNumber retentionRisk) (ofZ 0)
                   || lt (ofZ 100) (toNumber retentionRisk)))
         "Retention risk should be between 0 and 100" in
  {| Validation.isValid := Nat.eqb (length errors) 0;
     Validation.errors := errors;
     Validation.warnings := warnings;
     Validation.employeeId := rowLabel row index |}.

Definition validatePerformanceData (data : list object) : list ValidationResult :=
  mapWithIndex validatePerformanceRow data 0.

(** *** The collaborators of [parseFile] *)

(** A browser [File]: only its name reaches the modelled code; the bytes go
    to the decoders. *)
Record File : Type := { name : string; bytes : string }.

Module ErrorHandler.
(** An entry of what [validateFile] returns and of the [errors] and
    [warnings] of a structure validation. *)
Record Issue : Type := { severity : string; message : string }.

(** What [validateDataStructure] returns; [detectedFormat] stands for
    [fileInfo.detectedFormat]. *)
Record StructureValidation : Type := {
  isValid : bool;
  errors : list Issue;
  warnings : list Issue;
  detectedFormat : FileType
}.
End ErrorHandler.

Module Papa.
(** An entry of [ParseResult.errors]; a missing message is the empty text. *)
Record ParseError : Type := { message : string; type : string }.
Record ParseResult : Type := { errors : list ParseError; data : list object }.
End Papa.

Record FileUploadResult : Type := {
  fileName : string;
  fileType : FileType;
  rowCount : nat;
  validRows : nat;
  errors : list string;
  data : list object
}.

(** [e instanceof Error ? e.message : fallback] *)
Definition messageOr (e : thrown) (fallback : string) : string :=
  match e with
  | ThrownError m => m
  | ThrownOther => fallback
  end.

Definition isSeverity (s : string) (e : ErrorHandler.Issue) : bool :=
  String.eqb (ErrorHandler.severity e) s.

(** *** Merging a combined file *)

Definition hasPerformanceColumns (rawData : list object) : bool :=
  match rawData with
  | [] => false
  | first :: _ =>
      existsb (fun key => includes (toLowerCase key) "performance"
                          || includes (toLowerCase key) "rating")
              (keys first)
  end.

(** [if (performanceRow.f) salaryRow.f = performanceRow.f] *)
Definition copyIfTruthy (field : string) (performanceRow salaryRow : object)
  : object :=
  if truthy (get performanceRow field)
  then set salaryRow field (get performanceRow field)
  else salaryRow.

Definition mergeRow (salaryRow performanceRow : object) : object :=
  copyIfTruthy "retentionRisk" performanceRow
    (copyIfTruthy "businessImpactScore" performanceRow
       (copyIfTruthy "performanceRating" performanceRow salaryRow)).

(** [salaryData.forEach((salaryRow, index) => ...)] over
    [performanceData[index]]; a salary row without a partner stays as it is. *)
Fixpoint mergePerformance (salaryData performanceData : list object)
  : list object :=
  match salaryData with
  | [] => []
  | salaryRow :: salaryRest =>
      match performanceData with
      | performanceRow :: performanceRest =>
          mergeRow salaryRow performanceRow
          :: mergePerformance salaryRest performanceRest
      | [] => salaryRow :: mergePerformance salaryRest []
      end
  end.

Definition validityRate (validation : list ValidationResult) : number :=
  ratio (length (filter Validation.isValid validation)) (length validation).

(** The salary mapping of step 4 with the merge of a combined file. *)
Definition mapSalary (combined : bool) (rawData : list object)
  : outcome (list object) :=
  salaryData <- mapColumns rawData SALARY_COLUMN_MAPPINGS ;;
  if combined then
    performanceData <- mapColumns rawData PERFORMANCE_COLUMN_MAPPINGS ;;
    Return (mergePerformance salaryData performanceData)
  else Return salaryData.

Definition Mapped : Type := list object * list ValidationResult * FileType.

(** The body of [if (finalType === 'salary' || finalType === 'unknown')];
    [finalType] is the variable as it stands on entry. *)
Definition salaryBranch (expectedType finalType : FileType)
  (rawData : list object) : outcome Mapped :=
  salaryData <- mapSalary (hasPerformanceColumns rawData) rawData ;;
  let salaryValidation := validateSalaryData salaryData in
  let salaryValidityRate := validityRate salaryValidation in
  if lt (Fin (1 # 10)) salaryValidityRate || FileType_eqb expectedType salary
  then Return (salaryData, salaryValidation, salary)
  else if FileType_eqb expectedType unknown then
    performanceData <- mapColumns rawData PERFORMANCE_COLUMN_MAPPINGS ;;
    let performanceValidation := validatePerformanceData performanceData in
    let performanceValidityRate := validityRate performanceValidation in
    if lt salaryValidityRate performanceValidityRate
    then Return (performanceData, performanceValidation, performance)
    else Return (salaryData, salaryValidation, salary)
  else Return ([], [], finalType).

(** The [try] block of step 4.  The first component is [finalType] as the
    [catch] and the code after it see it. *)
Definition mapAndValidate (expectedType detected : FileType)
  (rawData : list object)
  : FileType * outcome (list object * list ValidationResult) :=
  let finalType :=
    if FileType_eqb expectedType unknown then detected else expectedType in
  let first :=
    if FileType_eqb finalType salary || FileType_eqb finalType unknown
    then salaryBranch expectedType finalType rawData
    else Return ([], [], finalType) in
  match first with
  | Throw e => (finalType, Throw e)
  | Return (mappedData, validationResults, finalType') =>
      if FileType_eqb finalType' performance then
        (finalType',
         performanceData <- mapColumns rawData PERFORMANCE_COLUMN_MAPPINGS ;;
         Return (performanceData, validatePerformanceData performanceData))
      else (finalType', Return (mappedData, validationResults))
  end.

(** *** Step 5 *)

Definition rowMessages (index : nat) (messages : list string) : list string :=
  map (fun m => ("Row " ++ ofNat (index + 2) ++ ": " ++ m)%string) messages.

Definition collectErrors (validationResults : list ValidationResult)
  : list string :=
  concat (mapWithIndex
            (fun result index =>
               if negb (Validation.isValid result)
               then rowMessages index (Validation.errors result) else [])
            validationResults 0).

Definition collectWarnings (validationResults : list ValidationResult)
  : list string :=
  concat (mapWithIndex
            (fun result index => rowMessages index (Validation.warnings result))
            validationResults 0).

(** [mappedData.filter((_, index) => validationResults[index].isValid)];
    reading [isValid] off a missing result throws. *)
Fixpoint filterValid (mappedData : list object)
  (validationResults : list ValidationResult) : outcome (list object) :=
  match mappedData with
  | [] => Return []
  | row :: rows =>
      match validationResults with
      | [] => Throw (ThrownError
                "Cannot read properties of undefined (reading 'isValid')")
      | result :: results =>
          kept <- filterValid rows results ;;
          Return (if Validation.isValid result then row :: kept else kept)
      end
  end.

Section ParseFile.

Variable validateFile : File -> outcome (list ErrorHandler.Issue).
Variable parseCSV : File -> outcome Papa.ParseResult.
Variable parseXLSX : File -> outcome (list object).
Variable validateDataStructure :
  list object -> string -> outcome ErrorHandler.StructureValidation.

Definition fileExtension (file : File) : string :=
  toLowerCase (splitPop "." (name file)).

(** The inner [try] block of step 2. *)
Definition decode (file : File) : outcome (list object) :=
  let extension := fileExtension file in
  if String.eqb extension "csv" then
    parseResult <- parseCSV file ;;
    if Nat.ltb 0 (length (Papa.errors parseResult)) then
      Throw (ThrownError
               (join "; "
                  (map (fun e =>
                          ("CSV parsing error: "
                           ++ (if isEmpty (Papa.message e)
                               then Papa.type e else Papa.message e))%string)
                       (Papa.errors parseResult))))
    else Return (Papa.data parseResult)
  else if String.eqb extension "xlsx" || String.eqb extension "xls" then
    parseXLSX file
  else
    Throw (ThrownError
             ("Unsupported file type: " ++ extension
              ++ ". Please use CSV, XLSX, or XLS files.")%string).

(** A result without rows in [data]. *)
Definition rejected (file : File) (type : FileType) (rows : nat)
  (messages : list string) : FileUploadResult :=
  {| fileName := name file; fileType := type; rowCount := rows;
     validRows := 0; errors := messages; data := [] |}.

(** Step 5, after a mapping that did not throw. *)
Definition finish (file : File) (finalType : FileType)
  (rawData : list object) (structure : ErrorHandler.StructureValidation)
  (mappedData : list object) (validationResults : list ValidationResult)
  : outcome FileUploadResult :=
  let validRows := filter Validation.isValid validationResults in
  let allErrors := collectErrors validationResults in
  let allWarnings :=
    collectWarnings validationResults
    ++ map (fun w => ("Data structure: " ++ ErrorHandler.message w)%string)
           (ErrorHandler.warnings structure) in
  validMappedData <- filterValid mappedData validationResults ;;
  Return {| fileName := name file; fileType := finalType;
            rowCount := length rawData; validRows := length validRows;
            errors := allErrors
                      ++ map (fun w => ("Warning: " ++ w)%string) allWarnings;
            data := validMappedData |}.

(** The outer [try] block. *)
Definition parseFileTry (file : File) (expectedType : FileType)
  : outcome FileUploadResult :=
  fileValidationErrors <- validateFile file ;;
  if existsb (isSeverity "ERROR") fileValidationErrors then
    Return (rejected file unknown 0
              (map ErrorHandler.message
                 (filter (isSeverity "ERROR") fileValidationErrors)))
  else
    match decode file with
    | Throw parseError =>
        Return (rejected file unknown 0
                  [("Failed to parse file: "
                    ++ messageOr parseError "Unknown parsing error")%string])
    | Return rawData =>
        if Nat.eqb (length rawData) 0 then
          Return (rejected file unknown 0
                    ["File is empty or contains no valid data rows"])
        else
          structure <- validateDataStructure rawData (name file) ;;
          if negb (ErrorHandler.isValid structure) then
            Return (rejected file (ErrorHandler.detectedFormat structure)
                      (length rawData)
                      (map ErrorHandler.message (ErrorHandler.errors structure)
                       ++ map (fun w =>
                                 ("Warning: " ++ ErrorHandler.message w)%string)
                              (ErrorHandler.warnings structure)))
          else
            match mapAndValidate expectedType
                    (ErrorHandler.detectedFormat structure) rawData with
            | (finalType, Throw mappingError) =>
                Return (rejected file finalType (length rawData)
                          [("Column mapping failed: "
                            ++ messageOr mappingError "Unknown mapping error")%string])
            | (finalType, Return (mappedData, validationResults)) =>
                finish file finalType rawData structure
                  mappedData validationResults
            end
    end.

(** [parseFile]: the outer [try] with its [catch]. *)
Definition parseFile (file : File) (expectedType : FileType)
  : FileUploadResult :=
  match parseFileTry file expectedType with
  | Return result => result
  | Throw error =>
      rejected file unknown 0
        [ ("Critical parsing error: "
           ++ messageOr error "Unknown error occurred")%string;
          "Please check your file format and try again. Supported formats: CSV, XLSX, XLS";
          "Ensure your file contains the required columns: employeeId, name, and relevant data fields" ]
  end.

(** *** Where [parseFile] can meet an exception *)

(** The stages of [parseFile] that run code which may throw. *)
Inductive Stage : Type :=
| PreValidation
| Decoding
| StructureCheck
| ColumnMapping.

(** Step 1 lets the file through: no entry of severity ERROR. *)
Definition accepted (file : File) : Prop :=
  exists issues,
    validateFile file = Return issues
    /\ existsb (isSeverity "ERROR") issues = false.

(** Steps 1 to 3 pass and hand [rawData] and [structure] to step 4. *)
Definition reachesMapping (file : File) (rawData : list object)
  (structure : ErrorHandler.StructureValidation) : Prop :=
  accepted file
  /\ decode file = Return rawData
  /\ Nat.eqb (length rawData) 0 = false
  /\ validateDataStructure rawData (name file) = Return structure
  /\ ErrorHandler.isValid structure = true.

(** [Raises file expectedType stage rawData e]: the run of [parseFile] on
    [file] gets as far as [stage], which throws [e]; [rawData] is what had
    been decoded by then. *)
Inductive Raises (file : File) (expectedType : FileType)
  : Stage -> list object -> thrown -> Prop :=
| raises_validateFile (e : thrown) :
    validateFile file = Throw e ->
    Raises file expectedType PreValidation [] e
| raises_decode (e : thrown) :
    accepted file ->
    decode file = Throw e ->
    Raises file expectedType Decoding [] e
| raises_validateDataStructure (rawData : list object) (e : thrown) :
    accepted file ->
    decode file = Return rawData ->
    Nat.eqb (length rawData) 0 = false ->
    validateDataStructure rawData (name file) = Throw e ->
    Raises file expectedType StructureCheck rawData e
| raises_mapping (rawData : list object)
    (structure : ErrorHandler.StructureValidation)
    (finalType : FileType) (e : thrown) :
    reachesMapping file rawData structure ->
    mapAndValidate expectedType (ErrorHandler.detectedFormat structure) rawData
    = (finalType, Throw e) ->
    Raises file expectedType ColumnMapping rawData e.

(** The [rowCount] of the result that stands for an exception. *)
Definition rowsReported (stage : Stage) (rawData : list object) : nat :=
  match stage with
  | ColumnMapping => length rawData
  | _ => 0
  end.

End ParseFile.

(** *** Notions the properties are stated with *)

(** The fields the merge of a combined file copies. *)
Definition performanceFields : list string :=
  [ "performanceRating"; "businessImpactScore"; "retentionRisk" ].

(** The two validity rates step 4 computes, as functions of the rows. *)
Definition salaryValidityRate (rawData : list object) : outcome number :=
  salaryData <- mapSalary (hasPerformanceColumns rawData) rawData ;;
  Return (validityRate (validateSalaryData salaryData)).

Definition performanceValidityRate (rawData : list object) : outcome number :=
  performanceData <- mapColumns rawData PERFORMANCE_COLUMN_MAPPINGS ;;
  Return (validityRate (validatePerformanceData performanceData)).

(** Specification: the schema with the higher validity rate, salary on a
    tie. *)
Definition higherValidityRate (salaryRate performanceRate : number) : FileType :=
  if lt salaryRate performanceRate then performance else salary.

(** What step 4 does when the expected type is unknown: a detected
    performance format stands; otherwise a salary rate above one tenth
    settles for salary, and only below that the two rates are compared. *)
Definition adoptedSchema (detected : FileType)
  (salaryRate performanceRate : number) : FileType :=
  match detected with
  | performance => performance
  | _ =>
      if lt (Fin (1 # 10)) salaryRate then salary
      else higherValidityRate salaryRate performanceRate
  end.

(** A field is present when it holds a truthy value: text that is not
    empty, or a number other than zero. *)
Definition present (row : object) (field : string) : Prop :=
  truthy (get row field) = true.

(** A field is missing when the row has no such property or holds the
    empty text there. *)
Definition missing (row : object) (field : string) : Prop :=
  get row field = VUndefined \/ get row field = VString "".

(** A field holds a number greater than zero. *)
Definition positive (row : object) (field : string) : Prop :=
  exists n, get row field = VNumber n /\ lt (ofZ 0) n = true.

Fixpoint allWhiteSpace (s : string) : bool :=
  match s with
  | EmptyString => true
  | String c r => isWhiteSpace c && allWhiteSpace r
  end.

(** [headerVariant h h']: [h'] is [h] up to the case of its letters and up
    to white space around it. *)
Inductive headerVariant : string -> string -> Prop :=
| variant_same (h : string) : headerVariant h h
| variant_case (h h' : string) :
    toLowerCase h = toLowerCase h' -> headerVariant h h'
| variant_padded (h left right : string) :
    allWhiteSpace left = true -> allWhiteSpace right = true ->
    headerVariant h (left ++ h ++ right)
| variant_sym (h h' : string) : headerVariant h h' -> headerVariant h' h
| variant_trans (h1 h2 h3 : string) :
    headerVariant h1 h2 -> headerVariant h2 h3 -> headerVariant h1 h3.

(** Two rows with the same cells under headers that are variants of each
    other, column by column. *)
Definition rowVariant (row row' : object) : Prop :=
  Forall2 (fun cell cell' =>
             headerVariant (fst cell) (fst cell') /\ snd cell = snd cell')
          row row'.

End DataParser.

(** ** Sample collaborators and files *)

Module Sample.
Import JsString JsNumber JsValue DataParser.

(** A pre-validation that reports nothing. *)
Definition validateFile (_ : File) : outcome (list ErrorHandler.Issue) :=
  Return [].

(** A CSV decoder that reads [rows] without errors. *)
Definition parseCSV (rows : list object) (_ : File) : outcome Papa.ParseResult :=
  Return {| Papa.errors := []; Papa.data := rows |}.

Definition parseXLSX (rows : list object) (_ : File) : outcome (list object) :=
  Return rows.

(** A structure validation that finds nothing and detects [detected]. *)
Definition structureOk (detected : FileType) : ErrorHandler.StructureValidation :=
  {| ErrorHandler.isValid := true;
     ErrorHandler.errors := [];
     ErrorHandler.warnings := [];
     ErrorHandler.detectedFormat := detected |}.

Definition validateDataStructure (detected : FileType) (_ : list object)
  (_ : string) : outcome ErrorHandler.StructureValidation :=
  Return (structureOk detected).

(** [parseFile] on a CSV file that decodes to [rows]. *)
Definition parseRows (rows : list object) (detected : FileType)
  (file : File) (expectedType : FileType) : FileUploadResult :=
  parseFile validateFile (parseCSV rows) (parseXLSX rows)
    (validateDataStructure detected) file expectedType.

Definition csvFile : File := {| name := "export.csv"; bytes := "" |}.
Definition docxFile : File := {| name := "report.docx"; bytes := "" |}.

(** A performance sheet with a numeric risk score. *)
Definition riskScoreRows : list object :=
  [ [ ("employee id", VString "E1"); ("risk_score", VString "45") ] ].

(** Two rows, the second without a salary. *)
Definition halfValidRows : list object :=
  [ [ ("employee id", VString "E1"); ("name", VString "A");
      ("salary", VString "100") ];
    [ ("employee id", VString "E2"); ("name", VString "B");
      ("salary", VString "") ] ].

(** A combined export: salary columns, a rating and a yes/no risk flag. *)
Definition combinedRows : list object :=
  [ [ ("employee number", VString "E100");
      ("employee full name", VString "Jane Doe");
      ("salary", VString "95000");
      ("performance rating", VString "High");
      ("flight_risk", VString "No") ] ].

(** A salary sheet whose only row has an empty base salary. *)
Definition noSalaryRows : list object :=
  [ [ ("employee number", VString "E100");
      ("employee full name", VString "Jane Doe");
      ("base pay all countries", VString "");
      ("currency", VString "USD") ] ].

(** What the two mappings make of the rows above. *)
Definition halfValidSalaryData : list object :=
  [ [ ("employeeId", VString "E1"); ("name", VString "A");
      ("baseSalary", VNumber (ofZ 100)) ];
    [ ("employeeId", VString "E2"); ("name", VString "B");
      ("baseSalary", VString "") ] ].

Definition halfValidPerformanceData : list object :=
  [ [ ("employeeId", VString "E1"); ("name", VString "A") ];
    [ ("employeeId", VString "E2"); ("name", VString "B") ] ].

Definition combinedSalaryData : list object :=
  [ [ ("employeeId", VString "E100"); ("name", VString "Jane Doe");
      ("baseSalary", VNumber (ofZ 95000)) ] ].

Definition combinedPerformanceData : list object :=
  [ [ ("employeeId", VString "E100"); ("name", VString "Jane Doe");
      ("performanceRating", VString "High");
      ("retentionRisk", VNumber (ofZ 0)) ] ].

Definition noSalaryMapped : object :=
  [ ("employeeId", VString "E100"); ("name", VString "Jane Doe");
    ("baseSalary", VString ""); ("currency", VString "USD") ].

End Sample.

(** ** The raise recommendation *)

(** The call site in [EmployeeDetail]: the budget constraints handed to
    [EmployeeCalculations.calculateOptimalRaise]. *)
Module EmployeeDetail.
Import JsString.



End EmployeeDetail.

Module EmployeeCalculations.
Import EmployeeDetail.

Section OptimalRaise.

(** The amount that scales with the total risk and with how far below the
    grade midpoint the salary sits; the specification gives no formula for
    it. *)
Variable scaledAmount : Q -> Q -> Q.


End OptimalRaise.

End EmployeeCalculations.

(** ** Character classes of a text *)

Module Chars.
Import JsString.

(** Every character of the text is in the class. *)
Fixpoint allChars (inClass : ascii -> bool) (s : string) : bool :=
  match s with
  | EmptyString => true
  | String c r => inClass c && allChars inClass r
  end.

Definition notDigit (c : ascii) : bool := negb (isDigit c).

Definition dotOrDash (c : ascii) : bool :=
  Ascii.eqb c "." || Ascii.eqb c "-".

Definition digitOrDot (c : ascii) : bool := isDigit c || Ascii.eqb c ".".

End Chars.

(** ** Turning a decoded worksheet into rows *)

(** The part of [DataParser.parseXLSX] that follows the four calls of
    [XLSX.utils.sheet_to_json]: choosing one of the four decodings and making
    an object with normalized keys and trimmed text out of every row.  A cell
    is text, a number, [null] or [undefined]. *)
Module Worksheet.
Import JsString JsNumber JsValue DataParser.

Section Rows.

(** [Number.prototype.toString], the text of a numeric cell. *)
Variable numberToString : number -> string.

(** [cell.toString()] and [String(cell)]. *)
Definition cellText (cell : value) : string :=
  match cell with
  | VString s => s
  | VNumber n => numberToString n
  | VNull => "null"
  | VUndefined => "undefined"
  end.

(** [cell?.toString().trim() || ''], which is also
    [cell !== null && cell !== undefined ? cell.toString().trim() : '']. *)
Definition normalizedCell (cell : value) : value :=
  match cell with
  | VUndefined | VNull => VString ""
  | _ => VString (trim (cellText cell))
  end.

(** [obj[key] = v] on an object made by [{}]: the name [__proto__] reaches
    the inherited setter, which ignores a text, and makes no property. *)
Definition assign (obj : object) (key : string) (v : value) : object :=
  if String.eqb key "__proto__" then obj else set obj key v.

(** The object format: one turn of [Object.keys(row).forEach], and the row. *)
Definition normalizeEntry (normalizedRow : object) (entry : string * value)
  : object :=
  assign normalizedRow (normalizeKey (fst entry)) (normalizedCell (snd entry)).

Definition normalizeObjectRow (row : object) : object :=
  fold_left normalizeEntry row [].

(** The array format: the headers are the cells of the first row that are
    neither [null] nor [undefined] nor the empty text. *)
Definition isHeader (h : value) : bool :=
  match h with
  | VUndefined | VNull => false
  | VString s => negb (isEmpty s)
  | VNumber _ => true
  end.

Definition headersOf (first : list value) : list string :=
  map (fun h => normalizeKey (cellText h)) (filter isHeader first).

(** The test of [row.some]: a cell with something in it. *)
Definition hasContent (cell : value) : bool :=
  match cell with
  | VUndefined | VNull => false
  | VString s => negb (isEmpty s) && negb (isEmpty (trim s))
  | VNumber n => negb (isEmpty (trim (numberToString n)))
  end.

(** [headers.forEach((header, index) => obj[header] = ...row[index]...)],
    from [index] on. *)
Fixpoint fillRow (headers : list string) (index : nat) (row : list value)
  (obj : object) : object :=
  match headers with
  | [] => obj
  | header :: rest =>
      fillRow rest (S index) row
        (assign obj header (normalizedCell (nth index row VUndefined)))
  end.

Definition arrayRowObject (headers : list string) (row : list value) : object :=
  fillRow headers 0 row [].

(** What [jsonData] and [useObjectFormat] come to. *)
Inductive SheetData : Type :=
| ObjectFormat (rows : list object)
| ArrayFormat (rows : list (list value)).

Definition sheetLength (jsonData : SheetData) : nat :=
  match jsonData with
  | ObjectFormat rows => length rows
  | ArrayFormat rows => length rows
  end.

Definition chooseSheetData (jsonDataObj : list object)
  (jsonDataForced jsonDataRaw jsonDataWithBlanks : list (list value))
  : outcome SheetData :=
  if Nat.ltb 0 (length jsonDataObj) then Return (ObjectFormat jsonDataObj)
  else if Nat.ltb 1 (length jsonDataForced) then Return (ArrayFormat jsonDataForced)
  else if Nat.ltb 1 (length jsonDataRaw) then Return (ArrayFormat jsonDataRaw)
  else if Nat.ltb 1 (length jsonDataWithBlanks)
       then Return (ArrayFormat jsonDataWithBlanks)
  else Throw (ThrownError "Worksheet contains only headers, no data rows").

(** From the four decodings to the rows [parseXLSX] resolves with, or the
    error it rejects with. *)
Definition sheetRows (jsonDataObj : list object)
  (jsonDataForced jsonDataRaw jsonDataWithBlanks : list (list value))
  : outcome (list object) :=
  jsonData <- chooseSheetData jsonDataObj jsonDataForced jsonDataRaw
                jsonDataWithBlanks ;;
  if Nat.eqb (sheetLength jsonData) 0 then
    Throw (ThrownError "Worksheet is empty")
  else
    match jsonData with
    | ObjectFormat rows => Return (map normalizeObjectRow rows)
    | ArrayFormat [] =>
        Throw (ThrownError
                 "Cannot read properties of undefined (reading 'filter')")
    | ArrayFormat (first :: rest) =>
        Return (map (arrayRowObject (headersOf first))
                  (filter (existsb hasContent) rest))
    end.

End Rows.

End Worksheet.

(** ** The employee detail view *)

(** The parts of the [EmployeeDetail] component that compute on the employee
    record alone. *)
Module DetailView.
Import JsString JsNumber JsValue.

(** The test of [extractFieldValue]: neither [undefined] nor [null] nor the
    empty text. *)
Definition usable (v : value) : bool :=
  match v with
  | VUndefined | VNull => false
  | VString s => negb (isEmpty s)
  | VNumber _ => true
  end.

Fixpoint extractFieldValue (employee : object) (fieldNames : list string)
  (defaultValue : value) : value :=
  match fieldNames with
  | [] => defaultValue
  | fieldName :: rest =>
      if usable (get employee fieldName) then get employee fieldName
      else extractFieldValue employee rest defaultValue
  end.

Definition baseSalaryUSDFields : list string :=
  [ "baseSalaryUSD"; "base_salary_usd"; "salary_usd"; "annual_salary_usd";
    "Base Salary USD"; "Annual Salary USD"; "USD Salary" ].

Definition baseSalaryFields : list string :=
  [ "baseSalary"; "base_salary"; "salary"; "annual_salary";
    "Base Salary"; "Annual Salary"; "Base Pay All Countries"; "Total Base Pay";
    "Annual Calculated Base Pay All Countries" ].

Definition baseSalaryUSD (employee : object) : value :=
  extractFieldValue employee baseSalaryUSDFields (VNumber (ofZ 0)).

(** The local salary, the salary in dollars standing in when there is none. *)
Definition baseSalary (employee : object) : value :=
  extractFieldValue employee baseSalaryFields (baseSalaryUSD employee).

Record Badge : Type := { text : string; className : string }.

Definition getPerformanceBadge (rating : value) : Badge :=
  if negb (truthy rating) then {| text := "N/A"; className := "noData" |}
  else
    match rating with
    | VString label =>
        let ratingLower := toLowerCase label in
        if includes ratingLower "high" || includes ratingLower "excellent"
           || includes ratingLower "impact"
        then {| text := label; className := "excellent" |}
        else if includes ratingLower "successful" || includes ratingLower "good"
                || includes ratingLower "meets"
        then {| text := label; className := "good" |}
        else if includes ratingLower "developing" || includes ratingLower "fair"
                || includes ratingLower "partial"
        then {| text := label; className := "fair" |}
        else if includes ratingLower "evolving"
        then {| text := label; className := "poor" |}
        else if includes ratingLower "poor" || includes ratingLower "below"
                || includes ratingLower "needs"
        then {| text := label; className := "poor" |}
        else {| text := label; className := "good" |}
    | _ =>
        let numRating := toNumber rating in
        if le numRating (ofZ 0) then {| text := "N/A"; className := "noData" |}
        else if le (Fin (9 # 2)) numRating
        then {| text := "Excellent"; className := "excellent" |}
        else if le (ofZ 4) numRating
        then {| text := "Good"; className := "good" |}
        else if le (Fin (7 # 2)) numRating
        then {| text := "Fair"; className := "fair" |}
        else if le (ofZ 3) numRating
        then {| text := "Poor"; className := "poor" |}
        else {| text := "Critical"; className := "critical" |}
    end.

(** The rating the performance card shows, and the badge it is styled with. *)
Definition shownRating (employee : object) : value :=
  orElse (get employee "performanceRating")
    (orElse (get employee "CALIBRATED VALUE: Overall Performance Rating")
       (orElse (get employee "calibrated value: overall performance rating")
          (VString "Not Available"))).

Definition ratingBadge (employee : object) : Badge :=
  getPerformanceBadge (shownRating employee).

End DetailView.

(** ** The application state *)

(** The handlers of [App] that compute on the state: the recovery of a
    session, and the update of an employee. *)
Module App.
Import JsString JsNumber JsValue DataParser.

(** [s.split(sep)] for a one-character separator. *)
Fixpoint split (sep : ascii) (s : string) : list string :=
  match s with
  | EmptyString => [EmptyString]
  | String c r =>
      if Ascii.eqb c sep then EmptyString :: split sep r
      else match split sep r with
           | first :: rest => String c first :: rest
           | [] => [String c EmptyString]
           end
  end.

(** [name.split(' ')[0] || ''] and [name.split(' ').slice(1).join(' ') || '']. *)
Definition firstNameOf (name : string) : string :=
  hd EmptyString (split " " name).

Definition lastNameOf (name : string) : string :=
  join " " (tl (split " " name)).

(** [{...target, ...source}] *)
Definition spread (target source : object) : object :=
  fold_left (fun obj entry => set obj (fst entry) (snd entry)) source target.

(** [{...emp, firstName: ..., lastName: ...}]; a name that is no text has no
    [split] to call. *)
Definition convertEmployee (emp : object) : outcome object :=
  match get emp "name" with
  | VString name =>
      Return (set (set emp "firstName" (VString (firstNameOf name)))
                "lastName" (VString (lastNameOf name)))
  | VUndefined =>
      Throw (ThrownError
               "Cannot read properties of undefined (reading 'split')")
  | VNull =>
      Throw (ThrownError "Cannot read properties of null (reading 'split')")
  | VNumber _ => Throw (ThrownError "emp.name.split is not a function")
  end.

(** [a === b] *)
Definition strictEquals (a b : value) : bool :=
  match a, b with
  | VUndefined, VUndefined => true
  | VNull, VNull => true
  | VString s, VString t => String.eqb s t
  | VNumber (Fin x), VNumber (Fin y) => Qeq_bool x y
  | VNumber (Infinity x), VNumber (Infinity y) => Bool.eqb x y
  | _, _ => false
  end.

(** The new list of [handleEmployeeUpdate]. *)
Definition updateEmployees (employeeId : value) (updates : object)
  (prev : list object) : list object :=
  map (fun emp =>
         if strictEquals (get emp "employeeId") employeeId
         then spread emp updates else emp)
      prev.

Inductive View : Type := upload | dashboard.

Module Storage.
(** An entry of [fileMetadata], and the metadata of a session. *)
Record FileMetadata : Type := { name : string; rowCount : nat }.
Record Session : Type := {
  salaryFile : option FileMetadata;
  performanceFile : option FileMetadata
}.
End Storage.

Module Backup.
(** [BackupData], [budget.totalBudget] and [budget.budgetCurrency] flattened. *)
Record BackupData : Type := {
  employees : list object;
  totalBudget : number;
  budgetCurrency : string
}.
End Backup.

Record AppState : Type := {
  uploadedFiles : list FileUploadResult;
  currentView : View;
  error : option string;
  processedEmployees : list object;
  isLoadingSession : bool;
  showResetConfirm : bool;
  totalBudget : number;
  budgetCurrency : string
}.

(** The state [App] starts in. *)
Definition initialState : AppState :=
  {| uploadedFiles := []; currentView := upload; error := None;
     processedEmployees := []; isLoadingSession := true;
     showResetConfirm := false; totalBudget := ofZ 0; budgetCurrency := "USD" |}.

Definition setProcessedEmployees (employees : list object) (s : AppState) : AppState :=
  {| uploadedFiles := uploadedFiles s; currentView := currentView s;
     error := error s; processedEmployees := employees;
     isLoadingSession := isLoadingSession s;
     showResetConfirm := showResetConfirm s; totalBudget := totalBudget s;
     budgetCurrency := budgetCurrency s |}.

Definition setUploadedFiles (files : list FileUploadResult) (s : AppState) : AppState :=
  {| uploadedFiles := files; currentView := currentView s;
     error := error s; processedEmployees := processedEmployees s;
     isLoadingSession := isLoadingSession s;
     showResetConfirm := showResetConfirm s; totalBudget := totalBudget s;
     budgetCurrency := budgetCurrency s |}.

Definition setCurrentView (view : View) (s : AppState) : AppState :=
  {| uploadedFiles := uploadedFiles s; currentView := view;
     error := error s; processedEmployees := processedEmployees s;
     isLoadingSession := isLoadingSession s;
     showResetConfirm := showResetConfirm s; totalBudget := totalBudget s;
     budgetCurrency := budgetCurrency s |}.

Definition setBudget (budget : number) (currency : string) (s : AppState) : AppState :=
  {| uploadedFiles := uploadedFiles s; currentView := currentView s;
     error := error s; processedEmployees := processedEmployees s;
     isLoadingSession := isLoadingSession s;
     showResetConfirm := showResetConfirm s; totalBudget := budget;
     budgetCurrency := currency |}.

Definition setIsLoadingSession (loading : bool) (s : AppState) : AppState :=
  {| uploadedFiles := uploadedFiles s; currentView := currentView s;
     error := error s; processedEmployees := processedEmployees s;
     isLoadingSession := loading;
     showResetConfirm := showResetConfirm s; totalBudget := totalBudget s;
     budgetCurrency := budgetCurrency s |}.

(** The entry [recoverSession] makes for a file of the session: all its rows
    taken as valid, no errors, no data. *)
Definition reconstructedFile (type : FileType) (file : Storage.FileMetadata)
  : FileUploadResult :=
  {| fileName := Storage.name file; fileType := type;
     rowCount := Storage.rowCount file; validRows := Storage.rowCount file;
     errors := []; data := [] |}.

Definition reconstructedFiles (session : Storage.Session) : list FileUploadResult :=
  match Storage.salaryFile session with
  | Some file => [reconstructedFile salary file]
  | None => []
  end
  ++ match Storage.performanceFile session with
     | Some file => [reconstructedFile performance file]
     | None => []
     end.

Section SessionRecovery.

(** The three calls into the stores, each with what it returns or throws. *)
Variable getEmployees : outcome (list object).
Variable getCurrentSession : outcome (option Storage.Session).
Variable restoreFromStorage : outcome (option Backup.BackupData).

(** The [try] block of [recoverSession]: the state as the updates made
    before an exception, if any, leave it. *)
Definition recoverSessionTry (s : AppState) : AppState :=
  match getEmployees with
  | Throw _ => s
  | Return existingEmployees =>
      if Nat.ltb 0 (length existingEmployees) then
        match mapOutcome convertEmployee existingEmployees with
        | Throw _ => s
        | Return convertedEmployees =>
            let s1 := setProcessedEmployees convertedEmployees s in
            match getCurrentSession with
            | Throw _ => s1
            | Return (Some currentSession) =>
                setCurrentView dashboard
                  (setUploadedFiles (reconstructedFiles currentSession) s1)
            | Return None => setCurrentView dashboard s1
            end
        end
      else
        match restoreFromStorage with
        | Throw _ => s
        | Return (Some backupData) =>
            if Nat.ltb 0 (length (Backup.employees backupData)) then
              setCurrentView dashboard
                (setBudget (Backup.totalBudget backupData)
                   (Backup.budgetCurrency backupData)
                   (setProcessedEmployees (Backup.employees backupData) s))
            else s
        | Return None => s
        end
  end.

(** [recoverSession]: the [try], its silent [catch], and the [finally]. *)
Definition recoverSession (s : AppState) : AppState :=
  setIsLoadingSession false (recoverSessionTry s).

End SessionRecovery.

End App.

(** ** Sample data for the further properties *)

Module Examples.
Import JsString JsNumber JsValue DataParser.

(** A pre-validation that rejects the file, with a warning before the error. *)
Definition rejectingValidateFile (_ : File) : outcome (list ErrorHandler.Issue) :=
  Return [ {| ErrorHandler.severity := "WARNING";
              ErrorHandler.message := "File is large" |};
           {| ErrorHandler.severity := "ERROR";
              ErrorHandler.message := "File is too large" |} ].

(** A CSV decoder that reports two errors beside the rows it read. *)
Definition failingParseCSV (rows : list object) (_ : File)
  : outcome Papa.ParseResult :=
  Return {| Papa.errors :=
              [ {| Papa.message := "Too few fields"; Papa.type := "FieldMismatch" |};
                {| Papa.message := ""; Papa.type := "Quotes" |} ];
            Papa.data := rows |}.

(** A structure validation that fails with an error and a warning. *)
Definition structureFailed : ErrorHandler.StructureValidation :=
  {| ErrorHandler.isValid := false;
     ErrorHandler.errors :=
       [ {| ErrorHandler.severity := "ERROR";
            ErrorHandler.message := "No recognizable columns" |} ];
     ErrorHandler.warnings :=
       [ {| ErrorHandler.severity := "WARNING";
            ErrorHandler.message := "Few rows" |} ];
     ErrorHandler.detectedFormat := performance |}.

Definition failingValidateDataStructure (_ : list object) (_ : string)
  : outcome ErrorHandler.StructureValidation :=
  Return structureFailed.

(** A row with a column the salary table does not know. *)
Definition rowWithNotes : object :=
  [ ("Employee ID", VString "E1"); ("Notes", VString "on leave");
    ("Salary", VString "100") ].

Definition rowWithNotesMapped : object :=
  [ ("employeeId", VString "E1"); ("baseSalary", VNumber (ofZ 100)) ].

(** A row with two columns for the base salary. *)
Definition rowWithTwoSalaries : object :=
  [ ("base salary", VString "100"); ("salary", VString "200");
    ("currency", VString "USD") ].

Definition rowWithTwoSalariesMapped : object :=
  [ ("baseSalary", VNumber (ofZ 200)); ("currency", VString "USD") ].

(** The text of a number, right on the whole numbers from 0 on. *)
Definition numberToString (n : number) : string :=
  match n with
  | Fin q => ofNat (Z.to_nat (Qnum q))
  | _ => "NaN"
  end.

(** A sheet in the array format: a header row with a blank cell, a data row
    and a row without content. *)
Definition sheetArrays : list (list value) :=
  [ [ VString " Employee ID "; VString ""; VString "Salary" ];
    [ VString "E1"; VNumber (ofZ 100) ];
    [ VString ""; VNull ] ].

Definition sheetObjects : list object :=
  [ [ ("employee id", VString "E1"); ("salary", VString "100") ] ].

(** An employee whose local salary is under the third name. *)
Definition employeeWithSalary : object :=
  [ ("baseSalary", VString ""); ("salary", VNumber (ofZ 0)) ].

(** Stored employees, and an update of a proposed raise. *)
Definition storedEmployees : list object :=
  [ [ ("employeeId", VString "E1"); ("name", VString "Jane van Doe") ];
    [ ("employeeId", VString "E2"); ("name", VString "Alex") ] ].

Definition storedWithoutName : list object :=
  [ [ ("employeeId", VString "E1"); ("name", VString "Jane van Doe") ];
    [ ("employeeId", VString "E2") ] ].

Definition raiseUpdate : object :=
  [ ("proposedRaise", VNumber (ofZ 5000)) ].

(** A combined export whose only row has an empty base salary, a rating and
    a risk score. *)
Definition combinedNoSalaryRows : list object :=
  [ [ ("employee number", VString "E100");
      ("employee full name", VString "Jane Doe");
      ("base pay all countries", VString "");
      ("performance rating", VString "High");
      ("risk_score", VString "45") ] ].

End Examples.

(** * Properties *)

Import JsString JsNumber JsValue DataParser.

Local Open Scope nat_scope.

#[local] Arguments JsNumber.lt : simpl never.
#[local] Arguments JsNumber.le : simpl never.
#[local] Arguments validityRate : simpl never.
#[local] Arguments mapColumns : simpl never.
#[local] Arguments validateSalaryRow : simpl never.
#[local] Arguments validatePerformanceRow : simpl never.

(** ** Lists and outcomes *)

Lemma mapWithIndex_length {A B : Type} (f : A -> nat -> B) (xs : list A) (i : nat) :
  length (mapWithIndex f xs i) = length xs.
Proof.
  revert i; induction xs as [|x r IH]; intros i; simpl; [reflexivity|].
  now rewrite IH.
Qed.

Lemma mapOutcome_length {A B : Type} (f : A -> outcome B) (xs : list A) (ys : list B) :
  mapOutcome f xs = Return ys -> length ys = length xs.
Proof.
  revert ys; induction xs as [|x r IH]; intros ys; simpl.
  - intros H; inversion H; reflexivity.
  - destruct (f x) as [y|e]; simpl; [|discriminate].
    destruct (mapOutcome f r) as [zs|e]; simpl; [|discriminate].
    intros H; inversion H; subst; simpl.
    now rewrite (IH zs eq_refl).
Qed.

Lemma mapOutcome_nth {A B : Type} (f : A -> outcome B) (xs : list A) (ys : list B) :
  mapOutcome f xs = Return ys ->
  forall i x, nth_error xs i = Some x ->
  exists y, f x = Return y /\ nth_error ys i = Some y.
Proof.
  revert ys; induction xs as [|x0 r IH]; intros ys H i x Hi.
  - destruct i; discriminate.
  - simpl in H.
    destruct (f x0) as [y0|e] eqn:E0; simpl in H; [|discriminate].
    destruct (mapOutcome f r) as [zs|e] eqn:Er; simpl in H; [|discriminate].
    inversion H; subst; clear H.
    destruct i as [|i]; simpl in Hi.
    + inversion Hi; subst. exists y0; split; [assumption|reflexivity].
    + simpl. apply (IH zs eq_refl i x Hi).
Qed.

Lemma mergePerformance_length (salaryData performanceData : list object) :
  length (mergePerformance salaryData performanceData) = length salaryData.
Proof.
  revert performanceData; induction salaryData as [|s r IH]; intros p; simpl.
  - reflexivity.
  - destruct p; simpl; now rewrite IH.
Qed.

Lemma filter_length_le {A : Type} (p : A -> bool) (xs : list A) :
  length (filter p xs) <= length xs.
Proof.
  induction xs as [|x r IH]; simpl; [lia|].
  destruct (p x); simpl; lia.
Qed.

Lemma filterValid_total (mappedData : list object)
  (validationResults : list ValidationResult) :
  length mappedData = length validationResults ->
  exists kept,
    filterValid mappedData validationResults = Return kept
    /\ length kept = length (filter Validation.isValid validationResults).
Proof.
  revert validationResults.
  induction mappedData as [|row rows IH]; intros [|v vs] H; simpl in *;
    try discriminate.
  - exists []; split; reflexivity.
  - injection H as H. destruct (IH vs H) as [kept [E L]].
    rewrite E; simpl.
    destruct (Validation.isValid v); eexists; split; try reflexivity; simpl; lia.
Qed.

(** ** The mapping stage keeps one validation result per mapped row *)

Lemma mapSalary_length (combined : bool) (rawData salaryData : list object) :
  mapSalary combined rawData = Return salaryData ->
  length salaryData = length rawData.
Proof.
  unfold mapSalary, mapColumns.
  destruct (mapOutcome (mapRow SALARY_COLUMN_MAPPINGS) rawData) as [s|e] eqn:Es;
    simpl; [|discriminate].
  apply mapOutcome_length in Es.
  destruct combined.
  - destruct (mapOutcome (mapRow PERFORMANCE_COLUMN_MAPPINGS) rawData) as [p|e];
      simpl; [|discriminate].
    intros H; inversion H; subst. now rewrite mergePerformance_length.
  - intros H; inversion H; subst; assumption.
Qed.

Lemma salaryBranch_lengths (expectedType finalType finalType' : FileType)
  (rawData mappedData : list object) (validationResults : list ValidationResult) :
  salaryBranch expectedType finalType rawData
  = Return (mappedData, validationResults, finalType') ->
  length mappedData = length validationResults
  /\ length validationResults <= length rawData.
Proof.
  unfold salaryBranch.
  destruct (mapSalary (hasPerformanceColumns rawData) rawData) as [s|e] eqn:Es;
    simpl; [|discriminate].
  apply mapSalary_length in Es.
  assert (Hs : length s = length (validateSalaryData s))
    by (unfold validateSalaryData; now rewrite mapWithIndex_length).
  destruct (_ || _).
  - intros H; inversion H; subst. split; [assumption|lia].
  - destruct (FileType_eqb expectedType unknown).
    + unfold mapColumns.
      destruct (mapOutcome (mapRow PERFORMANCE_COLUMN_MAPPINGS) rawData)
        as [p|e] eqn:Ep; simpl; [|discriminate].
      apply mapOutcome_length in Ep.
      assert (Hp : length p = length (validatePerformanceData p))
        by (unfold validatePerformanceData; now rewrite mapWithIndex_length).
      destruct (lt _ _); intros H; inversion H; subst; split; try assumption; lia.
    + intros H; inversion H; subst; simpl; split; [reflexivity|lia].
Qed.

Lemma mapAndValidate_lengths (expectedType detected finalType : FileType)
  (rawData mappedData : list object) (validationResults : list ValidationResult) :
  mapAndValidate expectedType detected rawData
  = (finalType, Return (mappedData, validationResults)) ->
  length mappedData = length validationResults
  /\ length validationResults <= length rawData.
Proof.
  unfold mapAndValidate.
  set (ft := if FileType_eqb expectedType unknown then detected else expectedType).
  destruct (FileType_eqb ft salary || FileType_eqb ft unknown).
  - destruct (salaryBranch expectedType ft rawData) as [[[md vr] ft']|e] eqn:Eb;
      [|intros H; inversion H].
    apply salaryBranch_lengths in Eb.
    destruct (FileType_eqb ft' performance).
    + unfold mapColumns.
      destruct (mapOutcome (mapRow PERFORMANCE_COLUMN_MAPPINGS) rawData)
        as [p|e] eqn:Ep; simpl; intros H; inversion H; subst.
      apply mapOutcome_length in Ep.
      unfold validatePerformanceData; rewrite mapWithIndex_length; lia.
    + intros H; inversion H; subst; assumption.
  - destruct (FileType_eqb ft performance).
    + unfold mapColumns.
      destruct (mapOutcome (mapRow PERFORMANCE_COLUMN_MAPPINGS) rawData)
        as [p|e] eqn:Ep; simpl; intros H; inversion H; subst.
      apply mapOutcome_length in Ep.
      unfold validatePerformanceData; rewrite mapWithIndex_length; lia.
    + intros H; inversion H; subst; simpl; split; [reflexivity|lia].
Qed.

(** ** Objects *)

Lemma get_set_same (o : object) (k : string) (v : value) :
  get (set o k v) k = v.
Proof.
  induction o as [|[k' v'] r IH]; simpl.
  - now rewrite String.eqb_refl.
  - destruct (String.eqb k' k) eqn:E; simpl.
    + now rewrite String.eqb_refl.
    + now rewrite E.
Qed.

Lemma get_set_other (o : object) (k k' : string) (v : value) :
  String.eqb k k' = false -> get (set o k v) k' = get o k'.
Proof.
  intros Hk. induction o as [|[k0 v0] r IH]; simpl.
  - now rewrite Hk.
  - destruct (String.eqb k0 k) eqn:E; simpl.
    + apply String.eqb_eq in E; subst k0. now rewrite Hk.
    + destruct (String.eqb k0 k'); [reflexivity|assumption].
Qed.

Lemma keys_set (o : object) (k k' : string) (v : value) :
  In k' (keys (set o k v)) -> k' = k \/ In k' (keys o).
Proof.
  unfold keys. induction o as [|[k0 v0] r IH]; simpl.
  - intros [H|[]]; left; now symmetry.
  - destruct (String.eqb k0 k) eqn:E; simpl.
    + intros [H|H]; [left; now symmetry|right; now right].
    + intros [H|H]; [right; now left|].
      destruct (IH H) as [H'|H']; [now left|right; now right].
Qed.

Lemma get_absent (o : object) (k : string) :
  ~ In k (keys o) -> get o k = VUndefined.
Proof.
  unfold keys. induction o as [|[k0 v0] r IH]; simpl; [reflexivity|].
  intros H. destruct (String.eqb k0 k) eqn:E.
  - apply String.eqb_eq in E. exfalso; apply H; now left.
  - apply IH. intros H'; apply H; now right.
Qed.

(** ** The merge of a combined file *)

Lemma copyIfTruthy_other (field field' : string) (performanceRow salaryRow : object) :
  String.eqb field field' = false ->
  get (copyIfTruthy field performanceRow salaryRow) field' = get salaryRow field'.
Proof.
  intros H. unfold copyIfTruthy.
  destruct (truthy (get performanceRow field)); [|reflexivity].
  now apply get_set_other.
Qed.

Lemma copyIfTruthy_same (field : string) (performanceRow salaryRow : object) :
  truthy (get performanceRow field) = true ->
  get (copyIfTruthy field performanceRow salaryRow) field = get performanceRow field.
Proof.
  intros H. unfold copyIfTruthy. rewrite H. apply get_set_same.
Qed.

Lemma copyIfTruthy_keys (field field' : string) (performanceRow salaryRow : object) :
  In field' (keys (copyIfTruthy field performanceRow salaryRow)) ->
  (field' = field /\ truthy (get performanceRow field) = true)
  \/ In field' (keys salaryRow).
Proof.
  unfold copyIfTruthy.
  destruct (truthy (get performanceRow field)) eqn:E; [|now right].
  intros H. destruct (keys_set _ _ _ _ H); [left; now split|now right].
Qed.

(** A truthy performance field reaches the merged row; every other field of
    the merged row is the salary row's. *)
Lemma mergeRow_copied (salaryRow performanceRow : object) (field : string) :
  In field performanceFields ->
  truthy (get performanceRow field) = true ->
  get (mergeRow salaryRow performanceRow) field = get performanceRow field.
Proof.
  intros Hin Ht. unfold mergeRow.
  destruct Hin as [<-|[<-|[<-|[]]]].
  - rewrite !copyIfTruthy_other by reflexivity. now apply copyIfTruthy_same.
  - rewrite copyIfTruthy_other by reflexivity. now apply copyIfTruthy_same.
  - now apply copyIfTruthy_same.
Qed.

Lemma mergeRow_kept (salaryRow performanceRow : object) (field : string) :
  ~ In field performanceFields ->
  get (mergeRow salaryRow performanceRow) field = get salaryRow field.
Proof.
  intros Hn. unfold mergeRow.
  assert (H : forall f, In f performanceFields -> String.eqb f field = false).
  { intros f Hf. destruct (String.eqb f field) eqn:E; [|reflexivity].
    apply String.eqb_eq in E; subst f. contradiction. }
  rewrite !copyIfTruthy_other; [reflexivity| | |]; apply H; simpl; auto.
Qed.

Lemma mergeRow_keys (salaryRow performanceRow : object) (field : string) :
  In field (keys (mergeRow salaryRow performanceRow)) ->
  (In field performanceFields /\ truthy (get performanceRow field) = true)
  \/ In field (keys salaryRow).
Proof.
  unfold mergeRow. intros H.
  apply copyIfTruthy_keys in H. destruct H as [[-> Ht]|H]; [left; simpl; auto|].
  apply copyIfTruthy_keys in H. destruct H as [[-> Ht]|H]; [left; simpl; auto|].
  apply copyIfTruthy_keys in H. destruct H as [[-> Ht]|H]; [left; simpl; auto|].
  now right.
Qed.

Lemma mergePerformance_nth (salaryData performanceData : list object) (i : nat)
  (salaryRow performanceRow : object) :
  nth_error salaryData i = Some salaryRow ->
  nth_error performanceData i = Some performanceRow ->
  nth_error (mergePerformance salaryData performanceData) i
  = Some (mergeRow salaryRow performanceRow).
Proof.
  revert performanceData i.
  induction salaryData as [|s r IH]; intros p i Hs Hp.
  - destruct i; discriminate.
  - destruct p as [|p0 p]; [destruct i; discriminate|].
    destruct i as [|i]; simpl in *.
    + now inversion Hs; inversion Hp; subst.
    + now apply IH.
Qed.

(** ** The schema step 4 settles on *)

Lemma mapAndValidate_unknown (detected : FileType) (rawData : list object)
  (salaryData performanceData : list object) :
  mapSalary (hasPerformanceColumns rawData) rawData = Return salaryData ->
  mapColumns rawData PERFORMANCE_COLUMN_MAPPINGS = Return performanceData ->
  let adopted :=
    adoptedSchema detected
      (validityRate (validateSalaryData salaryData))
      (validityRate (validatePerformanceData performanceData)) in
  mapAndValidate unknown detected rawData
  = (adopted,
     Return (if FileType_eqb adopted performance
             then (performanceData, validatePerformanceData performanceData)
             else (salaryData, validateSalaryData salaryData))).
Proof.
  intros Hs Hp. unfold mapAndValidate, adoptedSchema, higherValidityRate; simpl.
  destruct detected; simpl.
  - unfold salaryBranch. rewrite Hs; simpl.
    destruct (lt (Fin (1 # 10)) (validityRate (validateSalaryData salaryData)));
      simpl; [reflexivity|].
    rewrite Hp; simpl.
    destruct (lt (validityRate (validateSalaryData salaryData))
                (validityRate (validatePerformanceData performanceData)));
      simpl; reflexivity.
  - rewrite Hp; reflexivity.
  - unfold salaryBranch. rewrite Hs; simpl.
    destruct (lt (Fin (1 # 10)) (validityRate (validateSalaryData salaryData)));
      simpl; [reflexivity|].
    rewrite Hp; simpl.
    destruct (lt (validityRate (validateSalaryData salaryData))
                (validityRate (validatePerformanceData performanceData)));
      simpl; reflexivity.
Qed.

(** With a schema other than performance, step 4 hands on the salary rows. *)
Lemma mapAndValidate_salary (expectedType detected : FileType)
  (rawData mappedData : list object) (validationResults : list ValidationResult) :
  mapAndValidate expectedType detected rawData
  = (salary, Return (mappedData, validationResults)) ->
  mapSalary (hasPerformanceColumns rawData) rawData = Return mappedData
  /\ validationResults = validateSalaryData mappedData.
Proof.
  unfold mapAndValidate.
  set (ft := if FileType_eqb expectedType unknown then detected else expectedType).
  destruct (FileType_eqb ft salary || FileType_eqb ft unknown) eqn:Eft.
  - unfold salaryBranch.
    destruct (mapSalary (hasPerformanceColumns rawData) rawData) as [s|e] eqn:Es;
      simpl; [|discriminate].
    destruct (lt (Fin (1 # 10)) (validityRate (validateSalaryData s))
              || FileType_eqb expectedType salary) eqn:Ec; simpl.
    + intros H; inversion H; subst; split; reflexivity.
    + destruct (FileType_eqb expectedType unknown) eqn:Eu.
      * destruct (mapColumns rawData PERFORMANCE_COLUMN_MAPPINGS) as [p|e];
          simpl; [|discriminate].
        destruct (lt (validityRate (validateSalaryData s))
                    (validityRate (validatePerformanceData p))); simpl.
        -- intros H; congruence.
        -- intros H; inversion H; subst; split; reflexivity.
      * subst ft. rewrite Eu in *.
        destruct expectedType; simpl in *; try discriminate.
        rewrite orb_true_r in Ec; discriminate.
  - clearbody ft. destruct ft; simpl in *; discriminate.
Qed.

(** ** Row validation *)

Lemma positive_number (n : number) :
  negb (isNaN n || isZero n) && negb (le n (ofZ 0)) = lt (ofZ 0) n.
Proof.
  destruct n as [|q|[|]]; try reflexivity.
  unfold lt, le, ofZ, isZero; simpl.
  destruct (Qle_bool q (inject_Z 0)) eqn:El; [now rewrite andb_false_r|].
  destruct (Qeq_bool q 0) eqn:Ee; [|reflexivity].
  apply Qeq_bool_iff in Ee.
  assert (Hle : Qle_bool q (inject_Z 0) = true)
    by (apply Qle_bool_iff; rewrite Ee; apply Qle_refl).
  rewrite Hle in El; discriminate.
Qed.

Lemma baseSalary_accepted (v : value) (m1 m2 : string) :
  pushIf (negb (truthy v) || le (toNumber v) (ofZ 0)) m1
  ++ pushIf (truthy v && negb (isNumber v)) m2 = []
  <-> exists n, v = VNumber n /\ lt (ofZ 0) n = true.
Proof.
  destruct v as [| |s|n]; simpl.
  - split; [discriminate|intros [n [H _]]; discriminate].
  - split; [discriminate|intros [n [H _]]; discriminate].
  - destruct s; simpl.
    + split; [discriminate|intros [n [H _]]; discriminate].
    + split; [|intros [n [H _]]; discriminate].
      destruct (le _ _); discriminate.
  - rewrite andb_false_r; simpl. rewrite app_nil_r.
    pose proof (positive_number n) as Hp.
    destruct (lt (ofZ 0) n) eqn:Elt.
    + apply andb_true_iff in Hp. destruct Hp as [H1 H2].
      apply negb_true_iff in H2. simpl in H1. rewrite H1, H2; simpl.
      split; [intros _; exists n; split; [reflexivity|assumption]|reflexivity].
    + split.
      * intros H. exfalso. unfold pushIf in H.
        destruct (negb (negb (isNaN n || isZero n)) || le n (ofZ 0)) eqn:E;
          [discriminate|].
        apply orb_false_iff in E. destruct E as [E1 E2].
        apply negb_false_iff in E1. simpl in Hp. rewrite E1, E2 in Hp.
        discriminate.
      * intros [n' [H H']]. inversion H; subst. congruence.
Qed.

Lemma pushIf_nil (b : bool) (m : string) : pushIf b m = [] <-> b = false.
Proof. destruct b; simpl; split; intros; try reflexivity; discriminate. Qed.

Lemma validateSalaryRow_valid (row : object) (index : nat) :
  Validation.isValid (validateSalaryRow row index) = true
  <-> present row "employeeId"
      /\ (present row "name" \/ present row "firstName" \/ present row "lastName")
      /\ positive row "baseSalary".
Proof.
  unfold validateSalaryRow, present, positive; simpl.
  rewrite Nat.eqb_eq, length_zero_iff_nil.
  rewrite <- (baseSalary_accepted (get row "baseSalary")
                "Valid base salary is required" "Base salary must be a number").
  split.
  - intros H. apply app_eq_nil in H. destruct H as [H1 H].
    apply app_eq_nil in H. destruct H as [H2 H3].
    apply pushIf_nil in H1, H2. apply negb_false_iff in H1.
    repeat split; try assumption.
    destruct (truthy (get row "name")); [now left|].
    destruct (truthy (get row "firstName")); [right; now left|].
    destruct (truthy (get row "lastName")); [right; now right|discriminate].
  - intros [H1 [H2 H3]]. rewrite H1, H3; simpl.
    destruct H2 as [H2|[H2|H2]]; rewrite H2; simpl;
      rewrite ?andb_false_r; reflexivity.
Qed.

Lemma missing_baseSalary_rejected (row : object) (index : nat) :
  missing row "baseSalary" ->
  Validation.isValid (validateSalaryRow row index) = false
  /\ In "Valid base salary is required"
        (Validation.errors (validateSalaryRow row index)).
Proof.
  intros Hm.
  assert (Ht : truthy (get row "baseSalary") = false)
    by (destruct Hm as [-> | ->]; reflexivity).
  assert (Hin : In "Valid base salary is required"
                  (Validation.errors (validateSalaryRow row index))).
  { unfold validateSalaryRow; simpl. rewrite Ht; simpl.
    apply in_or_app; right. apply in_or_app; right. now left. }
  split; [|assumption].
  unfold validateSalaryRow in *; simpl in *.
  destruct (_ ++ _); [contradiction|reflexivity].
Qed.

(** ** Headers *)

Lemma lowerChar_whiteSpace (c : ascii) :
  isWhiteSpace c = true -> lowerChar c = c.
Proof.
  unfold isWhiteSpace, lowerChar. intros H.
  destruct (Nat.leb 65 (nat_of_ascii c) && Nat.leb (nat_of_ascii c) 90) eqn:E;
    [|reflexivity].
  apply andb_true_iff in E. destruct E as [E1 E2].
  apply Nat.leb_le in E1, E2.
  apply orb_true_iff in H. destruct H as [H|H].
  - apply Nat.eqb_eq in H. lia.
  - apply andb_true_iff in H. destruct H as [H1 H2].
    apply Nat.leb_le in H1, H2. lia.
Qed.

Lemma toLowerCase_app (a b : string) :
  toLowerCase (a ++ b) = (toLowerCase a ++ toLowerCase b)%string.
Proof. induction a as [|c a IH]; simpl; [reflexivity|now rewrite IH]. Qed.

Lemma toLowerCase_whiteSpace (s : string) :
  allWhiteSpace s = true -> toLowerCase s = s.
Proof.
  induction s as [|c s IH]; simpl; [reflexivity|].
  intros H. apply andb_true_iff in H. destruct H as [Hc Hs].
  now rewrite (lowerChar_whiteSpace c Hc), (IH Hs).
Qed.

Lemma trimStart_whiteSpace (s : string) :
  allWhiteSpace s = true -> trimStart s = "".
Proof.
  induction s as [|c s IH]; simpl; [reflexivity|].
  intros H. apply andb_true_iff in H. destruct H as [Hc Hs].
  rewrite Hc. now apply IH.
Qed.

Lemma trimEnd_whiteSpace (s : string) :
  allWhiteSpace s = true -> trimEnd s = "".
Proof.
  induction s as [|c s IH]; simpl; [reflexivity|].
  intros H. apply andb_true_iff in H. destruct H as [Hc Hs].
  rewrite (IH Hs). now rewrite Hc.
Qed.

Lemma trimStart_padded (pad s : string) :
  allWhiteSpace pad = true -> trimStart (pad ++ s) = trimStart s.
Proof.
  induction pad as [|c pad IH]; simpl; [reflexivity|].
  intros H. apply andb_true_iff in H. destruct H as [Hc Hs].
  rewrite Hc. now apply IH.
Qed.

Lemma trimEnd_padded (s pad : string) :
  allWhiteSpace pad = true -> trimEnd (s ++ pad) = trimEnd s.
Proof.
  intros H. induction s as [|c s IH]; simpl.
  - now apply trimEnd_whiteSpace.
  - now rewrite IH.
Qed.

Lemma trim_padded_end (s pad : string) :
  allWhiteSpace pad = true -> trim (s ++ pad) = trim s.
Proof.
  intros H. unfold trim. induction s as [|c s IH]; simpl.
  - now rewrite (trimStart_whiteSpace pad H).
  - destruct (isWhiteSpace c); [assumption|].
    change (String c (s ++ pad)) with (String c s ++ pad)%string.
    now apply trimEnd_padded.
Qed.

Lemma trim_padded (left s right : string) :
  allWhiteSpace left = true -> allWhiteSpace right = true ->
  trim (left ++ s ++ right) = trim s.
Proof.
  intros Hl Hr. unfold trim. rewrite (trimStart_padded left _ Hl).
  now apply trim_padded_end.
Qed.

Lemma headerVariant_normalizeKey (h h' : string) :
  headerVariant h h' -> normalizeKey h = normalizeKey h'.
Proof.
  induction 1 as [h|h h' Hc|h left right Hl Hr|h h' _ IH|h1 h2 h3 _ IH1 _ IH2].
  - reflexivity.
  - unfold normalizeKey. now rewrite Hc.
  - unfold normalizeKey. rewrite !toLowerCase_app.
    rewrite (toLowerCase_whiteSpace left Hl), (toLowerCase_whiteSpace right Hr).
    symmetry. now apply trim_padded.
  - now symmetry.
  - now transitivity (normalizeKey h2).
Qed.

Lemma forEachEntry_variant (mappings : list (string * string)) (row row' : object) :
  rowVariant row row' ->
  forall mappedRow,
    forEachEntry mappings row mappedRow = forEachEntry mappings row' mappedRow.
Proof.
  induction 1 as [|[k v] [k' v'] r r' [Hk Hv] _ IH]; intros mappedRow; simpl.
  - reflexivity.
  - simpl in Hk, Hv. subst v'.
    rewrite (headerVariant_normalizeKey k k' Hk).
    destruct (lookupMapping mappings (normalizeKey k')); simpl; [|apply IH].
    destruct (coerce s v); simpl; [apply IH|reflexivity].
Qed.

Lemma mapColumns_variant (mappings : list (string * string)) (data data' : list object) :
  Forall2 rowVariant data data' ->
  mapColumns data mappings = mapColumns data' mappings.
Proof.
  unfold mapColumns, mapRow.
  induction 1 as [|row row' r r' Hrow _ IH]; simpl; [reflexivity|].
  now rewrite (forEachEntry_variant mappings row row' Hrow), IH.
Qed.

(** ** The fields a mapping can produce *)

Lemma assoc_in (table : list (string * string)) (k f : string) :
  assoc table k = Some f -> In f (map snd table).
Proof.
  unfold assoc. induction table as [|[k0 f0] r IH]; simpl; [discriminate|].
  destruct (String.eqb k0 k); simpl.
  - intros H; inversion H; now left.
  - intros H; right; now apply IH.
Qed.

Lemma salary_table_no_performance_field (k f : string) :
  lookupMapping SALARY_COLUMN_MAPPINGS k = Some f -> ~ In f performanceFields.
Proof.
  unfold lookupMapping.
  destruct (assoc SALARY_COLUMN_MAPPINGS k) as [f0|] eqn:E.
  - intros H Hin; inversion H; subst f0. apply assoc_in in E.
    assert (Hall : forallb (fun g => negb (existsb (String.eqb g) performanceFields))
                     (map snd SALARY_COLUMN_MAPPINGS) = true) by (vm_compute; reflexivity).
    rewrite forallb_forall in Hall. specialize (Hall f E).
    apply negb_true_iff in Hall.
    assert (Hex : existsb (String.eqb f) performanceFields = true).
    { apply existsb_exists. exists f; split; [assumption|apply String.eqb_refl]. }
    congruence.
  - destruct (String.eqb k "constructor").
    + intros H Hin; inversion H; subst f.
      simpl in Hin; repeat destruct Hin as [Hin|Hin]; try discriminate; assumption.
    + destruct (String.eqb k "__proto__"); [|discriminate].
      intros H Hin; inversion H; subst f.
      simpl in Hin; repeat destruct Hin as [Hin|Hin]; try discriminate; assumption.
Qed.

Lemma forEachEntry_keys (mappings : list (string * string)) (entries : object) :
  forall mappedRow result field,
    forEachEntry mappings entries mappedRow = Return result ->
    In field (keys result) ->
    In field (keys mappedRow)
    \/ exists k, lookupMapping mappings k = Some field.
Proof.
  induction entries as [|[key cell] rest IH]; intros mappedRow result field; simpl.
  - intros H; inversion H; subst; now left.
  - destruct (lookupMapping mappings (normalizeKey key)) as [mappedField|] eqn:El;
      simpl; [|apply IH].
    destruct (coerce mappedField cell) as [v|e]; simpl; [|discriminate].
    intros H Hin. destruct (IH _ _ _ H Hin) as [Hk|Hk]; [|now right].
    destruct (keys_set _ _ _ _ Hk) as [->|Hk']; [right; now exists (normalizeKey key)|].
    now left.
Qed.

Lemma mapRow_salary_no_performance_field (row salaryRow : object) (field : string) :
  mapRow SALARY_COLUMN_MAPPINGS row = Return salaryRow ->
  In field performanceFields -> ~ In field (keys salaryRow).
Proof.
  unfold mapRow. intros H Hf Hin.
  destruct (forEachEntry_keys _ _ _ _ _ H Hin) as [[]|[k Hk]].
  exact (salary_table_no_performance_field k field Hk Hf).
Qed.

(** No header occurs twice in a table, so the first entry [assoc] finds is
    the only one, as in the object literal of the source. *)
Lemma table_keys_distinct :
  NoDup (map fst SALARY_COLUMN_MAPPINGS)
  /\ NoDup (map fst PERFORMANCE_COLUMN_MAPPINGS).
Proof.
  split.
  - assert (E : nodup string_dec (map fst SALARY_COLUMN_MAPPINGS)
                = map fst SALARY_COLUMN_MAPPINGS) by (vm_compute; reflexivity).
    rewrite <- E. apply NoDup_nodup.
  - assert (E : nodup string_dec (map fst PERFORMANCE_COLUMN_MAPPINGS)
                = map fst PERFORMANCE_COLUMN_MAPPINGS) by (vm_compute; reflexivity).
    rewrite <- E. apply NoDup_nodup.
Qed.

(** Every header of a table is in normal form already: lower case, trimmed. *)
Lemma table_keys_normalized :
  forallb (fun entry => String.eqb (normalizeKey (fst entry)) (fst entry))
    (SALARY_COLUMN_MAPPINGS ++ PERFORMANCE_COLUMN_MAPPINGS) = true.
Proof. vm_compute; reflexivity. Qed.

(** ** Coercion: where it returns and where it throws *)

Lemma coerce_returns (mappedField : string) (cell : value) :
  String.eqb mappedField "retentionRisk" = false ->
  returns (coerce mappedField cell) = true.
Proof.
  intros Hr. destruct cell as [| |text|n]; try reflexivity.
  unfold coerce. destruct (negb (isEmpty text)); [|reflexivity].
  unfold coerceText. rewrite Hr.
  destruct (String.eqb mappedField "performanceRating") eqn:Ep.
  - apply String.eqb_eq in Ep; subst mappedField. simpl.
    destruct (includes (trim text) "%"); [|reflexivity].
    destruct (negb (isNaN (parseFloat (trim (removeFirst "%" (trim text))))));
      reflexivity.
  - reflexivity.
Qed.

(** A numeric field other than the retention risk keeps a text that does not
    parse as it is. *)
Lemma coerce_unparsable_kept (mappedField text : string) :
  In mappedField numericFields ->
  String.eqb mappedField "retentionRisk" = false ->
  isNaN (parseFloat (cleanValue text)) = true ->
  coerce mappedField (VString text) = Return (VString text).
Proof.
  intros Hin Hr Hnan. unfold coerce.
  destruct (negb (isEmpty text)); [|reflexivity].
  unfold coerceText. rewrite Hr, Hnan.
  assert (Hp : String.eqb mappedField "performanceRating" = false).
  { simpl in Hin.
    repeat destruct Hin as [Hin|Hin]; subst; try reflexivity; contradiction. }
  rewrite Hp. simpl.
  match goal with |- context [if ?b then _ else _] => destruct b end; reflexivity.
Qed.

(** A retention risk that parses as a number is replaced by that number, and
    the call of [toLowerCase] on it throws. *)
Lemma coerce_retentionRisk_throws (text : string) :
  isEmpty text = false ->
  isNaN (parseFloat (cleanValue text)) = false ->
  coerce "retentionRisk" (VString text)
  = Throw (ThrownError "value.toLowerCase is not a function").
Proof.
  intros He Hn. unfold coerce. rewrite He; simpl.
  unfold coerceText; simpl. rewrite Hn; reflexivity.
Qed.

(** The salary table leads to no retention risk, so the salary mapping
    returns on every data set. *)
Lemma forEachEntry_salary_returns (entries mappedRow : object) :
  returns (forEachEntry SALARY_COLUMN_MAPPINGS entries mappedRow) = true.
Proof.
  revert mappedRow.
  induction entries as [|[key cell] rest IH]; intros mappedRow; simpl;
    [reflexivity|].
  destruct (lookupMapping SALARY_COLUMN_MAPPINGS (normalizeKey key))
    as [mappedField|] eqn:El; simpl; [|apply IH].
  assert (Hr : String.eqb mappedField "retentionRisk" = false).
  { destruct (String.eqb mappedField "retentionRisk") eqn:E; [|reflexivity].
    apply String.eqb_eq in E; subst mappedField.
    exfalso. apply (salary_table_no_performance_field _ _ El).
    right; right; left; reflexivity. }
  pose proof (coerce_returns mappedField cell Hr) as Hc.
  destruct (coerce mappedField cell) as [v|e]; [|discriminate].
  simpl. apply IH.
Qed.

Lemma mapColumns_salary_returns (data : list object) :
  returns (mapColumns data SALARY_COLUMN_MAPPINGS) = true.
Proof.
  unfold mapColumns, mapRow.
  induction data as [|row rest IH]; simpl; [reflexivity|].
  pose proof (forEachEntry_salary_returns row []) as Hrow.
  destruct (forEachEntry SALARY_COLUMN_MAPPINGS row []) as [mapped|e];
    [|discriminate].
  simpl.
  destruct (mapOutcome (fun r => forEachEntry SALARY_COLUMN_MAPPINGS r []) rest);
    [reflexivity|discriminate].
Qed.

(** ** The pipeline *)

Section ParseFileFacts.

Variable validateFile : File -> outcome (list ErrorHandler.Issue).
Variable parseCSV : File -> outcome Papa.ParseResult.
Variable parseXLSX : File -> outcome (list object).
Variable validateDataStructure :
  list object -> string -> outcome ErrorHandler.StructureValidation.

Let parse := parseFile validateFile parseCSV parseXLSX validateDataStructure.
Let parseTry := parseFileTry validateFile parseCSV parseXLSX validateDataStructure.

Lemma rejected_counts (file : File) (type : FileType) (rows : nat)
  (messages : list string) :
  let r := rejected file type rows messages in
  validRows r <= rowCount r /\ length (data r) = validRows r.
Proof. simpl; split; [lia|reflexivity]. Qed.

Lemma finish_counts (file : File) (finalType : FileType)
  (rawData : list object) (structure : ErrorHandler.StructureValidation)
  (mappedData : list object) (validationResults : list ValidationResult) :
  length mappedData = length validationResults ->
  length validationResults <= length rawData ->
  exists r,
    finish file finalType rawData structure mappedData validationResults
    = Return r
    /\ validRows r <= rowCount r /\ length (data r) = validRows r
    /\ fileType r = finalType /\ rowCount r = length rawData.
Proof.
  intros Hl Hr. unfold finish.
  destruct (filterValid_total _ _ Hl) as [kept [E L]].
  rewrite E; simpl. eexists; split; [reflexivity|]; simpl.
  pose proof (filter_length_le Validation.isValid validationResults).
  unfold ValidationResult in *.
  repeat split; try assumption; lia.
Qed.

(** C4. Every result of [parseFile] has [validRows <= rowCount] and as many
    rows in [data] as [validRows] says, whichever branch returned it. *)
Theorem parseFile_validRows_invariant (file : File) (expectedType : FileType) :
  validRows (parse file expectedType) <= rowCount (parse file expectedType)
  /\ length (data (parse file expectedType)) = validRows (parse file expectedType).
Proof.
  subst parse; unfold parseFile, parseFileTry.
  destruct (validateFile file) as [issues|e]; simpl;
    [|split; [lia|reflexivity]].
  destruct (existsb _ issues); [apply rejected_counts|].
  destruct (decode _ _ file) as [rawData|e]; [|apply rejected_counts].
  destruct (Nat.eqb (length rawData) 0); [apply rejected_counts|].
  destruct (validateDataStructure rawData (name file)) as [structure|e]; simpl;
    [|split; [lia|reflexivity]].
  destruct (negb _); [apply rejected_counts|].
  destruct (mapAndValidate _ _ rawData) as [ft [[md vr]|e]] eqn:Em;
    [|apply rejected_counts].
  apply mapAndValidate_lengths in Em. destruct Em as [Hl Hr].
  destruct (finish_counts file ft rawData structure md vr Hl Hr)
    as [r [E [H1 [H2 _]]]].
  rewrite E. split; assumption.
Qed.

(** *** Unfolding [parseFile] along the stages that passed *)

Lemma parse_accepted (file : File) (expectedType : FileType) :
  accepted validateFile file ->
  parseTry file expectedType
  = match decode parseCSV parseXLSX file with
    | Throw parseError =>
        Return (rejected file unknown 0
                  [("Failed to parse file: "
                    ++ messageOr parseError "Unknown parsing error")%string])
    | Return rawData =>
        if Nat.eqb (length rawData) 0 then
          Return (rejected file unknown 0
                    ["File is empty or contains no valid data rows"])
        else
          structure <- validateDataStructure rawData (name file) ;;
          if negb (ErrorHandler.isValid structure) then
            Return (rejected file (ErrorHandler.detectedFormat structure)
                      (length rawData)
                      (map ErrorHandler.message (ErrorHandler.errors structure)
                       ++ map (fun w =>
                                 ("Warning: " ++ ErrorHandler.message w)%string)
                              (ErrorHandler.warnings structure)))
          else
            match mapAndValidate expectedType
                    (ErrorHandler.detectedFormat structure) rawData with
            | (finalType, Throw mappingError) =>
                Return (rejected file finalType (length rawData)
                          [("Column mapping failed: "
                            ++ messageOr mappingError "Unknown mapping error")%string])
            | (finalType, Return (mappedData, validationResults)) =>
                finish file finalType rawData structure
                  mappedData validationResults
            end
    end.
Proof.
  intros [issues [Hv He]]. subst parseTry; unfold parseFileTry.
  rewrite Hv; simpl. rewrite He. reflexivity.
Qed.

Lemma parse_reaches (file : File) (expectedType : FileType)
  (rawData : list object) (structure : ErrorHandler.StructureValidation) :
  reachesMapping validateFile parseCSV parseXLSX validateDataStructure
    file rawData structure ->
  parseTry file expectedType
  = match mapAndValidate expectedType
            (ErrorHandler.detectedFormat structure) rawData with
    | (finalType, Throw mappingError) =>
        Return (rejected file finalType (length rawData)
                  [("Column mapping failed: "
                    ++ messageOr mappingError "Unknown mapping error")%string])
    | (finalType, Return (mappedData, validationResults)) =>
        finish file finalType rawData structure mappedData validationResults
    end.
Proof.
  intros [Ha [Hd [Hn [Hs Hv]]]].
  rewrite (parse_accepted file expectedType Ha), Hd, Hn, Hs; simpl.
  rewrite Hv; reflexivity.
Qed.

(** Only the pre-validation and the structure check can send an exception
    to the outer [catch]: decoding and mapping have a [catch] of their own,
    and step 5 does not throw. *)
Lemma outer_catch_sources (file : File) (expectedType : FileType) (e : thrown) :
  parseTry file expectedType = Throw e ->
  Raises validateFile parseCSV parseXLSX validateDataStructure
    file expectedType PreValidation [] e
  \/ exists rawData,
      Raises validateFile parseCSV parseXLSX validateDataStructure
        file expectedType StructureCheck rawData e.
Proof.
  subst parseTry; unfold parseFileTry.
  destruct (validateFile file) as [issues|e0] eqn:Ev; simpl.
  - destruct (existsb (isSeverity "ERROR") issues) eqn:Ee; [discriminate|].
    assert (Ha : accepted validateFile file) by (exists issues; now split).
    destruct (decode parseCSV parseXLSX file) as [rawData|e1] eqn:Ed;
      [|discriminate].
    destruct (Nat.eqb (length rawData) 0) eqn:En; [discriminate|].
    destruct (validateDataStructure rawData (name file)) as [structure|e2] eqn:Es;
      simpl.
    + destruct (negb (ErrorHandler.isValid structure)); [discriminate|].
      destruct (mapAndValidate expectedType
                  (ErrorHandler.detectedFormat structure) rawData)
        as [ft [[md vr]|e3]] eqn:Em; [|discriminate].
      destruct (mapAndValidate_lengths _ _ _ _ _ _ Em) as [Hl Hle].
      destruct (finish_counts file ft rawData structure md vr Hl Hle)
        as [r [E _]].
      rewrite E; discriminate.
    + intros H; inversion H; subst. right; exists rawData.
      now apply raises_validateDataStructure.
  - intros H; inversion H; subst. left. now apply raises_validateFile.
Qed.

(** C1 (amended). [parseFile] is a total function into [FileUploadResult],
    and whichever stage throws, the result it returns has no valid rows, no
    data and at least one error message.  Its [rowCount] is 0 when the
    pre-validation, the decoding or the structure check throws; when the
    column mapping throws it is the number of decoded rows. *)
Theorem parseFile_exception_becomes_result (file : File)
  (expectedType : FileType) (stage : Stage) (rawData : list object)
  (e : thrown) :
  Raises validateFile parseCSV parseXLSX validateDataStructure
    file expectedType stage rawData e ->
  validRows (parse file expectedType) = 0
  /\ data (parse file expectedType) = []
  /\ errors (parse file expectedType) <> []
  /\ rowCount (parse file expectedType) = rowsReported stage rawData.
Proof.
  intros H. subst parse; unfold parseFile.
  destruct H as [e Hv | e Ha Hd | rawData e Ha Hd Hn Hs
                 | rawData structure finalType e Hr Hm].
  - unfold parseFileTry. rewrite Hv; simpl.
    repeat split; discriminate.
  - fold parseTry. rewrite (parse_accepted file expectedType Ha), Hd; simpl.
    repeat split; discriminate.
  - fold parseTry. rewrite (parse_accepted file expectedType Ha), Hd, Hn, Hs.
    simpl. repeat split; discriminate.
  - fold parseTry. rewrite (parse_reaches file expectedType _ _ Hr), Hm.
    simpl. repeat split; discriminate.
Qed.

(** C3 (amended). A file whose extension is none of csv, xlsx and xls, and
    which the pre-validation lets through, gets a result without data whose
    only error is the unsupported-type message behind the prefix of a failed
    parse. *)
Theorem parseFile_unsupported_extension (file : File) (expectedType : FileType) :
  accepted validateFile file ->
  (String.eqb (fileExtension file) "csv"
   || String.eqb (fileExtension file) "xlsx"
   || String.eqb (fileExtension file) "xls") = false ->
  data (parse file expectedType) = []
  /\ errors (parse file expectedType)
     = [ ("Failed to parse file: Unsupported file type: "
          ++ fileExtension file
          ++ ". Please use CSV, XLSX, or XLS files.")%string ].
Proof.
  intros Ha Hx. subst parse; unfold parseFile. fold parseTry.
  rewrite (parse_accepted file expectedType Ha).
  unfold decode.
  destruct (String.eqb (fileExtension file) "csv"); [discriminate|].
  simpl in Hx. rewrite Hx. simpl. split; reflexivity.
Qed.

Lemma parse_finished (file : File) (expectedType finalType : FileType)
  (rawData : list object) (structure : ErrorHandler.StructureValidation)
  (mappedData : list object) (validationResults : list ValidationResult) :
  reachesMapping validateFile parseCSV parseXLSX validateDataStructure
    file rawData structure ->
  mapAndValidate expectedType (ErrorHandler.detectedFormat structure) rawData
  = (finalType, Return (mappedData, validationResults)) ->
  finish file finalType rawData structure mappedData validationResults
  = Return (parse file expectedType).
Proof.
  intros Hr Hm. subst parse; unfold parseFile. fold parseTry.
  rewrite (parse_reaches file expectedType _ _ Hr), Hm.
  destruct (mapAndValidate_lengths _ _ _ _ _ _ Hm) as [Hl Hle].
  destruct (finish_counts file finalType rawData structure _ _ Hl Hle)
    as [r [E _]].
  now rewrite E.
Qed.

(** C2 (amended). With the expected type unknown and both mappings running
    through, the result carries the schema of [adoptedSchema]: a detected
    performance format stands; otherwise salary is adopted as soon as its
    validity rate exceeds one tenth, and only at or below one tenth the
    schema with the higher rate is adopted, salary on a tie.  The rows of
    [data] are the valid rows of the adopted mapping. *)
Theorem parseFile_unknown_schema (file : File) (rawData : list object)
  (structure : ErrorHandler.StructureValidation)
  (salaryData performanceData : list object) :
  reachesMapping validateFile parseCSV parseXLSX validateDataStructure
    file rawData structure ->
  mapSalary (hasPerformanceColumns rawData) rawData = Return salaryData ->
  mapColumns rawData PERFORMANCE_COLUMN_MAPPINGS = Return performanceData ->
  let adopted :=
    adoptedSchema (ErrorHandler.detectedFormat structure)
      (validityRate (validateSalaryData salaryData))
      (validityRate (validatePerformanceData performanceData)) in
  fileType (parse file unknown) = adopted
  /\ (if FileType_eqb adopted performance
      then filterValid performanceData (validatePerformanceData performanceData)
      else filterValid salaryData (validateSalaryData salaryData))
     = Return (data (parse file unknown)).
Proof.
  intros Hr Hs Hp adopted.
  pose proof (mapAndValidate_unknown (ErrorHandler.detectedFormat structure)
                rawData salaryData performanceData Hs Hp) as Hm.
  cbv zeta in Hm. fold adopted in Hm.
  destruct (FileType_eqb adopted performance);
    pose proof (parse_finished file unknown _ _ _ _ _ Hr Hm) as Hf;
    unfold finish in Hf;
    match type of Hf with
    | context [filterValid ?m ?v] =>
        destruct (filterValid m v) as [kept|e]; simpl in Hf; [|discriminate]
    end;
    inversion Hf as [Hres]; simpl; split; reflexivity.
Qed.

(** C5 (amended). When the first decoded row has a header that mentions
    performance or rating, both mappings run through and the result is of
    type salary, every row of the result is a salary-mapped row merged with
    the performance-mapped row of the same index: a performance rating,
    business impact score or retention risk that is truthy there is copied,
    every other field is the salary mapping's.  No field is compared to
    pair the rows. *)
Theorem parseFile_combined_merge (file : File) (expectedType : FileType)
  (rawData : list object) (structure : ErrorHandler.StructureValidation)
  (salaryData performanceData : list object) :
  reachesMapping validateFile parseCSV parseXLSX validateDataStructure
    file rawData structure ->
  hasPerformanceColumns rawData = true ->
  mapColumns rawData SALARY_COLUMN_MAPPINGS = Return salaryData ->
  mapColumns rawData PERFORMANCE_COLUMN_MAPPINGS = Return performanceData ->
  fileType (parse file expectedType) = salary ->
  let merged := mergePerformance salaryData performanceData in
  filterValid merged (validateSalaryData merged)
  = Return (data (parse file expectedType))
  /\ forall i row,
      nth_error rawData i = Some row ->
      exists salaryRow performanceRow,
        mapRow SALARY_COLUMN_MAPPINGS row = Return salaryRow
        /\ mapRow PERFORMANCE_COLUMN_MAPPINGS row = Return performanceRow
        /\ nth_error merged i = Some (mergeRow salaryRow performanceRow)
        /\ (forall field,
              In field performanceFields ->
              truthy (get performanceRow field) = true ->
              get (mergeRow salaryRow performanceRow) field
              = get performanceRow field)
        /\ (forall field,
              ~ In field performanceFields ->
              get (mergeRow salaryRow performanceRow) field
              = get salaryRow field).
Proof.
  intros Hr Hc Hs Hp Ht merged.
  assert (Hms : mapSalary (hasPerformanceColumns rawData) rawData = Return merged).
  { unfold mapSalary. rewrite Hs, Hc; simpl. rewrite Hp; reflexivity. }
  split.
  - destruct (mapAndValidate expectedType
                (ErrorHandler.detectedFormat structure) rawData)
      as [ft [[md vr]|e]] eqn:Em.
    + pose proof (parse_finished file expectedType _ _ _ _ _ Hr Em) as Hf.
      assert (ft = salary) as ->.
      { unfold finish in Hf.
        destruct (filterValid md vr); simpl in Hf; [|discriminate].
        inversion Hf as [Hres]. rewrite <- Hres in Ht. exact Ht. }
      destruct (mapAndValidate_salary _ _ _ _ _ Em) as [Hmd Hvr].
      rewrite Hms in Hmd. inversion Hmd; subst md vr.
      unfold finish in Hf.
      destruct (filterValid merged (validateSalaryData merged));
        simpl in Hf; [|discriminate].
      inversion Hf; reflexivity.
    + exfalso. revert Em. unfold mapAndValidate, salaryBranch.
      rewrite Hms, Hp; simpl.
      repeat match goal with
             | |- context [if ?b then _ else _] => destruct b; simpl
             end; discriminate.
  - intros i row Hi.
    destruct (mapOutcome_nth _ _ _ Hs i row Hi) as [salaryRow [Es Ns]].
    destruct (mapOutcome_nth _ _ _ Hp i row Hi) as [performanceRow [Ep Np]].
    exists salaryRow, performanceRow.
    split; [assumption|]. split; [assumption|].
    split; [now apply mergePerformance_nth|].
    split; intros field.
    + apply mergeRow_copied.
    + apply mergeRow_kept.
Qed.

(** Both mappings returning, step 4 returns as well. *)
Lemma mapAndValidate_returns (expectedType detected : FileType)
  (rawData salaryData performanceData : list object) :
  mapSalary (hasPerformanceColumns rawData) rawData = Return salaryData ->
  mapColumns rawData PERFORMANCE_COLUMN_MAPPINGS = Return performanceData ->
  returns (snd (mapAndValidate expectedType detected rawData)) = true.
Proof.
  intros Hs Hp. unfold mapAndValidate, salaryBranch.
  rewrite Hs, Hp; simpl.
  repeat match goal with
         | |- context [if ?b then _ else _] => destruct b; simpl
         end; reflexivity.
Qed.

(** The result for a single row that the salary schema rejects for its base
    salary. *)
Lemma single_row_without_salary (file : File) (expectedType : FileType)
  (row mappedRow : object) (structure : ErrorHandler.StructureValidation) :
  reachesMapping validateFile parseCSV parseXLSX validateDataStructure
    file [row] structure ->
  mapAndValidate expectedType (ErrorHandler.detectedFormat structure) [row]
  = (salary, Return ([mappedRow], validateSalaryData [mappedRow])) ->
  missing mappedRow "baseSalary" ->
  validRows (parse file expectedType) = 0
  /\ data (parse file expectedType) = []
  /\ In "Row 2: Valid base salary is required" (errors (parse file expectedType)).
Proof.
  intros Hr Em Hm.
  destruct (missing_baseSalary_rejected mappedRow 0 Hm) as [Hv Hin].
  pose proof (parse_finished file expectedType _ _ _ _ _ Hr Em) as Hf.
  unfold finish in Hf.
  change (validateSalaryData [mappedRow])
    with [validateSalaryRow mappedRow 0] in Hf.
  cbn [filterValid filter bind] in Hf. rewrite Hv in Hf.
  cbn [bind length] in Hf.
  inversion Hf as [Hres]. cbn [validRows data errors].
  repeat split.
  apply in_or_app; left.
  unfold collectErrors. cbn [mapWithIndex concat]. rewrite Hv.
  cbn [negb]. rewrite app_nil_r. unfold rowMessages.
  change "Row 2: Valid base salary is required"
    with ((fun m => ("Row " ++ ofNat (0 + 2) ++ ": " ++ m)%string)
            "Valid base salary is required").
  apply in_map. exact Hin.
Qed.

(** C7 (amended). A salary row is valid exactly when its employee id is
    present, one of name, first name and last name is present, and its base
    salary is a number above zero.  A file that is read as a salary file
    (given as one, or found to be one with the performance mapping running
    through as well) and whose only row maps, without an exception, to a
    record without base salary has no valid row, no data, and the error
    [Row 2: Valid base salary is required]. *)
Theorem salary_row_validity :
  (forall row index,
      Validation.isValid (validateSalaryRow row index) = true
      <-> present row "employeeId"
          /\ (present row "name" \/ present row "firstName"
              \/ present row "lastName")
          /\ positive row "baseSalary")
  /\ (forall file expectedType row structure mappedRow,
         reachesMapping validateFile parseCSV parseXLSX validateDataStructure
           file [row] structure ->
         mapSalary (hasPerformanceColumns [row]) [row] = Return [mappedRow] ->
         missing mappedRow "baseSalary" ->
         expectedType = salary
         \/ (returns (mapColumns [row] PERFORMANCE_COLUMN_MAPPINGS) = true
             /\ fileType (parse file expectedType) = salary) ->
         validRows (parse file expectedType) = 0
         /\ data (parse file expectedType) = []
         /\ In "Row 2: Valid base salary is required"
               (errors (parse file expectedType))).
Proof.
  split; [exact validateSalaryRow_valid|].
  intros file expectedType row structure mappedRow Hr Hs Hm Hty.
  apply (single_row_without_salary file expectedType row mappedRow structure Hr);
    [|exact Hm].
  destruct Hty as [->|[Hp Ht]].
  - unfold mapAndValidate. cbn [FileType_eqb orb]. unfold salaryBranch.
    rewrite Hs. cbn [bind FileType_eqb]. rewrite orb_true_r. reflexivity.
  - destruct (mapColumns [row] PERFORMANCE_COLUMN_MAPPINGS) as [p|e] eqn:Ep;
      [clear Hp|discriminate].
    pose proof (mapAndValidate_returns expectedType
                  (ErrorHandler.detectedFormat structure) _ _ _ Hs Ep) as Hret.
    destruct (mapAndValidate expectedType
                (ErrorHandler.detectedFormat structure) [row])
      as [ft [[md vr]|e]] eqn:Em; [|discriminate].
    pose proof (parse_finished file expectedType _ _ _ _ _ Hr Em) as Hf.
    assert (ft = salary) as ->.
    { unfold finish in Hf.
      destruct (filterValid md vr); simpl in Hf; [|discriminate].
      inversion Hf as [Hres]. rewrite <- Hres in Ht. exact Ht. }
    destruct (mapAndValidate_salary _ _ _ _ _ Em) as [Hmd Hvr].
    rewrite Hs in Hmd. inversion Hmd; subst md vr. reflexivity.
Qed.

End ParseFileFacts.

(** ** The pipeline on sample files *)

(** C1, witness: the numeric risk score makes the column mapping throw, and
    the result reports the one decoded row. *)
Lemma parseFile_exception_becomes_result_witness :
  validRows (Sample.parseRows Sample.riskScoreRows performance
               Sample.csvFile performance) = 0
  /\ data (Sample.parseRows Sample.riskScoreRows performance
             Sample.csvFile performance) = []
  /\ errors (Sample.parseRows Sample.riskScoreRows performance
               Sample.csvFile performance) <> []
  /\ rowCount (Sample.parseRows Sample.riskScoreRows performance
                 Sample.csvFile performance) = 1.
Proof.
  apply (parseFile_exception_becomes_result
           Sample.validateFile (Sample.parseCSV Sample.riskScoreRows)
           (Sample.parseXLSX Sample.riskScoreRows)
           (Sample.validateDataStructure performance)
           Sample.csvFile performance ColumnMapping Sample.riskScoreRows
           (ThrownError "value.toLowerCase is not a function")).
  apply (raises_mapping _ _ _ _ _ _ _ (Sample.structureOk performance) performance).
  - repeat split; try reflexivity.
    exists []; split; reflexivity.
  - reflexivity.
Defined.

(** C1, as stated, fails: an exception of the column mapping is caught, but
    the result that stands for it reports one row, not zero. *)
Lemma parseFile_mapping_exception_rowCount :
  Raises Sample.validateFile (Sample.parseCSV Sample.riskScoreRows)
    (Sample.parseXLSX Sample.riskScoreRows)
    (Sample.validateDataStructure performance)
    Sample.csvFile performance ColumnMapping Sample.riskScoreRows
    (ThrownError "value.toLowerCase is not a function")
  /\ rowCount (Sample.parseRows Sample.riskScoreRows performance
                 Sample.csvFile performance) <> 0.
Proof.
  split.
  - apply (raises_mapping _ _ _ _ _ _ _ (Sample.structureOk performance) performance).
    + repeat split; try reflexivity.
      exists []; split; reflexivity.
    + reflexivity.
  - vm_compute. discriminate.
Qed.

(** C3, witness: [report.docx]. *)
Lemma parseFile_unsupported_extension_witness :
  data (Sample.parseRows [] unknown Sample.docxFile salary) = []
  /\ errors (Sample.parseRows [] unknown Sample.docxFile salary)
     = [ "Failed to parse file: Unsupported file type: docx. Please use CSV, XLSX, or XLS files." ].
Proof.
  apply (parseFile_unsupported_extension
           Sample.validateFile (Sample.parseCSV []) (Sample.parseXLSX [])
           (Sample.validateDataStructure unknown) Sample.docxFile salary).
  - exists []; split; reflexivity.
  - reflexivity.
Defined.

(** C3, as stated, fails: the error list of [report.docx] is not the bare
    unsupported-type message. *)
Lemma parseFile_docx_errors_differ :
  errors (Sample.parseRows [] unknown Sample.docxFile salary)
  <> [ "Unsupported file type: docx. Please use CSV, XLSX, or XLS files." ].
Proof. vm_compute. discriminate. Qed.

Lemma sample_reaches (rows : list object) (detected : FileType) :
  Nat.eqb (length rows) 0 = false ->
  reachesMapping Sample.validateFile (Sample.parseCSV rows) (Sample.parseXLSX rows)
    (Sample.validateDataStructure detected) Sample.csvFile rows
    (Sample.structureOk detected).
Proof.
  intros H. repeat split; try assumption; try reflexivity.
  exists []; split; reflexivity.
Qed.

(** C2, witness: two rows, one of them valid as salary, format not detected. *)
Lemma parseFile_unknown_schema_witness :
  fileType (Sample.parseRows Sample.halfValidRows unknown Sample.csvFile unknown)
  = salary
  /\ filterValid Sample.halfValidSalaryData
       (validateSalaryData Sample.halfValidSalaryData)
     = Return (data (Sample.parseRows Sample.halfValidRows unknown
                       Sample.csvFile unknown)).
Proof.
  apply (parseFile_unknown_schema
           Sample.validateFile (Sample.parseCSV Sample.halfValidRows)
           (Sample.parseXLSX Sample.halfValidRows)
           (Sample.validateDataStructure unknown)
           Sample.csvFile Sample.halfValidRows (Sample.structureOk unknown)
           Sample.halfValidSalaryData Sample.halfValidPerformanceData).
  - repeat split; try reflexivity. exists []; split; reflexivity.
  - reflexivity.
  - reflexivity.
Defined.

(** C2, as stated, fails: the performance mapping has the higher validity
    rate (1 against 1/2), and salary is adopted all the same. *)
Lemma parseFile_unknown_not_higher_rate :
  salaryValidityRate Sample.halfValidRows = Return (Fin (1 # 2))
  /\ performanceValidityRate Sample.halfValidRows = Return (Fin 1)
  /\ fileType (Sample.parseRows Sample.halfValidRows unknown
                 Sample.csvFile unknown)
     <> higherValidityRate (Fin (1 # 2)) (Fin 1).
Proof.
  split; [reflexivity|]. split; [reflexivity|].
  vm_compute. discriminate.
Qed.

(** C5, witness: the combined export, read as a salary file. *)
Lemma parseFile_combined_merge_witness :
  filterValid
    (mergePerformance Sample.combinedSalaryData Sample.combinedPerformanceData)
    (validateSalaryData
       (mergePerformance Sample.combinedSalaryData Sample.combinedPerformanceData))
  = Return (data (Sample.parseRows Sample.combinedRows salary
                    Sample.csvFile salary))
  /\ get (mergeRow (hd [] Sample.combinedSalaryData)
            (hd [] Sample.combinedPerformanceData)) "performanceRating"
     = VString "High".
Proof.
  pose proof (parseFile_combined_merge
                Sample.validateFile (Sample.parseCSV Sample.combinedRows)
                (Sample.parseXLSX Sample.combinedRows)
                (Sample.validateDataStructure salary)
                Sample.csvFile salary Sample.combinedRows
                (Sample.structureOk salary)
                Sample.combinedSalaryData Sample.combinedPerformanceData
                (sample_reaches Sample.combinedRows salary eq_refl)
                eq_refl eq_refl eq_refl eq_refl) as [Hdata _].
  split; [exact Hdata|reflexivity].
Defined.

(** C5, as stated, fails: the performance mapping of the combined export
    yields a retention risk of 0, and the merged row has no retention risk. *)
Lemma parseFile_combined_risk_not_merged :
  exists performanceRow mergedRow,
    mapColumns Sample.combinedRows PERFORMANCE_COLUMN_MAPPINGS
    = Return [performanceRow]
    /\ data (Sample.parseRows Sample.combinedRows salary Sample.csvFile salary)
       = [mergedRow]
    /\ get performanceRow "retentionRisk" = VNumber (ofZ 0)
    /\ get mergedRow "retentionRisk" <> get performanceRow "retentionRisk".
Proof.
  eexists; eexists.
  split; [reflexivity|]. split; [reflexivity|]. split; [reflexivity|].
  vm_compute. discriminate.
Qed.

(** C7, witness: the salary sheet whose only row has an empty base salary. *)
Lemma salary_row_validity_witness :
  validRows (Sample.parseRows Sample.noSalaryRows salary Sample.csvFile salary) = 0
  /\ data (Sample.parseRows Sample.noSalaryRows salary Sample.csvFile salary) = []
  /\ In "Row 2: Valid base salary is required"
        (errors (Sample.parseRows Sample.noSalaryRows salary
                   Sample.csvFile salary)).
Proof.
  apply (proj2 (salary_row_validity
                  Sample.validateFile (Sample.parseCSV Sample.noSalaryRows)
                  (Sample.parseXLSX Sample.noSalaryRows)
                  (Sample.validateDataStructure salary))
           Sample.csvFile salary (hd [] Sample.noSalaryRows)
           (Sample.structureOk salary) Sample.noSalaryMapped).
  - repeat split; try reflexivity. exists []; split; reflexivity.
  - reflexivity.
  - right; reflexivity.
  - left; reflexivity.
Defined.

(** C7, as stated, fails.  The salary sheet whose only row has an empty base
    salary, given without an expected type and detected as a salary sheet, is
    adopted as a performance sheet, the salary validity rate being 0: its row
    is valid and stays in the data, and nothing is reported.  Read as a
    salary sheet, a row without base salary that has a rating and a risk
    score beside it ends in a failed mapping, and no row is reported
    either. *)
Lemma salary_file_without_salary_unreported :
  (fileType (Sample.parseRows Sample.noSalaryRows salary Sample.csvFile unknown)
   = performance
   /\ validRows (Sample.parseRows Sample.noSalaryRows salary Sample.csvFile
                   unknown) = 1
   /\ length (data (Sample.parseRows Sample.noSalaryRows salary Sample.csvFile
                      unknown)) = 1
   /\ ~ In "Row 2: Valid base salary is required"
          (errors (Sample.parseRows Sample.noSalaryRows salary Sample.csvFile
                     unknown)))
  /\ (errors (Sample.parseRows Examples.combinedNoSalaryRows salary
                Sample.csvFile salary)
      = [ "Column mapping failed: value.toLowerCase is not a function" ]
      /\ ~ In "Row 2: Valid base salary is required"
             (errors (Sample.parseRows Examples.combinedNoSalaryRows salary
                        Sample.csvFile salary))).
Proof.
  split.
  - repeat split; try reflexivity. vm_compute. intros [].
  - split; [reflexivity|]. vm_compute. intros [H|[]]. discriminate H.
Qed.

(** ** Coercion and header matching on their own *)

(** C6. The three coercions of the specification, and a retention risk
    written as a number, on which [mapColumns] throws. *)
Theorem mapColumns_coercion_examples :
  mapColumns [ [ ("base salary", VString "$82,500.00") ] ] SALARY_COLUMN_MAPPINGS
  = Return [ [ ("baseSalary", VNumber (ofZ 82500)) ] ]
  /\ mapColumns [ [ ("performance rating", VString "87%") ] ]
       PERFORMANCE_COLUMN_MAPPINGS
     = Return [ [ ("performanceRating", VNumber (Fin (87 # 100))) ] ]
  /\ mapColumns [ [ ("retention risk", VString "Yes") ] ]
       PERFORMANCE_COLUMN_MAPPINGS
     = Return [ [ ("retentionRisk", VNumber (ofZ 1)) ] ]
  /\ mapColumns [ [ ("retention risk", VString "50") ] ]
       PERFORMANCE_COLUMN_MAPPINGS
     = Throw (ThrownError "value.toLowerCase is not a function").
Proof. repeat split; reflexivity. Qed.

Lemma forEachEntry_app (mappings : list (string * string)) (front back : object)
  (mappedRow : object) :
  forEachEntry mappings (front ++ back) mappedRow
  = (mid <- forEachEntry mappings front mappedRow ;;
     forEachEntry mappings back mid).
Proof.
  revert mappedRow; induction front as [|entry rest IH]; intros mappedRow; simpl;
    [reflexivity|].
  destruct (mapEntry mappings mappedRow entry) as [m|e]; simpl; [apply IH|reflexivity].
Qed.

Lemma forEachEntry_untouched (mappings : list (string * string)) (entries : object)
  (field : string) :
  (forall header, In header (keys entries) ->
                  lookupMapping mappings (normalizeKey header) <> Some field) ->
  forall mappedRow result,
    forEachEntry mappings entries mappedRow = Return result ->
    get result field = get mappedRow field.
Proof.
  induction entries as [|[key cell] rest IH]; intros Hno mappedRow result; simpl.
  - intros H; inversion H; reflexivity.
  - assert (Hrest : forall header, In header (keys rest) ->
                    lookupMapping mappings (normalizeKey header) <> Some field)
      by (intros h Hh; apply Hno; now right).
    destruct (lookupMapping mappings (normalizeKey key)) as [mappedField|] eqn:El;
      simpl; [|apply (IH Hrest)].
    destruct (coerce mappedField cell) as [v|e]; simpl; [|discriminate].
    intros H. rewrite (IH Hrest _ _ H). apply get_set_other.
    destruct (String.eqb mappedField field) eqn:E; [|reflexivity].
    apply String.eqb_eq in E; subst mappedField.
    exfalso. apply (Hno key); [now left|assumption].
Qed.

Lemma coerce_employeeId (cell : value) : coerce "employeeId" cell = Return cell.
Proof.
  destruct cell as [| |text|n]; try reflexivity.
  unfold coerce. destruct (negb (isEmpty text)); reflexivity.
Qed.

(** C9. The three spellings of the employee id header, and every variant of
    them in case and in white space around, lead to [employeeId] in both
    tables.  The turn of the loop of [mapColumns] for a column under such a
    header stores the cell of the column, as it is, under [employeeId]; so in
    whatever [mapColumns] returns, the row at the same place holds under
    [employeeId] the cell of the last such column of the raw row, and on the
    salary table [mapColumns] always returns.  [mapColumns] gives the same
    outcome on two data sets whose headers differ, column by column, only in
    case and in white space around them. *)
Theorem mapColumns_header_insensitive :
  (forall mappings spelling header,
      In mappings [SALARY_COLUMN_MAPPINGS; PERFORMANCE_COLUMN_MAPPINGS] ->
      In spelling ["Employee ID"; "employee_id"; " EMPLOYEE ID "] ->
      headerVariant spelling header ->
      lookupMapping mappings (normalizeKey header) = Some "employeeId"
      /\ (forall mappedRow cell,
             mapEntry mappings mappedRow (header, cell)
             = Return (set mappedRow "employeeId" cell))
      /\ (forall data mappedData i front cell back,
             mapColumns data mappings = Return mappedData ->
             nth_error data i = Some (front ++ (header, cell) :: back) ->
             (forall later,
                 In later (keys back) ->
                 lookupMapping mappings (normalizeKey later)
                 <> Some "employeeId") ->
             exists mapped,
               nth_error mappedData i = Some mapped
               /\ get mapped "employeeId" = cell))
  /\ (forall data, returns (mapColumns data SALARY_COLUMN_MAPPINGS) = true)
  /\ (forall mappings data data',
         Forall2 rowVariant data data' ->
         mapColumns data mappings = mapColumns data' mappings).
Proof.
  split; [|split; [exact mapColumns_salary_returns|exact mapColumns_variant]].
  intros mappings spelling header Hm Hs Hv.
  assert (Hl : lookupMapping mappings (normalizeKey header) = Some "employeeId").
  { rewrite <- (headerVariant_normalizeKey spelling header Hv).
    simpl in Hm, Hs.
    destruct Hm as [<-|[<-|[]]]; destruct Hs as [<-|[<-|[<-|[]]]]; reflexivity. }
  assert (He : forall mappedRow cell,
             mapEntry mappings mappedRow (header, cell)
             = Return (set mappedRow "employeeId" cell)).
  { intros mappedRow cell. unfold mapEntry.
    rewrite Hl, coerce_employeeId. reflexivity. }
  split; [exact Hl|split; [exact He|]].
  intros data mappedData i front cell back Hmap Hi Hback.
  destruct (mapOutcome_nth _ _ _ Hmap i _ Hi) as [mapped [Hrow Hnth]].
  exists mapped. split; [exact Hnth|].
  unfold mapRow in Hrow. rewrite forEachEntry_app in Hrow.
  destruct (forEachEntry mappings front []) as [mid|e]; cbn [bind] in Hrow;
    [|discriminate].
  cbn [forEachEntry] in Hrow. rewrite He in Hrow. cbn [bind] in Hrow.
  rewrite (forEachEntry_untouched mappings back "employeeId" Hback _ _ Hrow).
  apply get_set_same.
Qed.

(** C9, witness: the header in capitals between two spaces, in a row with a
    column the table does not know. *)
Lemma mapColumns_header_insensitive_witness :
  (exists mapped,
      nth_error [ [ ("employeeId", VString "E100") ] ] 0 = Some mapped
      /\ get mapped "employeeId" = VString "E100")
  /\ mapColumns [ [ ("employee id", VString "E100") ] ] SALARY_COLUMN_MAPPINGS
     = mapColumns [ [ (" EMPLOYEE ID ", VString "E100") ] ] SALARY_COLUMN_MAPPINGS.
Proof.
  split.
  - refine (proj2 (proj2 (proj1 mapColumns_header_insensitive
                            SALARY_COLUMN_MAPPINGS "Employee ID" " EMPLOYEE ID "
                            _ _ _))
              [ [ ("Notes", VString "on leave");
                  (" EMPLOYEE ID ", VString "E100") ] ]
              [ [ ("employeeId", VString "E100") ] ] 0
              [ ("Notes", VString "on leave") ] (VString "E100") []
              eq_refl eq_refl _).
    + left. reflexivity.
    + left. reflexivity.
    + apply variant_trans with (h2 := "EMPLOYEE ID").
      * apply variant_case; reflexivity.
      * apply (variant_padded "EMPLOYEE ID" " " " "); reflexivity.
    + intros later [].
  - apply (proj2 (proj2 mapColumns_header_insensitive)).
    apply Forall2_cons; [|apply Forall2_nil].
    apply Forall2_cons; [|apply Forall2_nil].
    split; [|reflexivity]. cbn [fst].
    apply variant_trans with (h2 := "EMPLOYEE ID").
    + apply variant_case; reflexivity.
    + apply (variant_padded "EMPLOYEE ID" " " " "); reflexivity.
Defined.

(** C10. Merging leaves out a performance field whose value is falsy: the
    merged row of a salary-mapped row has no such property at all.  A
    retention risk of No is coerced to 0, a blank performance rating to the
    empty text and a business impact score of 0 to 0, all falsy. *)
Theorem mergeRow_drops_falsy :
  (forall row salaryRow performanceRow field,
      mapRow SALARY_COLUMN_MAPPINGS row = Return salaryRow ->
      In field performanceFields ->
      truthy (get performanceRow field) = false ->
      ~ In field (keys (mergeRow salaryRow performanceRow))
      /\ get (mergeRow salaryRow performanceRow) field = VUndefined)
  /\ (coerce "retentionRisk" (VString "No") = Return (VNumber (ofZ 0))
      /\ truthy (VNumber (ofZ 0)) = false)
  /\ (coerce "performanceRating" (VString " ") = Return (VString "")
      /\ truthy (VString "") = false)
  /\ coerce "businessImpactScore" (VString "0") = Return (VNumber (ofZ 0)).
Proof.
  split; [|repeat split; reflexivity].
  intros row salaryRow performanceRow field Hs Hf Ht.
  assert (Hk : ~ In field (keys (mergeRow salaryRow performanceRow))).
  { intros Hin. destruct (mergeRow_keys _ _ _ Hin) as [[_ Ht']|Hin'].
    - congruence.
    - exact (mapRow_salary_no_performance_field row salaryRow field Hs Hf Hin'). }
  split; [assumption|now apply get_absent].
Qed.

(** C10, witness: the retention risk of the combined export. *)
Lemma mergeRow_drops_falsy_witness :
  ~ In "retentionRisk"
      (keys (mergeRow (hd [] Sample.combinedSalaryData)
               (hd [] Sample.combinedPerformanceData)))
  /\ get (mergeRow (hd [] Sample.combinedSalaryData)
            (hd [] Sample.combinedPerformanceData)) "retentionRisk"
     = VUndefined.
Proof.
  apply (proj1 mergeRow_drops_falsy (hd [] Sample.combinedRows)).
  - reflexivity.
  - right; right; left; reflexivity.
  - reflexivity.
Defined.

(** ** The raise recommendation *)




(** * Further properties of the pipeline *)

(** ** Early rejections *)

(** X1. A pre-validation that reports an entry of severity ERROR settles the
    result: no rows, type unknown, and as errors the messages of the ERROR
    entries in their order, warnings left out.  Neither the decoders nor the
    structure check nor the expected type have a say. *)
Theorem parseFile_prevalidation_rejects
  (validateFile : File -> outcome (list ErrorHandler.Issue))
  (parseCSV parseCSV' : File -> outcome Papa.ParseResult)
  (parseXLSX parseXLSX' : File -> outcome (list object))
  (validateDataStructure validateDataStructure' :
     list object -> string -> outcome ErrorHandler.StructureValidation)
  (file : File) (expectedType expectedType' : FileType)
  (issues : list ErrorHandler.Issue) :
  validateFile file = Return issues ->
  existsb (isSeverity "ERROR") issues = true ->
  let r := parseFile validateFile parseCSV parseXLSX validateDataStructure
             file expectedType in
  fileType r = unknown /\ rowCount r = 0 /\ validRows r = 0 /\ data r = []
  /\ errors r = map ErrorHandler.message (filter (isSeverity "ERROR") issues)
  /\ errors r <> []
  /\ parseFile validateFile parseCSV' parseXLSX' validateDataStructure'
       file expectedType' = r.
Proof.
  intros Hv He r. subst r. unfold parseFile, parseFileTry.
  rewrite Hv; simpl. rewrite He; simpl.
  repeat split.
  apply existsb_exists in He. destruct He as [issue [Hin Hs]].
  intros Hnil.
  assert (Hf : In issue (filter (isSeverity "ERROR") issues))
    by (apply filter_In; split; assumption).
  apply (in_map ErrorHandler.message) in Hf. rewrite Hnil in Hf. exact Hf.
Qed.

(** X1, witness: a pre-validation with a warning and an error. *)
Lemma parseFile_prevalidation_rejects_witness :
  let r := parseFile Examples.rejectingValidateFile
             (Sample.parseCSV Sample.halfValidRows)
             (Sample.parseXLSX Sample.halfValidRows)
             (Sample.validateDataStructure salary) Sample.csvFile salary in
  fileType r = unknown /\ rowCount r = 0 /\ validRows r = 0 /\ data r = []
  /\ errors r = [ "File is too large" ]
  /\ errors r <> []
  /\ parseFile Examples.rejectingValidateFile (Sample.parseCSV [])
       (Sample.parseXLSX []) (Sample.validateDataStructure unknown)
       Sample.csvFile unknown = r.
Proof.
  exact (parseFile_prevalidation_rejects Examples.rejectingValidateFile
           (Sample.parseCSV Sample.halfValidRows) (Sample.parseCSV [])
           (Sample.parseXLSX Sample.halfValidRows) (Sample.parseXLSX [])
           (Sample.validateDataStructure salary)
           (Sample.validateDataStructure unknown)
           Sample.csvFile salary unknown _ eq_refl eq_refl).
Defined.

Section EarlyRejections.

Variable validateFile : File -> outcome (list ErrorHandler.Issue).
Variable parseCSV : File -> outcome Papa.ParseResult.
Variable parseXLSX : File -> outcome (list object).
Variable validateDataStructure :
  list object -> string -> outcome ErrorHandler.StructureValidation.

Let parsed := parseFile validateFile parseCSV parseXLSX validateDataStructure.

(** X2. A CSV file for which the decoder reports any error is rejected as a
    whole, whatever rows the decoder delivered alongside: no rows are counted
    and the one error joins the decoder's messages, each the message or, when
    that is empty, the type of the error. *)
Theorem parseFile_csv_errors_reject (file : File) (expectedType : FileType)
  (parseResult : Papa.ParseResult) :
  accepted validateFile file ->
  fileExtension file = "csv" ->
  parseCSV file = Return parseResult ->
  Papa.errors parseResult <> [] ->
  rowCount (parsed file expectedType) = 0
  /\ data (parsed file expectedType) = []
  /\ errors (parsed file expectedType)
     = [ ("Failed to parse file: "
          ++ join "; "
               (map (fun e =>
                       ("CSV parsing error: "
                        ++ (if isEmpty (Papa.message e)
                            then Papa.type e else Papa.message e))%string)
                    (Papa.errors parseResult)))%string ].
Proof.
  intros Ha Hx Hp He. subst parsed; unfold parseFile.
  rewrite (parse_accepted validateFile parseCSV parseXLSX validateDataStructure
             file expectedType Ha).
  unfold decode. rewrite Hx, Hp; simpl.
  destruct (Papa.errors parseResult) as [|e0 es]; [contradiction|].
  simpl. repeat split.
Qed.

(** X3. A file that decodes to no row at all is rejected as empty before
    the structure check is asked: the result does not depend on it, nor on the
    expected type. *)
Theorem parseFile_no_rows (file : File) (expectedType expectedType' : FileType)
  (validateDataStructure' :
     list object -> string -> outcome ErrorHandler.StructureValidation) :
  accepted validateFile file ->
  decode parseCSV parseXLSX file = Return [] ->
  fileType (parsed file expectedType) = unknown
  /\ rowCount (parsed file expectedType) = 0
  /\ data (parsed file expectedType) = []
  /\ errors (parsed file expectedType)
     = [ "File is empty or contains no valid data rows" ]
  /\ parseFile validateFile parseCSV parseXLSX validateDataStructure'
       file expectedType' = parsed file expectedType.
Proof.
  intros Ha Hd. subst parsed; unfold parseFile.
  rewrite !(parse_accepted validateFile parseCSV parseXLSX _ file _ Ha).
  rewrite Hd; simpl. repeat split.
Qed.

(** X4. When the structure check fails, no column is mapped: the result has
    the detected format as its type, counts the decoded rows, has no valid row
    and no data, lists the messages of the structure errors and then those of
    the structure warnings behind [Warning: ], and is the same for every
    expected type. *)
Theorem parseFile_structure_invalid (file : File)
  (expectedType expectedType' : FileType) (rawData : list object)
  (structure : ErrorHandler.StructureValidation) :
  accepted validateFile file ->
  decode parseCSV parseXLSX file = Return rawData ->
  Nat.eqb (length rawData) 0 = false ->
  validateDataStructure rawData (name file) = Return structure ->
  ErrorHandler.isValid structure = false ->
  fileType (parsed file expectedType) = ErrorHandler.detectedFormat structure
  /\ rowCount (parsed file expectedType) = length rawData
  /\ validRows (parsed file expectedType) = 0
  /\ data (parsed file expectedType) = []
  /\ errors (parsed file expectedType)
     = map ErrorHandler.message (ErrorHandler.errors structure)
       ++ map (fun w => ("Warning: " ++ ErrorHandler.message w)%string)
            (ErrorHandler.warnings structure)
  /\ parsed file expectedType' = parsed file expectedType.
Proof.
  intros Ha Hd Hn Hs Hv. subst parsed; unfold parseFile.
  rewrite !(parse_accepted validateFile parseCSV parseXLSX _ file _ Ha).
  rewrite Hd, Hn, Hs; simpl. rewrite Hv; simpl. repeat split.
Qed.

End EarlyRejections.

(** X2, witness: a decoder that reports two errors beside two rows. *)
Lemma parseFile_csv_errors_reject_witness :
  rowCount (parseFile Sample.validateFile
              (Examples.failingParseCSV Sample.halfValidRows)
              (Sample.parseXLSX []) (Sample.validateDataStructure salary)
              Sample.csvFile salary) = 0
  /\ data (parseFile Sample.validateFile
             (Examples.failingParseCSV Sample.halfValidRows)
             (Sample.parseXLSX []) (Sample.validateDataStructure salary)
             Sample.csvFile salary) = []
  /\ errors (parseFile Sample.validateFile
               (Examples.failingParseCSV Sample.halfValidRows)
               (Sample.parseXLSX []) (Sample.validateDataStructure salary)
               Sample.csvFile salary)
     = [ "Failed to parse file: CSV parsing error: Too few fields; CSV parsing error: Quotes" ].
Proof.
  refine (parseFile_csv_errors_reject Sample.validateFile
            (Examples.failingParseCSV Sample.halfValidRows)
            (Sample.parseXLSX []) (Sample.validateDataStructure salary)
            Sample.csvFile salary _ _ eq_refl eq_refl _).
  - exists []. split; reflexivity.
  - simpl. discriminate.
Defined.

(** X3, witness: a CSV file that decodes to no row. *)
Lemma parseFile_no_rows_witness :
  fileType (parseFile Sample.validateFile (Sample.parseCSV [])
              (Sample.parseXLSX []) (Sample.validateDataStructure salary)
              Sample.csvFile salary) = unknown
  /\ rowCount (parseFile Sample.validateFile (Sample.parseCSV [])
                 (Sample.parseXLSX []) (Sample.validateDataStructure salary)
                 Sample.csvFile salary) = 0
  /\ data (parseFile Sample.validateFile (Sample.parseCSV [])
             (Sample.parseXLSX []) (Sample.validateDataStructure salary)
             Sample.csvFile salary) = []
  /\ errors (parseFile Sample.validateFile (Sample.parseCSV [])
               (Sample.parseXLSX []) (Sample.validateDataStructure salary)
               Sample.csvFile salary)
     = [ "File is empty or contains no valid data rows" ]
  /\ parseFile Sample.validateFile (Sample.parseCSV []) (Sample.parseXLSX [])
       Examples.failingValidateDataStructure Sample.csvFile performance
     = parseFile Sample.validateFile (Sample.parseCSV [])
         (Sample.parseXLSX []) (Sample.validateDataStructure salary)
         Sample.csvFile salary.
Proof.
  refine (parseFile_no_rows Sample.validateFile (Sample.parseCSV [])
            (Sample.parseXLSX []) (Sample.validateDataStructure salary)
            Sample.csvFile salary performance
            Examples.failingValidateDataStructure _ eq_refl).
  exists []. split; reflexivity.
Defined.

(** X4, witness: two rows and a structure check that fails. *)
Lemma parseFile_structure_invalid_witness :
  fileType (parseFile Sample.validateFile (Sample.parseCSV Sample.halfValidRows)
              (Sample.parseXLSX []) Examples.failingValidateDataStructure
              Sample.csvFile salary) = performance
  /\ rowCount (parseFile Sample.validateFile
                 (Sample.parseCSV Sample.halfValidRows)
                 (Sample.parseXLSX []) Examples.failingValidateDataStructure
                 Sample.csvFile salary) = 2
  /\ validRows (parseFile Sample.validateFile
                  (Sample.parseCSV Sample.halfValidRows)
                  (Sample.parseXLSX []) Examples.failingValidateDataStructure
                  Sample.csvFile salary) = 0
  /\ data (parseFile Sample.validateFile
             (Sample.parseCSV Sample.halfValidRows)
             (Sample.parseXLSX []) Examples.failingValidateDataStructure
             Sample.csvFile salary) = []
  /\ errors (parseFile Sample.validateFile
               (Sample.parseCSV Sample.halfValidRows)
               (Sample.parseXLSX []) Examples.failingValidateDataStructure
               Sample.csvFile salary)
     = [ "No recognizable columns"; "Warning: Few rows" ]
  /\ parseFile Sample.validateFile (Sample.parseCSV Sample.halfValidRows)
       (Sample.parseXLSX []) Examples.failingValidateDataStructure
       Sample.csvFile unknown
     = parseFile Sample.validateFile (Sample.parseCSV Sample.halfValidRows)
         (Sample.parseXLSX []) Examples.failingValidateDataStructure
         Sample.csvFile salary.
Proof.
  refine (parseFile_structure_invalid Sample.validateFile
            (Sample.parseCSV Sample.halfValidRows) (Sample.parseXLSX [])
            Examples.failingValidateDataStructure Sample.csvFile salary unknown
            Sample.halfValidRows Examples.structureFailed
            _ eq_refl eq_refl eq_refl eq_refl).
  exists []. split; reflexivity.
Defined.

(** ** Lists, once more *)

Lemma mapWithIndex_nth {A B : Type} (f : A -> nat -> B) (xs : list A) (start i : nat) :
  nth_error (mapWithIndex f xs start) i
  = option_map (fun x => f x (start + i)) (nth_error xs i).
Proof.
  revert start i; induction xs as [|x r IH]; intros start i; simpl.
  - destruct i; reflexivity.
  - destruct i as [|i]; simpl.
    + now rewrite Nat.add_0_r.
    + rewrite IH. now rewrite Nat.add_succ_comm.
Qed.

Lemma filter_all {A : Type} (p : A -> bool) (xs : list A) :
  length (filter p xs) = length xs -> forall x, In x xs -> p x = true.
Proof.
  induction xs as [|x0 r IH]; simpl; [intros _ x []|].
  pose proof (filter_length_le p r) as Hle.
  destruct (p x0) eqn:E; simpl; intros H x [<-|Hin]; try assumption; try lia.
  apply IH; [lia|assumption].
Qed.

Lemma prefix_app (a b : string) : prefix a (a ++ b) = true.
Proof.
  induction a as [|c a IH]; simpl; [now destruct b|].
  destruct (ascii_dec c c); [assumption|contradiction].
Qed.

(** The rows [filterValid] keeps are rows of the mapped data whose validation
    result says valid. *)
Lemma filterValid_kept (f : object -> nat -> ValidationResult)
  (mappedData kept : list object) (start : nat) (row : object) :
  filterValid mappedData (mapWithIndex f mappedData start) = Return kept ->
  In row kept ->
  exists index, In row mappedData /\ Validation.isValid (f row index) = true.
Proof.
  revert kept start; induction mappedData as [|r0 rows IH]; intros kept start; simpl.
  - intros H; inversion H; subst; intros [].
  - destruct (filterValid rows (mapWithIndex f rows (S start))) as [k|e] eqn:E;
      simpl; [|discriminate].
    destruct (Validation.isValid (f r0 start)) eqn:Ev; intros H Hin;
      inversion H; subst kept; clear H.
    + destruct Hin as [<-|Hin]; [exists start; split; [now left|assumption]|].
      destruct (IH k (S start) E Hin) as [j [Hj Hv]].
      exists j; split; [now right|assumption].
    + destruct (IH k (S start) E Hin) as [j [Hj Hv]].
      exists j; split; [now right|assumption].
Qed.

(** ** What step 4 hands on *)

Lemma mapAndValidate_performance (expectedType detected : FileType)
  (rawData mappedData : list object) (validationResults : list ValidationResult) :
  mapAndValidate expectedType detected rawData
  = (performance, Return (mappedData, validationResults)) ->
  mapColumns rawData PERFORMANCE_COLUMN_MAPPINGS = Return mappedData
  /\ validationResults = validatePerformanceData mappedData.
Proof.
  unfold mapAndValidate.
  set (ft := if FileType_eqb expectedType unknown then detected else expectedType).
  destruct (FileType_eqb ft salary || FileType_eqb ft unknown) eqn:Eft.
  - unfold salaryBranch.
    destruct (mapSalary (hasPerformanceColumns rawData) rawData) as [s|e] eqn:Es;
      simpl; [|discriminate].
    destruct (lt (Fin (1 # 10)) (validityRate (validateSalaryData s))
              || FileType_eqb expectedType salary) eqn:Ec; simpl;
      [discriminate|].
    destruct (FileType_eqb expectedType unknown) eqn:Eu.
    + destruct (mapColumns rawData PERFORMANCE_COLUMN_MAPPINGS) as [p|e] eqn:Ep;
        simpl; [|discriminate].
      destruct (lt (validityRate (validateSalaryData s))
                  (validityRate (validatePerformanceData p))); simpl.
      * intros H; inversion H; subst; auto.
      * discriminate.
    + subst ft. rewrite Eu in *.
      destruct expectedType; simpl in *; discriminate.
  - clearbody ft. destruct ft; simpl in *; try discriminate.
    destruct (mapColumns rawData PERFORMANCE_COLUMN_MAPPINGS) as [p|e] eqn:Ep;
      simpl; [|discriminate].
    intros H; inversion H; subst; auto.
Qed.

(** A step 4 that returns has settled on salary or performance. *)
Lemma mapAndValidate_settles (expectedType detected : FileType)
  (rawData mappedData : list object) (validationResults : list ValidationResult) :
  mapAndValidate expectedType detected rawData
  <> (unknown, Return (mappedData, validationResults)).
Proof.
  unfold mapAndValidate.
  set (ft := if FileType_eqb expectedType unknown then detected else expectedType).
  destruct (FileType_eqb ft salary || FileType_eqb ft unknown) eqn:Eft.
  - unfold salaryBranch.
    destruct (mapSalary (hasPerformanceColumns rawData) rawData) as [s|e] eqn:Es;
      simpl; [|discriminate].
    destruct (lt (Fin (1 # 10)) (validityRate (validateSalaryData s))
              || FileType_eqb expectedType salary) eqn:Ec; simpl;
      [discriminate|].
    destruct (FileType_eqb expectedType unknown) eqn:Eu.
    + destruct (mapColumns rawData PERFORMANCE_COLUMN_MAPPINGS) as [p|e] eqn:Ep;
        simpl; [|discriminate].
      destruct (lt (validityRate (validateSalaryData s))
                  (validityRate (validatePerformanceData p))); simpl; discriminate.
    + subst ft. rewrite Eu in *.
      destruct expectedType; simpl in *; discriminate.
  - clearbody ft. destruct ft; simpl in *; discriminate.
Qed.


Lemma validatePerformanceRow_valid (row : object) (index : nat) :
  Validation.isValid (validatePerformanceRow row index) = true
  <-> present row "employeeId".
Proof.
  unfold validatePerformanceRow, present; simpl.
  destruct (truthy (get row "employeeId")); simpl; split; congruence.
Qed.

(** ** Results of [parseFile], stage by stage *)

Section ParseFileResults.

Variable validateFile : File -> outcome (list ErrorHandler.Issue).
Variable parseCSV : File -> outcome Papa.ParseResult.
Variable parseXLSX : File -> outcome (list object).
Variable validateDataStructure :
  list object -> string -> outcome ErrorHandler.StructureValidation.

Let parsed := parseFile validateFile parseCSV parseXLSX validateDataStructure.

(** The result once steps 1 to 3 have passed: the rejection of a mapping
    that throws, or the outcome of step 5. *)
Lemma parse_after_mapping (file : File) (expectedType : FileType)
  (rawData : list object) (structure : ErrorHandler.StructureValidation) :
  reachesMapping validateFile parseCSV parseXLSX validateDataStructure
    file rawData structure ->
  fileType (parsed file expectedType)
  = fst (mapAndValidate expectedType
           (ErrorHandler.detectedFormat structure) rawData)
  /\ rowCount (parsed file expectedType) = length rawData.
Proof.
  intros Hr.
  destruct (mapAndValidate expectedType
              (ErrorHandler.detectedFormat structure) rawData)
    as [ft [[md vr]|e]] eqn:Em.
  - pose proof (parse_finished validateFile parseCSV parseXLSX
                  validateDataStructure file expectedType _ _ _ _ _ Hr Em) as Hf.
    destruct (mapAndValidate_lengths _ _ _ _ _ _ Em) as [Hl Hle].
    destruct (finish_counts file ft rawData structure md vr Hl Hle)
      as [r [E [_ [_ [Ht Hc]]]]].
    rewrite E in Hf. inversion Hf as [Hres]. subst parsed. rewrite <- Hres.
    split; assumption.
  - subst parsed. unfold parseFile.
    rewrite (parse_reaches validateFile parseCSV parseXLSX
               validateDataStructure file expectedType _ _ Hr), Em.
    split; reflexivity.
Qed.


(** What [parseFile] returns is a rejection without data, or the outcome of
    step 5 on a step 4 that returned. *)
Lemma parse_cases (file : File) (expectedType : FileType) :
  data (parsed file expectedType) = []
  \/ exists rawData structure mappedData validationResults,
      mapAndValidate expectedType
        (ErrorHandler.detectedFormat structure) rawData
      = (fileType (parsed file expectedType),
         Return (mappedData, validationResults))
      /\ filterValid mappedData validationResults
         = Return (data (parsed file expectedType)).
Proof.
  subst parsed; unfold parseFile, parseFileTry.
  destruct (validateFile file) as [issues|e]; simpl; [|now left].
  destruct (existsb _ issues); [now left|].
  destruct (decode _ _ file) as [rawData|e]; [|now left].
  destruct (Nat.eqb (length rawData) 0); [now left|].
  destruct (validateDataStructure rawData (name file)) as [structure|e]; simpl;
    [|now left].
  destruct (negb _); [now left|].
  destruct (mapAndValidate _ _ rawData) as [ft [[md vr]|e]] eqn:Em; [|now left].
  destruct (mapAndValidate_lengths _ _ _ _ _ _ Em) as [Hl Hle].
  unfold finish.
  destruct (filterValid_total md vr Hl) as [kept [E _]].
  rewrite E; simpl.
  right. exists rawData, structure, md, vr. split; [exact Em|exact E].
Qed.

(** X6. Every row in the data of a result of type salary has an employee
    id, one of the three name fields, and a base salary that is a number above
    zero. *)
Theorem parseFile_salary_data_valid (file : File) (expectedType : FileType)
  (row : object) :
  fileType (parsed file expectedType) = salary ->
  In row (data (parsed file expectedType)) ->
  present row "employeeId"
  /\ (present row "name" \/ present row "firstName" \/ present row "lastName")
  /\ positive row "baseSalary".
Proof.
  intros Ht Hin.
  destruct (parse_cases file expectedType) as [Hd|[raw [st [md [vr [Em Ef]]]]]].
  - rewrite Hd in Hin; destruct Hin.
  - rewrite Ht in Em.
    destruct (mapAndValidate_salary _ _ _ _ _ Em) as [_ ->].
    unfold validateSalaryData in Ef.
    destruct (filterValid_kept validateSalaryRow md _ 0 row Ef Hin)
      as [index [_ Hv]].
    now apply (validateSalaryRow_valid row index).
Qed.

(** X7. Every row in the data of a result of type performance has an
    employee id; and no result carries data under the type unknown. *)
Theorem parseFile_performance_data_valid (file : File) (expectedType : FileType)
  (row : object) :
  In row (data (parsed file expectedType)) ->
  fileType (parsed file expectedType) <> unknown
  /\ (fileType (parsed file expectedType) = performance ->
      present row "employeeId").
Proof.
  intros Hin.
  destruct (parse_cases file expectedType) as [Hd|[raw [st [md [vr [Em Ef]]]]]].
  - rewrite Hd in Hin; destruct Hin.
  - split.
    + intros Hu. rewrite Hu in Em. exact (mapAndValidate_settles _ _ _ _ _ Em).
    + intros Ht. rewrite Ht in Em.
      destruct (mapAndValidate_performance _ _ _ _ _ Em) as [_ ->].
      unfold validatePerformanceData in Ef.
      destruct (filterValid_kept validatePerformanceRow md _ 0 row Ef Hin)
        as [index [_ Hv]].
      now apply (validatePerformanceRow_valid row index).
Qed.

End ParseFileResults.


(** X6, witness: the valid row of the two. *)
Lemma parseFile_salary_data_valid_witness :
  present (hd [] Sample.halfValidSalaryData) "employeeId"
  /\ (present (hd [] Sample.halfValidSalaryData) "name"
      \/ present (hd [] Sample.halfValidSalaryData) "firstName"
      \/ present (hd [] Sample.halfValidSalaryData) "lastName")
  /\ positive (hd [] Sample.halfValidSalaryData) "baseSalary".
Proof.
  refine (parseFile_salary_data_valid Sample.validateFile
            (Sample.parseCSV Sample.halfValidRows)
            (Sample.parseXLSX Sample.halfValidRows)
            (Sample.validateDataStructure unknown) Sample.csvFile salary
            (hd [] Sample.halfValidSalaryData) eq_refl _).
  left. reflexivity.
Defined.

(** X7, witness: the rows above read as a performance file. *)
Lemma parseFile_performance_data_valid_witness :
  fileType (Sample.parseRows Sample.halfValidRows unknown Sample.csvFile
              performance) <> unknown
  /\ (fileType (Sample.parseRows Sample.halfValidRows unknown Sample.csvFile
                  performance) = performance ->
      present (hd [] Sample.halfValidPerformanceData) "employeeId").
Proof.
  refine (parseFile_performance_data_valid Sample.validateFile
            (Sample.parseCSV Sample.halfValidRows)
            (Sample.parseXLSX Sample.halfValidRows)
            (Sample.validateDataStructure unknown) Sample.csvFile performance
            (hd [] Sample.halfValidPerformanceData) _).
  left. reflexivity.
Defined.

(** ** The messages of a result *)

Lemma in_concat_mapWithIndex {A B : Type} (g : A -> nat -> list B) (xs : list A)
  (start : nat) (e : B) :
  In e (concat (mapWithIndex g xs start))
  <-> exists i x, nth_error xs i = Some x /\ In e (g x (start + i)).
Proof.
  revert start; induction xs as [|x0 r IH]; intros start; simpl.
  - split; [intros []|intros [i [x [H _]]]; destruct i; discriminate].
  - rewrite in_app_iff, IH. split.
    + intros [H|[i [x [Hn Hi]]]].
      * exists 0, x0. rewrite Nat.add_0_r. split; [reflexivity|assumption].
      * exists (S i), x. rewrite <- Nat.add_succ_comm. split; assumption.
    + intros [[|i] [x [Hn Hi]]]; simpl in Hn.
      * inversion Hn; subst. rewrite Nat.add_0_r in Hi. now left.
      * right. exists i, x. rewrite Nat.add_succ_comm. split; assumption.
Qed.

Lemma collectErrors_all_valid (validationResults : list ValidationResult) :
  (forall v, In v validationResults -> Validation.isValid v = true) ->
  collectErrors validationResults = [].
Proof.
  unfold collectErrors. generalize 0.
  induction validationResults as [|v r IH]; intros start Hall; simpl;
    [reflexivity|].
  rewrite (Hall v (or_introl eq_refl)); simpl.
  apply IH. intros v' Hv'. apply Hall. now right.
Qed.

Lemma collectErrors_rows (validationResults : list ValidationResult) :
  Forall (fun e => prefix "Row " e = true) (collectErrors validationResults).
Proof.
  apply Forall_forall. intros e He. unfold collectErrors in He.
  apply in_concat_mapWithIndex in He. destruct He as [i [v [_ Hin]]].
  destruct (negb (Validation.isValid v)); [|destruct Hin].
  unfold rowMessages in Hin. apply in_map_iff in Hin.
  destruct Hin as [m [<- _]]. apply prefix_app.
Qed.

(** A row the validators turn down comes with a reason. *)
Lemma invalid_row_has_error (f : object -> nat -> ValidationResult)
  (row : object) (index : nat) :
  f = validateSalaryRow \/ f = validatePerformanceRow ->
  Validation.isValid (f row index) = false ->
  Validation.errors (f row index) <> [].
Proof.
  intros [->| ->]; unfold validateSalaryRow, validatePerformanceRow; simpl;
    intros H Hnil; rewrite Hnil in H; discriminate.
Qed.

Lemma collectErrors_nil (f : object -> nat -> ValidationResult)
  (mappedData : list object) (start : nat) :
  f = validateSalaryRow \/ f = validatePerformanceRow ->
  concat (mapWithIndex
            (fun result index =>
               if negb (Validation.isValid result)
               then rowMessages index (Validation.errors result) else [])
            (mapWithIndex f mappedData start) 0) = [] ->
  forall v, In v (mapWithIndex f mappedData start) -> Validation.isValid v = true.
Proof.
  intros Hf. generalize 0. revert start.
  induction mappedData as [|row rows IH]; intros start k; simpl; [intros _ v []|].
  intros H v [<-|Hin].
  - destruct (Validation.isValid (f row start)) eqn:Ev; [reflexivity|].
    simpl in H. apply app_eq_nil in H. destruct H as [H _].
    unfold rowMessages in H. apply map_eq_nil in H.
    exfalso. exact (invalid_row_has_error f row start Hf Ev H).
  - apply app_eq_nil in H. destruct H as [_ H].
    exact (IH (S start) (S k) H v Hin).
Qed.

Lemma filter_all_length {A : Type} (p : A -> bool) (xs : list A) :
  (forall x, In x xs -> p x = true) -> length (filter p xs) = length xs.
Proof.
  induction xs as [|x r IH]; simpl; [reflexivity|]. intros H.
  rewrite (H x (or_introl eq_refl)); simpl. f_equal.
  apply IH. intros y Hy. apply H. now right.
Qed.

(** A step 4 that returns has one validation result for every decoded row,
    made by the validator of the type it settled on. *)
Lemma mapAndValidate_validated (expectedType detected finalType : FileType)
  (rawData mappedData : list object) (validationResults : list ValidationResult) :
  mapAndValidate expectedType detected rawData
  = (finalType, Return (mappedData, validationResults)) ->
  length validationResults = length rawData
  /\ exists f, (f = validateSalaryRow \/ f = validatePerformanceRow)
               /\ validationResults = mapWithIndex f mappedData 0.
Proof.
  intros Em. destruct finalType.
  - destruct (mapAndValidate_salary _ _ _ _ _ Em) as [Hs ->].
    apply mapSalary_length in Hs. split.
    + unfold validateSalaryData. now rewrite mapWithIndex_length.
    + exists validateSalaryRow; split; [now left|reflexivity].
  - destruct (mapAndValidate_performance _ _ _ _ _ Em) as [Hp ->].
    apply mapOutcome_length in Hp. split.
    + unfold validatePerformanceData. now rewrite mapWithIndex_length.
    + exists validatePerformanceRow; split; [now right|reflexivity].
  - exfalso. exact (mapAndValidate_settles _ _ _ _ _ Em).
Qed.

Section ResultMessages.

Variable validateFile : File -> outcome (list ErrorHandler.Issue).
Variable parseCSV : File -> outcome Papa.ParseResult.
Variable parseXLSX : File -> outcome (list object).
Variable validateDataStructure :
  list object -> string -> outcome ErrorHandler.StructureValidation.

Let parsed := parseFile validateFile parseCSV parseXLSX validateDataStructure.

Lemma parse_messages (file : File) (expectedType finalType : FileType)
  (rawData : list object) (structure : ErrorHandler.StructureValidation)
  (mappedData : list object) (validationResults : list ValidationResult) :
  reachesMapping validateFile parseCSV parseXLSX validateDataStructure
    file rawData structure ->
  mapAndValidate expectedType (ErrorHandler.detectedFormat structure) rawData
  = (finalType, Return (mappedData, validationResults)) ->
  errors (parsed file expectedType)
  = collectErrors validationResults
    ++ map (fun w => ("Warning: " ++ w)%string)
         (collectWarnings validationResults
          ++ map (fun w => ("Data structure: " ++ ErrorHandler.message w)%string)
               (ErrorHandler.warnings structure))
  /\ validRows (parsed file expectedType)
     = length (filter Validation.isValid validationResults).
Proof.
  intros Hr Em.
  pose proof (parse_finished validateFile parseCSV parseXLSX
                validateDataStructure file expectedType _ _ _ _ _ Hr Em) as Hf.
  unfold finish in Hf.
  destruct (filterValid mappedData validationResults); simpl in Hf;
    [|discriminate].
  inversion Hf as [Hres]. subst parsed. rewrite <- Hres. split; reflexivity.
Qed.

(** X8. When the column mapping has returned, the messages of the result
    are the row errors, each starting with [Row ], followed by the warnings,
    each starting with [Warning: ]; and there is no row error exactly when
    every decoded row is valid. *)
Theorem parseFile_errors_then_warnings (file : File)
  (expectedType finalType : FileType) (rawData : list object)
  (structure : ErrorHandler.StructureValidation)
  (mappedData : list object) (validationResults : list ValidationResult) :
  reachesMapping validateFile parseCSV parseXLSX validateDataStructure
    file rawData structure ->
  mapAndValidate expectedType (ErrorHandler.detectedFormat structure) rawData
  = (finalType, Return (mappedData, validationResults)) ->
  exists rowErrors warnings,
    errors (parsed file expectedType) = rowErrors ++ warnings
    /\ Forall (fun e => prefix "Row " e = true) rowErrors
    /\ Forall (fun e => prefix "Warning: " e = true) warnings
    /\ (rowErrors = []
        <-> validRows (parsed file expectedType)
            = rowCount (parsed file expectedType)).
Proof.
  intros Hr Em.
  destruct (parse_messages file expectedType finalType rawData structure
              mappedData validationResults Hr Em) as [He Hv].
  destruct (parse_after_mapping validateFile parseCSV parseXLSX
              validateDataStructure file expectedType rawData structure Hr)
    as [_ Hc].
  destruct (mapAndValidate_validated _ _ _ _ _ _ Em) as [Hlen [f [Hf Hvr]]].
  exists (collectErrors validationResults).
  eexists. split; [exact He|]. split; [apply collectErrors_rows|]. split.
  - apply Forall_forall. intros e Hin. apply in_map_iff in Hin.
    destruct Hin as [w [<- _]]. apply prefix_app.
  - fold parsed in Hc. rewrite Hv, Hc, <- Hlen. split.
    + intros Hnil. apply filter_all_length.
      rewrite Hvr in *. unfold collectErrors in Hnil.
      exact (collectErrors_nil f mappedData 0 Hf Hnil).
    + intros Hall. apply collectErrors_all_valid.
      now apply filter_all.
Qed.

(** X9. The row errors of a result name the rows as the sheet numbers them,
    the first data row being row 2: an entry is a row error exactly when it is
    [Row i+2: m] for an error [m] of the invalid row at index [i]; and every
    warning of every row, valid or not, is listed behind [Warning: Row i+2: ]. *)
Theorem parseFile_row_numbers (file : File)
  (expectedType finalType : FileType) (rawData : list object)
  (structure : ErrorHandler.StructureValidation)
  (mappedData : list object) (validationResults : list ValidationResult)
  (entry : string) :
  reachesMapping validateFile parseCSV parseXLSX validateDataStructure
    file rawData structure ->
  mapAndValidate expectedType (ErrorHandler.detectedFormat structure) rawData
  = (finalType, Return (mappedData, validationResults)) ->
  In entry (errors (parsed file expectedType))
  <-> (exists i v m,
          nth_error validationResults i = Some v
          /\ Validation.isValid v = false
          /\ In m (Validation.errors v)
          /\ entry = ("Row " ++ ofNat (i + 2) ++ ": " ++ m)%string)
      \/ (exists i v m,
             nth_error validationResults i = Some v
             /\ In m (Validation.warnings v)
             /\ entry = ("Warning: Row " ++ ofNat (i + 2) ++ ": " ++ m)%string)
      \/ (exists w,
             In w (ErrorHandler.warnings structure)
             /\ entry
                = ("Warning: Data structure: " ++ ErrorHandler.message w)%string).
Proof.
  intros Hr Em.
  destruct (parse_messages file expectedType finalType rawData structure
              mappedData validationResults Hr Em) as [He _].
  rewrite He, in_app_iff, in_map_iff.
  unfold collectErrors. rewrite in_concat_mapWithIndex.
  split.
  - intros [[i [v [Hn Hin]]]|[w [<- Hw]]].
    + left. destruct (Validation.isValid v) eqn:Ev; simpl in Hin; [destruct Hin|].
      unfold rowMessages in Hin. apply in_map_iff in Hin.
      destruct Hin as [m [<- Hm]]. exists i, v, m. repeat split; assumption.
    + right. apply in_app_iff in Hw. destruct Hw as [Hw|Hw].
      * left. unfold collectWarnings in Hw.
        apply in_concat_mapWithIndex in Hw. destruct Hw as [i [v [Hn Hin]]].
        unfold rowMessages in Hin. apply in_map_iff in Hin.
        destruct Hin as [m [<- Hm]]. exists i, v, m. repeat split; assumption.
      * right. apply in_map_iff in Hw. destruct Hw as [x [<- Hx]].
        exists x; split; [assumption|reflexivity].
  - intros [[i [v [m [Hn [Ev [Hm ->]]]]]]|[[i [v [m [Hn [Hm ->]]]]]|[w [Hw ->]]]].
    + left. exists i, v. split; [assumption|]. rewrite Ev; simpl.
      unfold rowMessages. apply in_map_iff. exists m; split; [reflexivity|assumption].
    + right. exists ("Row " ++ ofNat (i + 2) ++ ": " ++ m)%string.
      split; [reflexivity|]. apply in_app_iff; left.
      unfold collectWarnings. apply in_concat_mapWithIndex.
      exists i, v. split; [assumption|]. unfold rowMessages.
      apply in_map_iff. exists m; split; [reflexivity|assumption].
    + right. exists ("Data structure: " ++ ErrorHandler.message w)%string.
      split; [reflexivity|]. apply in_app_iff; right.
      apply in_map_iff. exists w; split; [reflexivity|assumption].
Qed.

End ResultMessages.

(** X8, witness: two rows, the second without a salary. *)
Lemma parseFile_errors_then_warnings_witness :
  exists rowErrors warnings,
    errors (Sample.parseRows Sample.halfValidRows unknown Sample.csvFile salary)
    = rowErrors ++ warnings
    /\ Forall (fun e => prefix "Row " e = true) rowErrors
    /\ Forall (fun e => prefix "Warning: " e = true) warnings
    /\ (rowErrors = []
        <-> validRows (Sample.parseRows Sample.halfValidRows unknown
                         Sample.csvFile salary)
            = rowCount (Sample.parseRows Sample.halfValidRows unknown
                          Sample.csvFile salary)).
Proof.
  refine (parseFile_errors_then_warnings Sample.validateFile
            (Sample.parseCSV Sample.halfValidRows)
            (Sample.parseXLSX Sample.halfValidRows)
            (Sample.validateDataStructure unknown) Sample.csvFile salary salary
            Sample.halfValidRows (Sample.structureOk unknown)
            Sample.halfValidSalaryData
            (validateSalaryData Sample.halfValidSalaryData) _ eq_refl).
  repeat split; try reflexivity. exists []. split; reflexivity.
Defined.

(** X9, witness: the second data row is row 3 of the sheet. *)
Lemma parseFile_row_numbers_witness :
  In "Row 3: Valid base salary is required"
    (errors (Sample.parseRows Sample.halfValidRows unknown Sample.csvFile salary))
  <-> (exists i v m,
          nth_error (validateSalaryData Sample.halfValidSalaryData) i = Some v
          /\ Validation.isValid v = false
          /\ In m (Validation.errors v)
          /\ "Row 3: Valid base salary is required"
             = ("Row " ++ ofNat (i + 2) ++ ": " ++ m)%string)
      \/ (exists i v m,
             nth_error (validateSalaryData Sample.halfValidSalaryData) i = Some v
             /\ In m (Validation.warnings v)
             /\ "Row 3: Valid base salary is required"
                = ("Warning: Row " ++ ofNat (i + 2) ++ ": " ++ m)%string)
      \/ (exists w,
             In w (ErrorHandler.warnings (Sample.structureOk unknown))
             /\ "Row 3: Valid base salary is required"
                = ("Warning: Data structure: " ++ ErrorHandler.message w)%string).
Proof.
  refine (parseFile_row_numbers Sample.validateFile
            (Sample.parseCSV Sample.halfValidRows)
            (Sample.parseXLSX Sample.halfValidRows)
            (Sample.validateDataStructure unknown) Sample.csvFile salary salary
            Sample.halfValidRows (Sample.structureOk unknown)
            Sample.halfValidSalaryData
            (validateSalaryData Sample.halfValidSalaryData)
            "Row 3: Valid base salary is required" _ eq_refl).
  repeat split; try reflexivity. exists []. split; reflexivity.
Defined.

(** * Further properties of the column mapping *)

Import Chars.

(** ** The mapped row as an object *)

Lemma set_keys_NoDup (o : object) (k : string) (v : value) :
  NoDup (keys o) -> NoDup (keys (set o k v)).
Proof.
  unfold keys. induction o as [|[k0 v0] r IH]; simpl; intros H.
  - constructor; [intros []|constructor].
  - inversion H as [|? ? Hn Hr]; subst.
    destruct (String.eqb k0 k) eqn:E; simpl.
    + apply String.eqb_eq in E; subst k0. now constructor.
    + constructor; [|now apply IH].
      intros Hin. change (map fst (set r k v)) with (keys (set r k v)) in Hin.
      destruct (keys_set _ _ _ _ Hin) as [->|Hin'].
      * now rewrite String.eqb_refl in E.
      * exact (Hn Hin').
Qed.

Lemma set_keys_in (o : object) (k : string) (v : value) :
  In k (keys (set o k v)).
Proof.
  unfold keys. induction o as [|[k0 v0] r IH]; simpl; [now left|].
  destruct (String.eqb k0 k) eqn:E; simpl; [now left|now right].
Qed.

Lemma set_keys_mono (o : object) (k k' : string) (v : value) :
  In k' (keys o) -> In k' (keys (set o k v)).
Proof.
  unfold keys. induction o as [|[k0 v0] r IH]; simpl; [intros []|].
  destruct (String.eqb k0 k) eqn:E; simpl.
  - apply String.eqb_eq in E; subst k0. intros [H|H]; [now left|now right].
  - intros [H|H]; [now left|right; now apply IH].
Qed.

Lemma forEachEntry_NoDup (mappings : list (string * string)) (entries : object) :
  forall mappedRow result,
    forEachEntry mappings entries mappedRow = Return result ->
    NoDup (keys mappedRow) -> NoDup (keys result).
Proof.
  induction entries as [|[key cell] rest IH]; intros mappedRow result; simpl.
  - intros H; inversion H; subst; auto.
  - destruct (lookupMapping mappings (normalizeKey key)) as [mappedField|];
      simpl; [|apply IH].
    destruct (coerce mappedField cell) as [v|e]; simpl; [|discriminate].
    intros H Hn. apply (IH _ _ H). now apply set_keys_NoDup.
Qed.

Lemma forEachEntry_keys_mono (mappings : list (string * string)) (entries : object) :
  forall mappedRow result field,
    forEachEntry mappings entries mappedRow = Return result ->
    In field (keys mappedRow) -> In field (keys result).
Proof.
  induction entries as [|[key cell] rest IH]; intros mappedRow result field; simpl.
  - intros H; inversion H; subst; auto.
  - destruct (lookupMapping mappings (normalizeKey key)) as [mappedField|];
      simpl; [|apply IH].
    destruct (coerce mappedField cell) as [v|e]; simpl; [|discriminate].
    intros H Hin. apply (IH _ _ _ H). now apply set_keys_mono.
Qed.

Lemma forEachEntry_mapped_in (mappings : list (string * string)) (entries : object) :
  forall mappedRow result header field,
    forEachEntry mappings entries mappedRow = Return result ->
    In header (keys entries) ->
    lookupMapping mappings (normalizeKey header) = Some field ->
    In field (keys result).
Proof.
  induction entries as [|[key cell] rest IH];
    intros mappedRow result header field; simpl; [intros _ []|].
  intros H [<-|Hin] Hl.
  - rewrite Hl in H; simpl in H.
    destruct (coerce field cell) as [v|e]; simpl in H; [|discriminate].
    apply (forEachEntry_keys_mono _ _ _ _ _ H). apply set_keys_in.
  - destruct (lookupMapping mappings (normalizeKey key)) as [f0|]; simpl in H.
    + destruct (coerce f0 cell) as [v|e]; simpl in H; [|discriminate].
      exact (IH _ _ _ _ H Hin Hl).
    + exact (IH _ _ _ _ H Hin Hl).
Qed.

Lemma forEachEntry_keys_from (mappings : list (string * string)) (entries : object) :
  forall mappedRow result field,
    forEachEntry mappings entries mappedRow = Return result ->
    In field (keys result) ->
    In field (keys mappedRow)
    \/ exists header, In header (keys entries)
                      /\ lookupMapping mappings (normalizeKey header) = Some field.
Proof.
  induction entries as [|[key cell] rest IH]; intros mappedRow result field; simpl.
  - intros H; inversion H; subst; now left.
  - destruct (lookupMapping mappings (normalizeKey key)) as [mappedField|] eqn:El;
      simpl.
    + destruct (coerce mappedField cell) as [v|e]; simpl; [|discriminate].
      intros H Hin. destruct (IH _ _ _ H Hin) as [Hk|[h [Hh Hl]]].
      * destruct (keys_set _ _ _ _ Hk) as [->|Hk']; [|now left].
        right. exists key; split; [now left|assumption].
      * right. exists h; split; [now right|assumption].
    + intros H Hin. destruct (IH _ _ _ H Hin) as [Hk|[h [Hh Hl]]]; [now left|].
      right. exists h; split; [now right|assumption].
Qed.

(** X10. A mapped row has each of its fields once, and its fields are
    exactly the fields the table gives for the headers of the row: a column
    whose header the table does not know leaves no trace. *)
Theorem mapRow_fields (mappings : list (string * string)) (row mapped : object) :
  mapRow mappings row = Return mapped ->
  NoDup (keys mapped)
  /\ forall field,
      In field (keys mapped)
      <-> exists header,
          In header (keys row)
          /\ lookupMapping mappings (normalizeKey header) = Some field.
Proof.
  unfold mapRow. intros H. split.
  - apply (forEachEntry_NoDup _ _ _ _ H). constructor.
  - intros field. split.
    + intros Hin. destruct (forEachEntry_keys_from _ _ _ _ _ H Hin) as [[]|Hex].
      exact Hex.
    + intros [header [Hh Hl]]. exact (forEachEntry_mapped_in _ _ _ _ _ _ H Hh Hl).
Qed.

(** X10, witness: a row with a column of notes. *)
Lemma mapRow_fields_witness :
  NoDup (keys Examples.rowWithNotesMapped)
  /\ forall field,
      In field (keys Examples.rowWithNotesMapped)
      <-> exists header,
          In header (keys Examples.rowWithNotes)
          /\ lookupMapping SALARY_COLUMN_MAPPINGS (normalizeKey header)
             = Some field.
Proof.
  exact (mapRow_fields SALARY_COLUMN_MAPPINGS Examples.rowWithNotes
           Examples.rowWithNotesMapped eq_refl).
Defined.

(** X11. When several columns of a row lead to the same field, the last of
    them in column order decides its value. *)
Theorem mapRow_last_column_wins (mappings : list (string * string))
  (front back : object) (header field : string) (cell : value) (mapped : object) :
  mapRow mappings (front ++ (header, cell) :: back) = Return mapped ->
  lookupMapping mappings (normalizeKey header) = Some field ->
  (forall later, In later (keys back) ->
                 lookupMapping mappings (normalizeKey later) <> Some field) ->
  coerce field cell = Return (get mapped field).
Proof.
  unfold mapRow. intros H Hl Hback.
  rewrite forEachEntry_app in H.
  destruct (forEachEntry mappings front []) as [mid|e]; simpl in H; [|discriminate].
  rewrite Hl in H; simpl in H.
  destruct (coerce field cell) as [v|e]; simpl in H; [|discriminate].
  rewrite (forEachEntry_untouched mappings back field Hback _ _ H).
  now rewrite get_set_same.
Qed.

(** X11, witness: two salary columns, the second holding 200. *)
Lemma mapRow_last_column_wins_witness :
  coerce "baseSalary" (VString "200")
  = Return (get Examples.rowWithTwoSalariesMapped "baseSalary").
Proof.
  refine (mapRow_last_column_wins SALARY_COLUMN_MAPPINGS
            [ ("base salary", VString "100") ] [ ("currency", VString "USD") ]
            "salary" "baseSalary" (VString "200")
            Examples.rowWithTwoSalariesMapped eq_refl eq_refl _).
  intros later [<-|[]]. vm_compute. discriminate.
Defined.

(** ** Cleaning a numeric cell *)

Lemma removeAll_sub (p q : ascii -> bool) (s : string) :
  (forall c, q c = true -> p c = true) ->
  removeAll p (removeAll q s) = removeAll p s.
Proof.
  intros Hsub. induction s as [|c r IH]; simpl; [reflexivity|].
  destruct (q c) eqn:Eq.
  - rewrite (Hsub c Eq). exact IH.
  - simpl. now rewrite IH.
Qed.

Lemma removeAll_allChars (p : ascii -> bool) (s : string) :
  allChars (fun c => negb (p c)) (removeAll p s) = true.
Proof.
  induction s as [|c r IH]; simpl; [reflexivity|].
  destruct (p c) eqn:E; simpl; [assumption|]. now rewrite E.
Qed.

Lemma removeAll_fixed (p : ascii -> bool) (s : string) :
  allChars (fun c => negb (p c)) s = true -> removeAll p s = s.
Proof.
  induction s as [|c r IH]; simpl; [reflexivity|].
  intros H. apply andb_true_iff in H. destruct H as [Hc Hr].
  apply negb_true_iff in Hc. rewrite Hc. now rewrite IH.
Qed.

Lemma allChars_weaken (p q : ascii -> bool) (s : string) :
  (forall c, p c = true -> q c = true) ->
  allChars p s = true -> allChars q s = true.
Proof.
  intros Hsub. induction s as [|c r IH]; simpl; [reflexivity|].
  intros H. apply andb_true_iff in H. destruct H as [Hc Hr].
  now rewrite (Hsub c Hc), IH.
Qed.

Lemma allChars_app (p : ascii -> bool) (a b : string) :
  allChars p (a ++ b) = allChars p a && allChars p b.
Proof.
  induction a as [|c r IH]; simpl; [reflexivity|].
  now rewrite IH, andb_assoc.
Qed.

Lemma removeAll_app (p : ascii -> bool) (a b : string) :
  removeAll p (a ++ b) = (removeAll p a ++ removeAll p b)%string.
Proof.
  induction a as [|c r IH]; simpl; [reflexivity|].
  destruct (p c); simpl; now rewrite IH.
Qed.

Lemma removeAll_all (p : ascii -> bool) (s : string) :
  allChars p s = true -> removeAll p s = "".
Proof.
  induction s as [|c r IH]; simpl; [reflexivity|].
  intros H. apply andb_true_iff in H. destruct H as [Hc Hr].
  rewrite Hc. now apply IH.
Qed.

Lemma trimStart_no_whiteSpace (s : string) :
  allChars (fun c => negb (isWhiteSpace c)) s = true -> trimStart s = s.
Proof.
  destruct s as [|c r]; simpl; [reflexivity|].
  intros H. apply andb_true_iff in H. destruct H as [Hc _].
  apply negb_true_iff in Hc. now rewrite Hc.
Qed.

Lemma trimEnd_no_whiteSpace (s : string) :
  allChars (fun c => negb (isWhiteSpace c)) s = true -> trimEnd s = s.
Proof.
  induction s as [|c r IH]; simpl; [reflexivity|].
  intros H. apply andb_true_iff in H. destruct H as [Hc Hr].
  apply negb_true_iff in Hc. rewrite (IH Hr), Hc. now destruct r.
Qed.

Lemma kept_not_whiteSpace (c : ascii) :
  negb (notDigitDotDash c) = true -> negb (isWhiteSpace c) = true.
Proof.
  unfold notDigitDotDash. rewrite negb_involutive.
  intros H. apply negb_true_iff.
  destruct (isWhiteSpace c) eqn:Ew; [|reflexivity].
  unfold isWhiteSpace, isDigit in *.
  apply orb_true_iff in H. destruct H as [H|H].
  - apply orb_true_iff in H. destruct H as [H|H].
    + apply andb_true_iff in H. destruct H as [H1 H2].
      apply Nat.leb_le in H1, H2.
      apply orb_true_iff in Ew. destruct Ew as [Ew|Ew].
      * apply Nat.eqb_eq in Ew. lia.
      * apply andb_true_iff in Ew. destruct Ew as [E1 E2].
        apply Nat.leb_le in E1, E2. lia.
    + apply Ascii.eqb_eq in H. subst c. discriminate.
  - apply Ascii.eqb_eq in H. subst c. discriminate.
Qed.

Lemma cleanValue_filter (text : string) :
  cleanValue text = removeAll notDigitDotDash text.
Proof.
  unfold cleanValue.
  rewrite (removeAll_sub notDigitDotDash isCurrencyOrComma).
  - rewrite (removeAll_sub notDigitDotDash isQuote).
    + pose proof (removeAll_allChars notDigitDotDash text) as Hk.
      apply (allChars_weaken _ _ _ kept_not_whiteSpace) in Hk.
      unfold trim. rewrite (trimStart_no_whiteSpace _ Hk).
      now apply trimEnd_no_whiteSpace.
    + intros c H. unfold isQuote in H. apply orb_true_iff in H.
      destruct H as [H|H]; apply Ascii.eqb_eq in H; subst c; reflexivity.
  - intros c H. unfold isCurrencyOrComma in H. apply orb_true_iff in H.
    destruct H as [H|H]; apply Ascii.eqb_eq in H; subst c; reflexivity.
Qed.

(** X12. The three replacements and the trim of a numeric cell amount to
    one filter: what is left of the text is its digits, dots and dashes, in
    their order.  Cleaning a cleaned text changes nothing. *)
Theorem cleanValue_is_one_filter (text : string) :
  cleanValue text = removeAll notDigitDotDash text
  /\ allChars (fun c => isDigit c || Ascii.eqb c "." || Ascii.eqb c "-")
       (cleanValue text) = true
  /\ cleanValue (cleanValue text) = cleanValue text.
Proof.
  pose proof (removeAll_allChars notDigitDotDash text) as Hk.
  split; [apply cleanValue_filter|]. split.
  - rewrite cleanValue_filter. eapply allChars_weaken; [|exact Hk].
    intros c H. unfold notDigitDotDash in H. now rewrite negb_involutive in H.
  - rewrite !cleanValue_filter. now apply removeAll_fixed.
Qed.

(** ** Texts without a digit *)

Lemma isDigit_lowerChar (c : ascii) : isDigit (lowerChar c) = isDigit c.
Proof.
  unfold lowerChar.
  destruct (Nat.leb 65 (nat_of_ascii c) && Nat.leb (nat_of_ascii c) 90) eqn:E;
    [|reflexivity].
  apply andb_true_iff in E. destruct E as [E1 E2]. apply Nat.leb_le in E1, E2.
  unfold isDigit. rewrite nat_ascii_embedding by lia.
  assert (H1 : Nat.leb (nat_of_ascii c + 32) 57 = false) by (apply Nat.leb_gt; lia).
  assert (H2 : Nat.leb (nat_of_ascii c) 57 = false) by (apply Nat.leb_gt; lia).
  now rewrite H1, H2, !andb_false_r.
Qed.

Lemma allChars_toLowerCase (s : string) :
  allChars notDigit (toLowerCase s) = allChars notDigit s.
Proof.
  induction s as [|c r IH]; simpl; [reflexivity|].
  unfold notDigit at 1 3. now rewrite isDigit_lowerChar, IH.
Qed.

Lemma whiteSpace_notDigit (c : ascii) : isWhiteSpace c = true -> notDigit c = true.
Proof.
  unfold isWhiteSpace, notDigit, isDigit. intros H. apply negb_true_iff.
  apply orb_true_iff in H. destruct H as [H|H].
  - apply Nat.eqb_eq in H. rewrite H. reflexivity.
  - apply andb_true_iff in H. destruct H as [H1 H2]. apply Nat.leb_le in H1, H2.
    assert (E : Nat.leb 48 (nat_of_ascii c) = false) by (apply Nat.leb_gt; lia).
    now rewrite E.
Qed.

Lemma allChars_trimStart (s : string) :
  allChars notDigit (trimStart s) = true -> allChars notDigit s = true.
Proof.
  induction s as [|c r IH]; simpl; [reflexivity|].
  destruct (isWhiteSpace c) eqn:E; [|exact (fun H => H)].
  intros H. now rewrite (whiteSpace_notDigit c E), (IH H).
Qed.

Lemma allChars_trimEnd (s : string) :
  allChars notDigit (trimEnd s) = true -> allChars notDigit s = true.
Proof.
  induction s as [|c r IH]; simpl; [reflexivity|].
  destruct (trimEnd r) as [|d t] eqn:Et.
  - destruct (isWhiteSpace c) eqn:E; simpl; intros H.
    + rewrite (whiteSpace_notDigit c E). now apply IH.
    + apply andb_true_iff in H. destruct H as [Hc _]. rewrite Hc. now apply IH.
  - simpl. intros H. apply andb_true_iff in H. destruct H as [Hc Hr].
    rewrite Hc. now apply IH.
Qed.

Lemma normalizeKey_notDigit (text : string) :
  allChars notDigit (normalizeKey text) = true -> allChars notDigit text = true.
Proof.
  unfold normalizeKey, trim. intros H.
  apply allChars_trimEnd, allChars_trimStart in H.
  now rewrite allChars_toLowerCase in H.
Qed.

Lemma cleanValue_dots_dashes (text : string) :
  allChars notDigit text = true -> allChars dotOrDash (cleanValue text) = true.
Proof.
  rewrite cleanValue_filter. induction text as [|c r IH]; simpl; [reflexivity|].
  intros H. apply andb_true_iff in H. destruct H as [Hc Hr].
  destruct (notDigitDotDash c) eqn:E; [now apply IH|]. simpl.
  rewrite (IH Hr), andb_true_r.
  unfold notDigitDotDash in E. apply negb_false_iff in E.
  unfold notDigit in Hc. apply negb_true_iff in Hc. rewrite Hc in E.
  exact E.
Qed.

Lemma dotOrDash_cases (c : ascii) :
  dotOrDash c = true -> c = "."%char \/ c = "-"%char.
Proof.
  unfold dotOrDash. intros H. apply orb_true_iff in H.
  destruct H as [H|H]; apply Ascii.eqb_eq in H; auto.
Qed.

Lemma parseUnsignedDecimal_dots_dashes (s : string) :
  allChars dotOrDash s = true -> parseUnsignedDecimal s = None.
Proof.
  destruct s as [|c r]; [reflexivity|]. simpl.
  intros H. apply andb_true_iff in H. destruct H as [Hc Hr].
  unfold parseUnsignedDecimal.
  destruct (dotOrDash_cases c Hc) as [-> | ->]; simpl; [|reflexivity].
  destruct r as [|d t]; [reflexivity|]. simpl in Hr.
  apply andb_true_iff in Hr. destruct Hr as [Hd _].
  destruct (dotOrDash_cases d Hd) as [-> | ->]; reflexivity.
Qed.

(** A text of dots and dashes is no number. *)
Lemma parseFloat_dots_dashes (s : string) :
  allChars dotOrDash s = true -> parseFloat s = NaN.
Proof.
  intros H. unfold parseFloat.
  assert (Ht : trimStart s = s).
  { destruct s as [|c r]; [reflexivity|]. simpl in *.
    apply andb_true_iff in H. destruct H as [Hc _].
    destruct (dotOrDash_cases c Hc) as [-> | ->]; reflexivity. }
  rewrite Ht. unfold parseDecimalPrefix.
  destruct s as [|c r]; [reflexivity|]. simpl in H.
  apply andb_true_iff in H. destruct H as [Hc Hr].
  destruct (dotOrDash_cases c Hc) as [-> | ->].
  - cbn [parseSign].
    change (prefix "Infinity" (String "." r)) with false. cbv iota.
    rewrite (parseUnsignedDecimal_dots_dashes (String "." r)); [reflexivity|].
    simpl. exact Hr.
  - cbn [parseSign].
    assert (Hp : prefix "Infinity" r = false).
    { destruct r as [|d t]; [reflexivity|]. simpl in Hr.
      apply andb_true_iff in Hr. destruct Hr as [Hd _].
      destruct (dotOrDash_cases d Hd) as [-> | ->]; reflexivity. }
    rewrite Hp. now rewrite (parseUnsignedDecimal_dots_dashes r Hr).
Qed.

Lemma flag_text (text word : string) :
  In word ["yes"; "y"; "true"; "no"; "n"; "false"] ->
  normalizeKey text = word ->
  isEmpty text = false /\ parseFloat (cleanValue text) = NaN.
Proof.
  intros Hw Hn. split.
  - destruct text; [|reflexivity]. cbv in Hn. subst word.
    simpl in Hw. repeat destruct Hw as [Hw|Hw]; try discriminate; contradiction.
  - apply parseFloat_dots_dashes, cleanValue_dots_dashes, normalizeKey_notDigit.
    rewrite Hn. simpl in Hw.
    repeat destruct Hw as [Hw|Hw]; subst; try reflexivity; contradiction.
Qed.

(** X13. Every spelling of yes, y and true, in any case and with white
    space around it, is coerced to the retention risk 1, and every spelling of
    no, n and false to 0; on these texts the coercion returns. *)
Theorem coerce_retentionRisk_flags (text : string) :
  (In (normalizeKey text) ["yes"; "y"; "true"] ->
   coerce "retentionRisk" (VString text) = Return (VNumber (ofZ 1)))
  /\ (In (normalizeKey text) ["no"; "n"; "false"] ->
      coerce "retentionRisk" (VString text) = Return (VNumber (ofZ 0))).
Proof.
  split; intros Hin.
  - destruct (flag_text text (normalizeKey text)) as [He Hp];
      [simpl in *; tauto|reflexivity|].
    unfold coerce. rewrite He; simpl. unfold coerceText; simpl. rewrite Hp; simpl.
    fold (normalizeKey text).
    simpl in Hin. destruct Hin as [<-|[<-|[<-|[]]]]; reflexivity.
  - destruct (flag_text text (normalizeKey text)) as [He Hp];
      [simpl in *; tauto|reflexivity|].
    unfold coerce. rewrite He; simpl. unfold coerceText; simpl. rewrite Hp; simpl.
    fold (normalizeKey text).
    simpl in Hin. destruct Hin as [<-|[<-|[<-|[]]]]; reflexivity.
Qed.

(** X13, witness: a padded Yes. *)
Lemma coerce_retentionRisk_flags_witness :
  coerce "retentionRisk" (VString " Yes ") = Return (VNumber (ofZ 1)).
Proof.
  apply (proj1 (coerce_retentionRisk_flags " Yes ")). left. reflexivity.
Defined.

(** ** Ratings that are no percentage *)

(** X14. A performance rating without a percent sign stays text, trimmed,
    also when it reads as a number; the range check for numeric ratings then
    has nothing to say about it. *)
Theorem coerce_rating_without_percent (text : string) (row : object) (index : nat) :
  isEmpty text = false ->
  includes (trim text) "%" = false ->
  coerce "performanceRating" (VString text) = Return (VString (trim text))
  /\ (get row "performanceRating" = VString (trim text) ->
      ~ In "Numeric performance rating should be between 0 and 5"
          (Validation.warnings (validatePerformanceRow row index))).
Proof.
  intros He Hp. split.
  - unfold coerce. rewrite He; simpl. unfold coerceText; simpl. now rewrite Hp.
  - intros Hg. unfold validatePerformanceRow; simpl. rewrite Hg.
    intros Hin. apply in_app_iff in Hin. destruct Hin as [Hin|Hin].
    + destruct (isEmpty (trim (trim text))); simpl in Hin;
        [destruct Hin as [Hin|[]]; discriminate|destruct Hin].
    + match type of Hin with In _ (pushIf ?b _) => destruct b end; simpl in Hin;
        [destruct Hin as [Hin|[]]; discriminate|destruct Hin].
Qed.

(** X14, witness: the rating 7, outside the range of the numeric check. *)
Lemma coerce_rating_without_percent_witness :
  coerce "performanceRating" (VString " 7 ") = Return (VString "7")
  /\ (get [ ("employeeId", VString "E1"); ("performanceRating", VString "7") ]
        "performanceRating" = VString "7" ->
      ~ In "Numeric performance rating should be between 0 and 5"
          (Validation.warnings
             (validatePerformanceRow
                [ ("employeeId", VString "E1");
                  ("performanceRating", VString "7") ] 0))).
Proof.
  exact (coerce_rating_without_percent " 7 "
           [ ("employeeId", VString "E1"); ("performanceRating", VString "7") ]
           0 eq_refl eq_refl).
Defined.

(** ** Whole numbers written in digits *)

Lemma spanDigits_uint (d : Decimal.uint) (acc count : nat) :
  spanDigits (NilEmpty.string_of_uint d) (Z.of_nat acc) count
  = (Z.of_nat (Nat.of_uint_acc d acc), count + Decimal.nb_digits d, EmptyString).
Proof.
  revert acc count.
  induction d as [|d IH|d IH|d IH|d IH|d IH|d IH|d IH|d IH|d IH|d IH];
    intros acc count;
    [simpl; now rewrite Nat.add_0_r| | | | | | | | | | ];
    cbn [NilEmpty.string_of_uint Nat.of_uint_acc Decimal.nb_digits];
    rewrite Nat.tail_mul_spec, <- Nat.add_succ_comm, <- IH;
    unfold spanDigits at 1; fold spanDigits;
    match goal with
    | |- context [isDigit ?c] =>
        change (isDigit c) with true;
        let v := eval vm_compute in (digitValue c) in
        change (digitValue c) with v
    end;
    cbv iota; f_equal; lia.
Qed.

Lemma uint_text_digits (d : Decimal.uint) :
  allChars isDigit (NilEmpty.string_of_uint d) = true.
Proof. induction d; simpl; auto. Qed.

Lemma to_uint_digits (n : nat) : Decimal.nb_digits (Nat.to_uint n) <> 0.
Proof.
  intros H. assert (Hd : Nat.to_uint n = Decimal.Nil)
    by (destruct (Nat.to_uint n); simpl in H; try discriminate; reflexivity).
  pose proof (DecimalNat.Unsigned.of_to n) as Hn. rewrite Hd in Hn.
  simpl in Hn. subst n. discriminate.
Qed.

Lemma digit_first (c : ascii) (r : string) :
  isDigit c = true ->
  trimStart (String c r) = String c r
  /\ parseSign (String c r) = (false, String c r)
  /\ prefix "Infinity" (String c r) = false.
Proof.
  destruct c as [[] [] [] [] [] [] [] []]; intros H; try discriminate H;
    repeat split; reflexivity.
Qed.

Lemma Qred_whole (m : Z) :
  Qred (inject_Z m * Qpower (inject_Z 10) (0 - Z.of_nat 0)) = inject_Z m.
Proof.
  transitivity (Qred (inject_Z m)).
  - apply Qred_complete. simpl. unfold Qeq; simpl. lia.
  - apply Qcanon.Qred_identity. simpl. apply Z.gcd_1_r.
Qed.

Lemma roundHalfEven_whole (z : Z) : roundHalfEven z 1 = z.
Proof.
  unfold roundHalfEven. rewrite Z.mod_1_r, Z.div_1_r. reflexivity.
Qed.

Lemma Qred_scaled (z k : Z) :
  (0 < k)%Z -> Qred ((z * k)%Z # Z.to_pos k) = inject_Z z.
Proof.
  intros Hk. transitivity (Qred (inject_Z z)).
  - apply Qred_complete. unfold Qeq, inject_Z. cbn [Qnum Qden].
    rewrite Z2Pos.id by exact Hk. ring.
  - apply Qcanon.Qred_identity. simpl. apply Z.gcd_1_r.
Qed.

(** A whole number from 0 to [2 ^ 53] is a double: rounding leaves it as it
    is. *)
Lemma toDouble_whole (z : Z) :
  (0 <= z <= 2 ^ 53)%Z -> toDouble (inject_Z z) = ofZ z.
Proof.
  intros [H0 Hle].
  destruct (Z.eq_dec z (2 ^ 53)) as [->|Hne]; [vm_compute; reflexivity|].
  assert (H53 : (z < 2 ^ 53)%Z) by lia. clear Hle Hne.
  unfold toDouble. cbn [inject_Z Qnum Qden].
  rewrite (Z.abs_eq z H0).
  destruct (Z.eqb_spec z 0) as [->|Hz]; [reflexivity|].
  assert (Hpos : (0 < z)%Z) by lia.
  assert (Hlog : (0 <= Z.log2 z < 53)%Z).
  { split; [apply Z.log2_nonneg|]. apply Z.log2_lt_pow2; [exact Hpos|exact H53]. }
  assert (Hb : binade z 1 = Z.log2 z).
  { unfold binade, scaleDown. change (Z.log2 1) with 0%Z. rewrite Z.sub_0_r.
    destruct (Z.leb_spec 0 (Z.log2 z)) as [_|Hn]; [|lia].
    destruct (Z.ltb_spec z (1 * 2 ^ Z.log2 z)) as [Hlt|_]; [|reflexivity].
    pose proof (Z.log2_spec z Hpos). lia. }
  rewrite Hb, Z.max_l by lia. rewrite (Z.sgn_pos z Hpos).
  unfold scaleDown.
  destruct (Z.leb_spec 0 (Z.log2 z - 52)) as [Ht|Ht].
  - assert (Z.log2 z - 52 = 0)%Z as -> by lia.
    change (2 ^ 0)%Z with 1%Z.
    rewrite roundHalfEven_whole, !Z.mul_1_l, !Z.mul_1_r, (Z.abs_eq z H0).
    destruct (Z.leb_spec (2 ^ 1024) z) as [Hbig|_]; [|reflexivity].
    exfalso. assert (2 ^ 53 < 2 ^ 1024)%Z by reflexivity. lia.
  - rewrite roundHalfEven_whole, Z.mul_1_l. unfold ofZ. f_equal.
    apply Qred_scaled. apply Z.pow_pos_nonneg; lia.
Qed.

(** The decimal text of a natural number up to [2 ^ 53] reads as that
    number. *)
Lemma parseFloat_ofNat (n : nat) :
  (Z.of_nat n <= 2 ^ 53)%Z -> parseFloat (ofNat n) = ofZ (Z.of_nat n).
Proof.
  intros Hbound. unfold ofNat.
  pose proof (spanDigits_uint (Nat.to_uint n) 0 0) as Hs.
  pose proof (to_uint_digits n) as Hd.
  fold (Nat.of_uint (Nat.to_uint n)) in Hs.
  rewrite DecimalNat.Unsigned.of_to in Hs. simpl in Hs.
  destruct (NilEmpty.string_of_uint (Nat.to_uint n)) as [|c r] eqn:Et.
  - simpl in Hs. inversion Hs as [[Hv Hc]]. exfalso. now apply Hd.
  - assert (Hdig : isDigit c = true).
    { pose proof (uint_text_digits (Nat.to_uint n)) as Ha. rewrite Et in Ha.
      simpl in Ha. now apply andb_true_iff in Ha. }
    destruct (digit_first c r Hdig) as [H1 [H2 H3]].
    unfold parseFloat. rewrite H1. unfold parseDecimalPrefix. rewrite H2, H3.
    unfold parseUnsignedDecimal. rewrite Hs.
    destruct (Decimal.nb_digits (Nat.to_uint n)) as [|k]; [contradiction|].
    cbn [parseExponent]. rewrite Qred_whole. apply toDouble_whole. lia.
Qed.

Lemma isEmpty_app (a b : string) : isEmpty (a ++ b) = isEmpty a && isEmpty b.
Proof. destruct a; reflexivity. Qed.

(** X15. A whole amount up to [2 ^ 53], written in digits, is read back as
    that amount by every numeric field but the retention risk, whatever
    stands before and after the digits, as long as it holds no digit, dot or
    dash: a currency sign, a currency code, blanks.  Above [2 ^ 53] the
    amount stored is the double nearest to it. *)
Theorem coerce_whole_amount (mappedField before after : string) (n : nat) :
  In mappedField numericFields ->
  String.eqb mappedField "retentionRisk" = false ->
  allChars notDigitDotDash before = true ->
  allChars notDigitDotDash after = true ->
  (Z.of_nat n <= 2 ^ 53)%Z ->
  coerce mappedField (VString (before ++ ofNat n ++ after))
  = Return (VNumber (ofZ (Z.of_nat n))).
Proof.
  intros Hin Hr Hb Ha Hbound.
  assert (Hn : isEmpty (ofNat n) = false).
  { unfold ofNat. pose proof (to_uint_digits n) as Hd.
    destruct (Nat.to_uint n); try reflexivity. now elim Hd. }
  assert (Hclean : cleanValue (before ++ ofNat n ++ after) = ofNat n).
  { rewrite cleanValue_filter, !removeAll_app.
    rewrite (removeAll_all _ _ Hb), (removeAll_all _ _ Ha).
    rewrite removeAll_fixed.
    - simpl. clear. induction (ofNat n); simpl; [reflexivity|now f_equal].
    - eapply allChars_weaken; [|apply (uint_text_digits (Nat.to_uint n))].
      intros c Hc. unfold notDigitDotDash. rewrite Hc. reflexivity. }
  unfold coerce. rewrite !isEmpty_app, Hn, andb_false_r; simpl.
  unfold coerceText. rewrite Hr, Hclean, (parseFloat_ofNat n Hbound).
  assert (Hex : existsb (String.eqb mappedField) numericFields = true).
  { apply existsb_exists. exists mappedField; split; [assumption|].
    apply String.eqb_refl. }
  rewrite Hex.
  assert (Hp : String.eqb mappedField "performanceRating" = false).
  { simpl in Hin.
    repeat destruct Hin as [Hin|Hin]; subst; try reflexivity; contradiction. }
  rewrite Hp. reflexivity.
Qed.

(** X15, witness: 950 between a dollar sign and a currency code. *)
Lemma coerce_whole_amount_witness :
  coerce "baseSalary" (VString ("$" ++ ofNat 950 ++ " USD"))
  = Return (VNumber (ofZ (Z.of_nat 950))).
Proof.
  refine (coerce_whole_amount "baseSalary" "$" " USD" 950 _ eq_refl eq_refl
            eq_refl _).
  - left. reflexivity.
  - apply Z.leb_le. reflexivity.
Defined.

(** * Properties of the worksheet rows *)

(** ** Normal forms of text *)

Lemma lowerChar_idempotent (c : ascii) : lowerChar (lowerChar c) = lowerChar c.
Proof.
  destruct (Nat.leb 65 (nat_of_ascii c) && Nat.leb (nat_of_ascii c) 90) eqn:E.
  - unfold lowerChar. rewrite E.
    apply andb_true_iff in E. destruct E as [E1 E2]. apply Nat.leb_le in E1, E2.
    rewrite nat_ascii_embedding by lia.
    assert (H : Nat.leb (nat_of_ascii c + 32) 90 = false)
      by (apply Nat.leb_gt; lia).
    now rewrite H, andb_false_r.
  - unfold lowerChar. now rewrite !E.
Qed.

Lemma toLowerCase_idempotent (s : string) :
  toLowerCase (toLowerCase s) = toLowerCase s.
Proof.
  induction s as [|c r IH]; simpl; [reflexivity|].
  now rewrite lowerChar_idempotent, IH.
Qed.

Lemma isWhiteSpace_lowerChar (c : ascii) :
  isWhiteSpace (lowerChar c) = isWhiteSpace c.
Proof.
  unfold lowerChar.
  destruct (Nat.leb 65 (nat_of_ascii c) && Nat.leb (nat_of_ascii c) 90) eqn:E;
    [|reflexivity].
  apply andb_true_iff in E. destruct E as [E1 E2]. apply Nat.leb_le in E1, E2.
  unfold isWhiteSpace. rewrite nat_ascii_embedding by lia.
  assert (H1 : Nat.eqb (nat_of_ascii c + 32) 32 = false) by (apply Nat.eqb_neq; lia).
  assert (H2 : Nat.leb (nat_of_ascii c + 32) 13 = false) by (apply Nat.leb_gt; lia).
  assert (H3 : Nat.eqb (nat_of_ascii c) 32 = false) by (apply Nat.eqb_neq; lia).
  assert (H4 : Nat.leb (nat_of_ascii c) 13 = false) by (apply Nat.leb_gt; lia).
  now rewrite H1, H2, H3, H4, !andb_false_r.
Qed.

Lemma toLowerCase_trimStart (s : string) :
  toLowerCase (trimStart s) = trimStart (toLowerCase s).
Proof.
  induction s as [|c r IH]; simpl; [reflexivity|].
  rewrite isWhiteSpace_lowerChar. destruct (isWhiteSpace c); [exact IH|reflexivity].
Qed.

Lemma toLowerCase_trimEnd (s : string) :
  toLowerCase (trimEnd s) = trimEnd (toLowerCase s).
Proof.
  induction s as [|c r IH]; simpl; [reflexivity|].
  rewrite <- IH, isWhiteSpace_lowerChar.
  destruct (trimEnd r); simpl; [destruct (isWhiteSpace c)|]; reflexivity.
Qed.

Lemma toLowerCase_trim (s : string) : toLowerCase (trim s) = trim (toLowerCase s).
Proof. unfold trim. now rewrite toLowerCase_trimEnd, toLowerCase_trimStart. Qed.

(** What [trimEnd] leaves does not end in white space, so a second pass
    finds nothing to take. *)
Lemma trimEnd_idempotent (s : string) : trimEnd (trimEnd s) = trimEnd s.
Proof.
  induction s as [|c r IH]; simpl; [reflexivity|].
  destruct (trimEnd r) as [|d t] eqn:Et.
  - destruct (isWhiteSpace c) eqn:Ec; simpl; [reflexivity|now rewrite Ec].
  - simpl in IH |- *. now rewrite IH.
Qed.

Lemma trimEnd_first (c : ascii) (r : string) :
  isWhiteSpace c = false ->
  exists t, trimEnd (String c r) = String c t.
Proof.
  intros Hc. simpl. destruct (trimEnd r); [rewrite Hc|]; eexists; reflexivity.
Qed.

Lemma trimStart_head (s : string) :
  trimStart s = EmptyString
  \/ exists c r, trimStart s = String c r /\ isWhiteSpace c = false.
Proof.
  induction s as [|c r IH]; simpl; [now left|].
  destruct (isWhiteSpace c) eqn:Ec; [exact IH|].
  right. exists c, r. split; [reflexivity|assumption].
Qed.

Lemma trim_idempotent (s : string) : trim (trim s) = trim s.
Proof.
  unfold trim. destruct (trimStart_head s) as [-> | [c [r [-> Hc]]]];
    [reflexivity|].
  destruct (trimEnd_first c r Hc) as [t Ht]. rewrite Ht.
  simpl trimStart. rewrite Hc. rewrite <- Ht. apply trimEnd_idempotent.
Qed.

Lemma normalizeKey_idempotent (key : string) :
  normalizeKey (normalizeKey key) = normalizeKey key.
Proof.
  unfold normalizeKey.
  now rewrite <- toLowerCase_trim, trim_idempotent, toLowerCase_trim,
    toLowerCase_idempotent.
Qed.

(** ** Rows of a worksheet *)

Import Worksheet.

Lemma set_entries (o : object) (k : string) (v : value) (entry : string * value) :
  In entry (set o k v) -> entry = (k, v) \/ In entry o.
Proof.
  induction o as [|[k0 v0] r IH]; simpl.
  - intros [H|[]]; left; now symmetry.
  - destruct (String.eqb k0 k); simpl.
    + intros [H|H]; [left; now symmetry|right; now right].
    + intros [H|H]; [right; now left|].
      destruct (IH H) as [H'|H']; [now left|right; now right].
Qed.

Section WorksheetFacts.

Variable numberToString : number -> string.

(** An entry in normal form: a normalized key and trimmed text. *)
Let normal (entry : string * value) : Prop :=
  normalizeKey (fst entry) = fst entry
  /\ exists s, snd entry = VString s /\ trim s = s.

Lemma normalizedCell_trimmed (cell : value) :
  exists s, normalizedCell numberToString cell = VString s /\ trim s = s.
Proof.
  destruct cell; simpl; eexists; split; try reflexivity;
    try apply trim_idempotent.
Qed.

Lemma assign_normal (obj : object) (key : string) (cell : value) :
  (forall entry, In entry obj -> normal entry) ->
  forall entry,
    In entry (assign obj (normalizeKey key) (normalizedCell numberToString cell)) ->
    normal entry.
Proof.
  intros Hobj entry. unfold assign.
  destruct (String.eqb (normalizeKey key) "__proto__"); [apply Hobj|].
  intros Hin. destruct (set_entries _ _ _ _ Hin) as [->|Hin']; [|now apply Hobj].
  split; [apply normalizeKey_idempotent|apply normalizedCell_trimmed].
Qed.

Lemma normalizeObjectRow_normal (row : object) :
  forall entry, In entry (normalizeObjectRow numberToString row) -> normal entry.
Proof.
  unfold normalizeObjectRow.
  assert (H : forall acc, (forall e, In e acc -> normal e) ->
              forall e, In e (fold_left (normalizeEntry numberToString) row acc) ->
                        normal e).
  { induction row as [|[k c] r IH]; intros acc Hacc; simpl; [exact Hacc|].
    apply IH. unfold normalizeEntry; simpl. now apply assign_normal. }
  apply H. intros e [].
Qed.

Lemma fillRow_normal (headers : list string) (row : list value) :
  (forall h, In h headers -> normalizeKey h = h) ->
  forall index obj,
    (forall e, In e obj -> normal e) ->
    forall e, In e (fillRow numberToString headers index row obj) -> normal e.
Proof.
  induction headers as [|h rest IH]; intros Hh index obj Hobj; simpl;
    [exact Hobj|].
  apply IH; [intros h' Hh'; apply Hh; now right|].
  rewrite <- (Hh h (or_introl eq_refl)). now apply assign_normal.
Qed.

Lemma headersOf_normalized (first : list value) :
  forall h, In h (headersOf numberToString first) -> normalizeKey h = h.
Proof.
  intros h Hin. unfold headersOf in Hin. apply in_map_iff in Hin.
  destruct Hin as [c [<- _]]. apply normalizeKey_idempotent.
Qed.

(** X16. Of the four decodings of a sheet the object format is taken
    whenever it has a row.  The sheet is rejected exactly when the object
    format is empty and none of the three array formats has more than one
    row, and then as a sheet of headers only: the rejection as an empty
    worksheet never happens. *)
Theorem sheetRows_rejection (jsonDataObj : list object)
  (jsonDataForced jsonDataRaw jsonDataWithBlanks : list (list value))
  (e : thrown) :
  sheetRows numberToString jsonDataObj jsonDataForced jsonDataRaw
    jsonDataWithBlanks = Throw e
  <-> jsonDataObj = []
      /\ length jsonDataForced <= 1 /\ length jsonDataRaw <= 1
      /\ length jsonDataWithBlanks <= 1
      /\ e = ThrownError "Worksheet contains only headers, no data rows".
Proof.
  unfold sheetRows, chooseSheetData.
  destruct jsonDataObj as [|o os]; simpl.
  - destruct (Nat.ltb 1 (length jsonDataForced)) eqn:Ef.
    + apply Nat.ltb_lt in Ef. simpl.
      destruct jsonDataForced as [|f fs]; simpl in *; [lia|].
      split; [discriminate|intros [_ [H _]]; lia].
    + apply Nat.ltb_ge in Ef.
      destruct (Nat.ltb 1 (length jsonDataRaw)) eqn:Er.
      * apply Nat.ltb_lt in Er. simpl.
        destruct jsonDataRaw as [|f fs]; simpl in *; [lia|].
        split; [discriminate|intros [_ [_ [H _]]]; lia].
      * apply Nat.ltb_ge in Er.
        destruct (Nat.ltb 1 (length jsonDataWithBlanks)) eqn:Eb.
        -- apply Nat.ltb_lt in Eb. simpl.
           destruct jsonDataWithBlanks as [|f fs]; simpl in *; [lia|].
           split; [discriminate|intros [_ [_ [_ [H _]]]]; lia].
        -- apply Nat.ltb_ge in Eb. simpl.
           split; [intros H; inversion H; auto|].
           intros [_ [_ [_ [_ ->]]]]. reflexivity.
  - split; [discriminate|intros [H _]; discriminate].
Qed.

Lemma assign_get_same (obj : object) (key : string) (v : value) :
  String.eqb key "__proto__" = false -> get (assign obj key v) key = v.
Proof. intros H. unfold assign. rewrite H. apply get_set_same. Qed.

Lemma assign_get_other (obj : object) (key key' : string) (v : value) :
  String.eqb key key' = false -> get (assign obj key v) key' = get obj key'.
Proof.
  intros H. unfold assign. destruct (String.eqb key "__proto__"); [reflexivity|].
  now apply get_set_other.
Qed.

Lemma fillRow_untouched (headers : list string) (row : list value) (key : string) :
  ~ In key headers ->
  forall index obj, get (fillRow numberToString headers index row obj) key = get obj key.
Proof.
  induction headers as [|h rest IH]; intros Hn index obj; simpl; [reflexivity|].
  rewrite IH by (intros H; apply Hn; now right).
  apply assign_get_other.
  destruct (String.eqb h key) eqn:E; [|reflexivity].
  apply String.eqb_eq in E. exfalso. apply Hn. now left.
Qed.

Lemma fillRow_get (headers : list string) (row : list value) :
  NoDup headers ->
  forall index obj i header,
    nth_error headers i = Some header ->
    String.eqb header "__proto__" = false ->
    get (fillRow numberToString headers index row obj) header
    = normalizedCell numberToString (nth (index + i) row VUndefined).
Proof.
  induction headers as [|h rest IH]; intros Hnd index obj i header Hi Hp.
  - destruct i; discriminate.
  - inversion Hnd as [|? ? Hnot Hrest]; subst. destruct i as [|i]; simpl in *.
    + inversion Hi; subst header.
      rewrite (fillRow_untouched rest row h Hnot), Nat.add_0_r.
      now apply assign_get_same.
    + rewrite <- Nat.add_succ_comm. now apply (IH Hrest).
Qed.

Lemma fold_normalizeEntry_untouched (raw : object) (key : string) :
  ~ In key (map normalizeKey (keys raw)) ->
  forall acc,
    get (fold_left (normalizeEntry numberToString) raw acc) key = get acc key.
Proof.
  induction raw as [|[k c] r IH]; intros Hn acc; simpl; [reflexivity|].
  rewrite IH by (intros H; apply Hn; now right).
  unfold normalizeEntry; simpl. apply assign_get_other.
  destruct (String.eqb (normalizeKey k) key) eqn:E; [|reflexivity].
  apply String.eqb_eq in E. exfalso. apply Hn. now left.
Qed.

Lemma normalizeObjectRow_get (raw : object) :
  NoDup (map normalizeKey (keys raw)) ->
  forall k,
    In k (keys raw) -> String.eqb (normalizeKey k) "__proto__" = false ->
    get (normalizeObjectRow numberToString raw) (normalizeKey k)
    = normalizedCell numberToString (get raw k).
Proof.
  unfold normalizeObjectRow. generalize (@nil (string * value)) as acc.
  induction raw as [|[k0 c0] r IH]; intros acc Hnd k Hin Hp; [now elim Hin|].
  simpl in Hnd. inversion Hnd as [|? ? Hk0 Hr]; subst.
  cbn [fold_left get].
  destruct (String.eqb k0 k) eqn:E.
  - apply String.eqb_eq in E; subst k0.
    rewrite (fold_normalizeEntry_untouched r _ Hk0). unfold normalizeEntry; simpl.
    now apply assign_get_same.
  - destruct Hin as [Hin|Hin].
    + simpl in Hin; subst k0. now rewrite String.eqb_refl in E.
    + now apply IH.
Qed.

Lemma assign_keys (obj : object) (key k' : string) (v : value) :
  In k' (keys (assign obj key v)) -> k' = key \/ In k' (keys obj).
Proof.
  unfold assign. destruct (String.eqb key "__proto__"); [now right|].
  apply keys_set.
Qed.

Lemma normalizeObjectRow_keys (raw : object) (key : string) :
  In key (keys (normalizeObjectRow numberToString raw)) ->
  exists k, In k (keys raw) /\ key = normalizeKey k.
Proof.
  unfold normalizeObjectRow.
  assert (H : forall acc,
             In key (keys (fold_left (normalizeEntry numberToString) raw acc)) ->
             In key (keys acc)
             \/ exists k, In k (keys raw) /\ key = normalizeKey k).
  { induction raw as [|[k0 c0] r IH]; intros acc Hin; [now left|].
    cbn [fold_left] in Hin. destruct (IH _ Hin) as [Hacc|[k [Hk ->]]].
    - unfold normalizeEntry in Hacc; simpl in Hacc.
      destruct (assign_keys _ _ _ _ Hacc) as [->|Hacc']; [|now left].
      right. exists k0. split; [now left|reflexivity].
    - right. exists k. split; [now right|reflexivity]. }
  intros Hin. destruct (H [] Hin) as [[]|Hex]. exact Hex.
Qed.

(** X17. Every row that comes out of a worksheet is in the normal form the
    CSV decoder is configured to give: each key is a header in lower case
    without white space around it, each value is trimmed text.  In the
    object format there is a row for every decoded row, in the same place;
    its keys are normalized keys of the decoded row, and when these are
    pairwise distinct, each of them holds the trimmed text of its cell.  In
    the array format the decoding taken is the first with more than one row
    among the forced range, the raw one and the one with blank rows, and the
    rows are, in their order, the objects of its rows after the first that
    have a cell with something in it. *)
Theorem sheetRows_normal_form (jsonDataObj : list object)
  (jsonDataForced jsonDataRaw jsonDataWithBlanks : list (list value))
  (rows : list object) :
  sheetRows numberToString jsonDataObj jsonDataForced jsonDataRaw
    jsonDataWithBlanks = Return rows ->
  (forall row key cell,
      In row rows -> In (key, cell) row ->
      normalizeKey key = key /\ exists s, cell = VString s /\ trim s = s)
  /\ (jsonDataObj <> [] ->
      length rows = length jsonDataObj
      /\ forall i raw,
          nth_error jsonDataObj i = Some raw ->
          exists row,
            nth_error rows i = Some row
            /\ (forall key, In key (keys row) ->
                            exists k, In k (keys raw) /\ key = normalizeKey k)
            /\ (NoDup (map normalizeKey (keys raw)) ->
                forall k,
                  In k (keys raw) ->
                  String.eqb (normalizeKey k) "__proto__" = false ->
                  get row (normalizeKey k)
                  = normalizedCell numberToString (get raw k)))
  /\ (jsonDataObj = [] ->
      exists first rest,
        first :: rest
        = (if Nat.ltb 1 (length jsonDataForced) then jsonDataForced
           else if Nat.ltb 1 (length jsonDataRaw) then jsonDataRaw
           else jsonDataWithBlanks)
        /\ rows = map (arrayRowObject numberToString
                         (headersOf numberToString first))
                    (filter (existsb (hasContent numberToString)) rest)).
Proof.
  unfold sheetRows, chooseSheetData.
  destruct jsonDataObj as [|o os]; simpl.
  - intros H.
    assert (Hex : exists first rest,
               first :: rest
               = (if Nat.ltb 1 (length jsonDataForced) then jsonDataForced
                  else if Nat.ltb 1 (length jsonDataRaw) then jsonDataRaw
                  else jsonDataWithBlanks)
               /\ rows = map (arrayRowObject numberToString
                                (headersOf numberToString first))
                           (filter (existsb (hasContent numberToString)) rest)).
    { destruct (Nat.ltb 1 (length jsonDataForced)) eqn:Ef.
      - simpl in H. destruct jsonDataForced as [|f fs]; [discriminate|].
        simpl in H. inversion H. exists f, fs. split; reflexivity.
      - destruct (Nat.ltb 1 (length jsonDataRaw)) eqn:Er.
        + simpl in H. destruct jsonDataRaw as [|f fs]; [discriminate|].
          simpl in H. inversion H. exists f, fs. split; reflexivity.
        + destruct (Nat.ltb 1 (length jsonDataWithBlanks)) eqn:Eb;
            [|discriminate].
          simpl in H. destruct jsonDataWithBlanks as [|f fs]; [discriminate|].
          simpl in H. inversion H. exists f, fs. split; reflexivity. }
    destruct Hex as [first [rest [Hchosen ->]]]. split; [|split].
    + intros row key cell Hrow Hentry. apply in_map_iff in Hrow.
      destruct Hrow as [cells [<- _]].
      apply (fillRow_normal (headersOf numberToString first) cells
               (headersOf_normalized first) 0 []
               (fun e (H0 : In e []) => match H0 with end)
               (key, cell) Hentry).
    + intros Hne; now elim Hne.
    + intros _. exists first, rest. split; [assumption|reflexivity].
  - intros H. inversion H; subst. clear H.
    change (normalizeObjectRow numberToString o
            :: map (normalizeObjectRow numberToString) os)
      with (map (normalizeObjectRow numberToString) (o :: os)).
    split; [|split].
    + intros row key cell Hrow Hentry.
      apply in_map_iff in Hrow. destruct Hrow as [raw [<- _]].
      exact (normalizeObjectRow_normal raw (key, cell) Hentry).
    + intros _. split; [apply length_map|].
      intros i raw Hi. exists (normalizeObjectRow numberToString raw).
      split; [now rewrite nth_error_map, Hi|]. split.
      * intros key. apply normalizeObjectRow_keys.
      * apply normalizeObjectRow_get.
    + discriminate.
Qed.

(** X18. In the array format a data row is matched with the headers by
    position among the headers that are kept: when the kept headers are
    pairwise distinct, the header at place [i] of them receives the trimmed
    text of the cell at place [i] of the row, and the empty text when the row
    is shorter.  A blank cell in the header row therefore shifts every later
    header one cell to the left. *)
Theorem arrayRowObject_by_position (first row : list value) (i : nat)
  (header : string) :
  NoDup (headersOf numberToString first) ->
  nth_error (headersOf numberToString first) i = Some header ->
  String.eqb header "__proto__" = false ->
  get (arrayRowObject numberToString (headersOf numberToString first) row) header
  = normalizedCell numberToString (nth i row VUndefined)
  /\ (length row <= i ->
      get (arrayRowObject numberToString (headersOf numberToString first) row)
        header = VString "").
Proof.
  intros Hnd Hi Hp. unfold arrayRowObject.
  rewrite (fillRow_get _ row Hnd 0 [] i header Hi Hp). simpl.
  split; [reflexivity|]. intros Hlen. now rewrite nth_overflow.
Qed.

End WorksheetFacts.

(** X17, witness: a sheet in the array format with a row without content. *)
Lemma sheetRows_normal_form_witness :
  (forall row key cell,
      In row Examples.sheetObjects -> In (key, cell) row ->
      normalizeKey key = key /\ exists s, cell = VString s /\ trim s = s)
  /\ (@nil object <> [] ->
      length Examples.sheetObjects = length (@nil object)
      /\ forall i raw,
          nth_error (@nil object) i = Some raw ->
          exists row,
            nth_error Examples.sheetObjects i = Some row
            /\ (forall key, In key (keys row) ->
                            exists k, In k (keys raw) /\ key = normalizeKey k)
            /\ (NoDup (map normalizeKey (keys raw)) ->
                forall k,
                  In k (keys raw) ->
                  String.eqb (normalizeKey k) "__proto__" = false ->
                  get row (normalizeKey k)
                  = normalizedCell Examples.numberToString (get raw k)))
  /\ (@nil object = [] ->
      exists first rest,
        first :: rest = Examples.sheetArrays
        /\ Examples.sheetObjects
           = map (arrayRowObject Examples.numberToString
                    (headersOf Examples.numberToString first))
               (filter (existsb (hasContent Examples.numberToString)) rest)).
Proof.
  exact (sheetRows_normal_form Examples.numberToString [] Examples.sheetArrays
           [] [] Examples.sheetObjects eq_refl).
Defined.

(** X18, witness: the third column, second of the kept headers, receives the
    second cell. *)
Lemma arrayRowObject_by_position_witness :
  get (arrayRowObject Examples.numberToString
         (headersOf Examples.numberToString (hd [] Examples.sheetArrays))
         [ VString "E1"; VNumber (ofZ 100) ]) "salary"
  = normalizedCell Examples.numberToString
      (nth 1 [ VString "E1"; VNumber (ofZ 100) ] VUndefined)
  /\ (length [ VString "E1"; VNumber (ofZ 100) ] <= 1 ->
      get (arrayRowObject Examples.numberToString
             (headersOf Examples.numberToString (hd [] Examples.sheetArrays))
             [ VString "E1"; VNumber (ofZ 100) ]) "salary" = VString "").
Proof.
  refine (arrayRowObject_by_position Examples.numberToString
            (hd [] Examples.sheetArrays) [ VString "E1"; VNumber (ofZ 100) ]
            1 "salary" _ eq_refl eq_refl).
  repeat constructor; simpl; intuition discriminate.
Defined.

(** * Properties of the detail view and of the application state *)

(** ** The employee detail view *)

Import DetailView.

Lemma extractFieldValue_app (employee : object) (first second : list string)
  (defaultValue : value) :
  extractFieldValue employee (first ++ second) defaultValue
  = extractFieldValue employee first
      (extractFieldValue employee second defaultValue).
Proof.
  induction first as [|f rest IH]; simpl; [reflexivity|].
  destruct (usable (get employee f)); [reflexivity|exact IH].
Qed.

Lemma extractFieldValue_none (employee : object) (fieldNames : list string)
  (defaultValue : value) :
  Forall (fun f => usable (get employee f) = false) fieldNames ->
  extractFieldValue employee fieldNames defaultValue = defaultValue.
Proof.
  induction 1 as [|f rest Hf _ IH]; simpl; [reflexivity|]. now rewrite Hf.
Qed.

(** X19. The lookup of a field under several names gives the value under
    the first name that holds something other than [undefined], [null] and
    the empty text, so a zero counts as found; and the default value exactly
    when no name holds such a value.  The local salary of the view is the
    lookup over the local names followed by the dollar names, with zero as
    the default. *)
Theorem extractFieldValue_first_usable (employee : object)
  (before after : list string) (fieldName : string) (defaultValue : value) :
  Forall (fun f => usable (get employee f) = false) before ->
  (usable (get employee fieldName) = true ->
   extractFieldValue employee (before ++ fieldName :: after) defaultValue
   = get employee fieldName)
  /\ (usable (get employee fieldName) = false ->
      Forall (fun f => usable (get employee f) = false) after ->
      extractFieldValue employee (before ++ fieldName :: after) defaultValue
      = defaultValue)
  /\ baseSalary employee
     = extractFieldValue employee (baseSalaryFields ++ baseSalaryUSDFields)
         (VNumber (ofZ 0)).
Proof.
  intros Hb. split; [|split].
  - intros Hu. rewrite extractFieldValue_app, (extractFieldValue_none _ _ _ Hb).
    simpl. now rewrite Hu.
  - intros Hu Ha. apply extractFieldValue_none. apply Forall_app. split;
      [assumption|now constructor].
  - unfold baseSalary, baseSalaryUSD. now rewrite extractFieldValue_app.
Qed.

(** X19, witness: an empty text under the first name, a zero under the
    third. *)
Lemma extractFieldValue_first_usable_witness :
  baseSalary Examples.employeeWithSalary = VNumber (ofZ 0).
Proof.
  assert (H : Forall
                (fun f => usable (get Examples.employeeWithSalary f) = false)
                [ "baseSalary"; "base_salary" ])
    by (repeat constructor).
  apply (proj1 (extractFieldValue_first_usable Examples.employeeWithSalary
                  [ "baseSalary"; "base_salary" ]
                  [ "annual_salary"; "Base Salary"; "Annual Salary";
                    "Base Pay All Countries"; "Total Base Pay";
                    "Annual Calculated Base Pay All Countries" ]
                  "salary" (baseSalaryUSD Examples.employeeWithSalary) H)).
  reflexivity.
Defined.

(** X20. For a row that the salary validation accepts, the view finds the
    local salary under its first name: it is the positive number the
    validation saw, whatever the row holds under the other names. *)
Theorem baseSalary_of_valid_row (row : object) (index : nat) :
  Validation.isValid (validateSalaryRow row index) = true ->
  baseSalary row = get row "baseSalary" /\ positive row "baseSalary".
Proof.
  intros Hv. apply validateSalaryRow_valid in Hv.
  destruct Hv as [_ [_ Hp]]. split; [|exact Hp].
  destruct Hp as [n [Hn _]]. unfold baseSalary, baseSalaryFields.
  cbn [extractFieldValue]. now rewrite Hn.
Qed.

(** X20, witness: the valid row of the two. *)
Lemma baseSalary_of_valid_row_witness :
  baseSalary (hd [] Sample.halfValidSalaryData)
  = get (hd [] Sample.halfValidSalaryData) "baseSalary"
  /\ positive (hd [] Sample.halfValidSalaryData) "baseSalary".
Proof.
  exact (baseSalary_of_valid_row (hd [] Sample.halfValidSalaryData) 0 eq_refl).
Defined.

Lemma shownRating_truthy (employee : object) :
  truthy (shownRating employee) = true.
Proof.
  unfold shownRating, orElse.
  destruct (truthy (get employee "performanceRating")) eqn:E1; [exact E1|].
  destruct (truthy (get employee "CALIBRATED VALUE: Overall Performance Rating"))
    eqn:E2; [exact E2|].
  destruct (truthy (get employee "calibrated value: overall performance rating"))
    eqn:E3; [exact E3|reflexivity].
Qed.

(** X21. The badge of the performance card is never the one for a rating
    that is not there: the card puts the text 'Not Available' in the place
    of a missing rating before it asks for the badge, and that text, holding
    none of the words the badge looks for, is styled as a good rating.  The
    badge 'N/A' is left for a rating that is a number below zero. *)
Theorem ratingBadge_missing_rating (employee : object) :
  (truthy (get employee "performanceRating") = false ->
   truthy (get employee "CALIBRATED VALUE: Overall Performance Rating") = false ->
   truthy (get employee "calibrated value: overall performance rating") = false ->
   ratingBadge employee = {| text := "Not Available"; className := "good" |})
  /\ (className (ratingBadge employee) = "noData" ->
      exists n, shownRating employee = VNumber n /\ lt n (ofZ 0) = true).
Proof.
  split.
  - intros H1 H2 H3. unfold ratingBadge, shownRating, orElse.
    rewrite H1, H2, H3. reflexivity.
  - unfold ratingBadge. pose proof (shownRating_truthy employee) as Ht.
    destruct (shownRating employee) as [| |label|n]; try discriminate.
    + unfold getPerformanceBadge. rewrite Ht. cbn [negb].
      repeat match goal with
             | |- context [if ?b then _ else _] => destruct b
             end; cbn [className]; discriminate.
    + unfold getPerformanceBadge. rewrite Ht. cbn [negb toNumber].
      intros Hc. exists n. split; [reflexivity|].
      destruct n as [|q|neg]; simpl in Ht; try discriminate.
      * unfold le, lt, ofZ in *.
        destruct (Qle_bool q (inject_Z 0)) eqn:Ele.
        -- simpl in Ht. apply negb_true_iff in Ht.
           destruct (Qle_bool (inject_Z 0) q) eqn:Ege; [|reflexivity].
           exfalso. apply Qle_bool_iff in Ele, Ege.
           assert (Hq : Qeq_bool q 0 = true).
           { apply Qeq_bool_iff. now apply Qle_antisym. }
           unfold isZero in Ht. simpl in Ht. congruence.
        -- exfalso. revert Hc.
           repeat match goal with
                  | |- context [if ?b then _ else _] => destruct b
                  end; cbn [className]; discriminate.
      * destruct neg; [reflexivity|]. exfalso. revert Hc. vm_compute.
        discriminate.
Qed.

(** X21, witness: an employee without any rating. *)
Lemma ratingBadge_missing_rating_witness :
  ratingBadge [ ("employeeId", VString "E1") ]
  = {| text := "Not Available"; className := "good" |}.
Proof.
  exact (proj1 (ratingBadge_missing_rating [ ("employeeId", VString "E1") ])
           eq_refl eq_refl eq_refl).
Defined.

(** ** A rating from the file to its badge *)

Lemma includes_outside_class (p : ascii -> bool) (s : string) :
  allChars p s = true ->
  forall c r, p c = false -> includes s (String c r) = false.
Proof.
  induction s as [|d t IH]; intros Hall c r Hc; simpl; [reflexivity|].
  simpl in Hall. apply andb_true_iff in Hall. destruct Hall as [Hd Ht].
  destruct (ascii_dec c d) as [->|_]; [congruence|]. now apply IH.
Qed.

Lemma toLowerCase_digitOrDot (s : string) :
  allChars digitOrDot s = true -> toLowerCase s = s.
Proof.
  induction s as [|c r IH]; simpl; [reflexivity|].
  intros H. apply andb_true_iff in H. destruct H as [Hc Hr].
  rewrite (IH Hr). f_equal. revert Hc.
  destruct c as [[] [] [] [] [] [] [] []]; vm_compute; intros H;
    try reflexivity; discriminate H.
Qed.

Lemma digitOrDot_not_whiteSpace (c : ascii) :
  digitOrDot c = true -> negb (isWhiteSpace c) = true.
Proof.
  destruct c as [[] [] [] [] [] [] [] []]; vm_compute; intros H;
    try reflexivity; discriminate H.
Qed.

Lemma trim_digitOrDot (s : string) : allChars digitOrDot s = true -> trim s = s.
Proof.
  intros H. unfold trim.
  pose proof (allChars_weaken _ _ s digitOrDot_not_whiteSpace H) as Hw.
  now rewrite (trimStart_no_whiteSpace s Hw), (trimEnd_no_whiteSpace s Hw).
Qed.

(** X22. A rating written in the file as a number without a percent sign,
    such as 2.5, is stored as the text it was read as, and the badge for a
    text that holds none of the rating words is the good one: the numeric
    scale of the badge is not applied to it. *)
Theorem rating_in_digits_badge (text : string) :
  isEmpty text = false ->
  allChars digitOrDot text = true ->
  coerce "performanceRating" (VString text) = Return (VString text)
  /\ getPerformanceBadge (VString text)
     = {| text := text; className := "good" |}.
Proof.
  intros He Hall. split.
  - unfold coerce. rewrite He. cbn [negb]. unfold coerceText.
    cbn [existsb numericFields String.eqb Ascii.eqb Bool.eqb orb].
    cbn [callTrim bind]. rewrite (trim_digitOrDot text Hall).
    rewrite (includes_outside_class digitOrDot text Hall) by reflexivity.
    reflexivity.
  - unfold getPerformanceBadge. cbn [truthy]. rewrite He. cbn [negb].
    rewrite (toLowerCase_digitOrDot text Hall).
    rewrite !(includes_outside_class digitOrDot text Hall) by reflexivity.
    reflexivity.
Qed.

(** X22, witness: the rating 2.5. *)
Lemma rating_in_digits_badge_witness :
  coerce "performanceRating" (VString "2.5") = Return (VString "2.5")
  /\ getPerformanceBadge (VString "2.5")
     = {| text := "2.5"; className := "good" |}.
Proof.
  exact (rating_in_digits_badge "2.5" eq_refl eq_refl).
Defined.

Lemma removeFirst_after_digits (s : string) (c : ascii) (r : string) :
  allChars isDigit s = true -> isDigit c = false ->
  removeFirst c (s ++ String c r) = (s ++ r)%string.
Proof.
  intros Hs Hc. induction s as [|d t IH]; simpl.
  - now rewrite Ascii.eqb_refl.
  - simpl in Hs. apply andb_true_iff in Hs. destruct Hs as [Hd Ht].
    destruct (Ascii.eqb d c) eqn:E.
    + apply Ascii.eqb_eq in E. congruence.
    + now rewrite (IH Ht).
Qed.

Lemma includes_end (s sub : string) : includes (s ++ sub) sub = true.
Proof.
  assert (Hp : forall t, prefix t t = true).
  { induction t as [|c r IH]; simpl; [reflexivity|].
    destruct (ascii_dec c c); [exact IH|congruence]. }
  induction s as [|c r IH].
  - simpl. destruct sub; simpl; [reflexivity|]. 
    destruct (ascii_dec a a); [now rewrite Hp|congruence].
  - cbn [append includes]. rewrite IH. now destruct (prefix sub (String c (r ++ sub))).
Qed.

Lemma append_empty (s : string) : (s ++ "")%string = s.
Proof. induction s as [|c r IH]; simpl; [reflexivity|now rewrite IH]. Qed.

Lemma le_div100 (p : Z) (q : BinNums.positive) (n : nat) :
  le (Fin (p # q)) (div100 (ofZ (Z.of_nat n)))
  = (p * 100 <=? Z.of_nat n * Z.pos q)%Z.
Proof.
  unfold le, div100, ofZ. apply eq_true_iff_eq.
  rewrite Qle_bool_iff, Z.leb_le, (Qred_correct (inject_Z (Z.of_nat n) / inject_Z 100)).
  unfold Qle; simpl. lia.
Qed.

Lemma div100_le_zero (n : nat) :
  le (div100 (ofZ (Z.of_nat n))) (ofZ 0) = (n =? 0).
Proof.
  unfold le, div100, ofZ. apply eq_true_iff_eq.
  rewrite Qle_bool_iff, Nat.eqb_eq, (Qred_correct (inject_Z (Z.of_nat n) / inject_Z 100)).
  unfold Qle; simpl. lia.
Qed.

Lemma div100_truthy (n : nat) :
  truthy (VNumber (div100 (ofZ (Z.of_nat n)))) = negb (n =? 0).
Proof.
  unfold truthy, div100, ofZ, isNaN, isZero. cbn [orb]. f_equal.
  apply eq_true_iff_eq.
  rewrite Qeq_bool_iff, Nat.eqb_eq, (Qred_correct (inject_Z (Z.of_nat n) / inject_Z 100)).
  unfold Qeq; simpl. lia.
Qed.

(** X23. A rating written as a whole percentage up to [2 ^ 53] is stored as
    that percentage divided by 100, and the badge then reads the quotient on
    its scale of 0 to 5: every percentage below 300 gets the critical badge,
    0 per cent the one for no data, and only from 450 per cent on the
    excellent one. *)
Theorem rating_in_percent_badge (n : nat) :
  (Z.of_nat n <= 2 ^ 53)%Z ->
  coerce "performanceRating" (VString (ofNat n ++ "%"))
  = Return (VNumber (div100 (ofZ (Z.of_nat n))))
  /\ className (getPerformanceBadge (VNumber (div100 (ofZ (Z.of_nat n)))))
     = if n =? 0 then "noData"
       else if n <? 300 then "critical"
       else if n <? 350 then "poor"
       else if n <? 400 then "fair"
       else if n <? 450 then "good"
       else "excellent".
Proof.
  intros Hbound.
  assert (Hd : allChars isDigit (ofNat n) = true) by apply uint_text_digits.
  assert (Hne : isEmpty (ofNat n) = false).
  { unfold ofNat. pose proof (to_uint_digits n) as Hn.
    destruct (Nat.to_uint n); simpl in *; try reflexivity. now elim Hn. }
  assert (Hall : allChars digitOrDot (ofNat n) = true).
  { apply (allChars_weaken isDigit); [|exact Hd].
    intros c Hc. unfold digitOrDot. now rewrite Hc. }
  assert (Hw : allChars (fun c => negb (isWhiteSpace c)) (ofNat n ++ "%") = true).
  { rewrite allChars_app.
    rewrite (allChars_weaken _ _ _ digitOrDot_not_whiteSpace Hall). reflexivity. }
  split.
  - unfold coerce. rewrite isEmpty_app, Hne. cbn [andb negb]. unfold coerceText.
    cbn [existsb numericFields String.eqb Ascii.eqb Bool.eqb orb].
    cbn [callTrim bind].
    assert (Ht : trim (ofNat n ++ "%") = (ofNat n ++ "%")%string).
    { unfold trim.
      now rewrite (trimStart_no_whiteSpace _ Hw), (trimEnd_no_whiteSpace _ Hw). }
    rewrite !Ht, includes_end.
    rewrite (removeFirst_after_digits (ofNat n) "%" "" Hd eq_refl).
    rewrite append_empty, (trim_digitOrDot _ Hall), (parseFloat_ofNat n Hbound).
    reflexivity.
  - unfold getPerformanceBadge. rewrite div100_truthy.
    cbn [toNumber]. rewrite div100_le_zero.
    change (ofZ 4) with (Fin (4 # 1)). change (ofZ 3) with (Fin (3 # 1)).
    rewrite !le_div100.
    destruct (Nat.eqb_spec n 0) as [->|Hn]; [reflexivity|]. cbn [negb].
    repeat match goal with
           | |- context [(?a <=? ?b)%Z] =>
               destruct (Z.leb_spec a b)
           | |- context [?a <? ?b] =>
               destruct (Nat.ltb_spec a b)
           end; cbn [className]; try reflexivity; lia.
Qed.

(** X23, witness: 87 per cent. *)
Lemma rating_in_percent_badge_witness :
  coerce "performanceRating" (VString (ofNat 87 ++ "%"))
  = Return (VNumber (div100 (ofZ (Z.of_nat 87))))
  /\ className (getPerformanceBadge (VNumber (div100 (ofZ (Z.of_nat 87)))))
     = "critical".
Proof.
  refine (rating_in_percent_badge 87 _). apply Z.leb_le. reflexivity.
Defined.

(** ** The application state *)

Import App.

Lemma split_cons (sep : ascii) (s : string) :
  exists first rest, split sep s = first :: rest.
Proof.
  induction s as [|c r [first [rest IH]]]; simpl; [now eexists; eexists|].
  destruct (Ascii.eqb c sep); [now eexists; eexists|].
  rewrite IH. now eexists; eexists.
Qed.

Lemma join_cons (sep first : string) (rest : list string) :
  join sep (first :: rest)
  = match rest with
    | [] => first
    | _ => (first ++ sep ++ join sep rest)%string
    end.
Proof. destruct rest; reflexivity. Qed.

Lemma join_split (sep : ascii) (s : string) :
  join (String sep "") (split sep s) = s.
Proof.
  induction s as [|c r IH]; [reflexivity|]. cbn [split].
  destruct (split_cons sep r) as [first [rest Hs]]. rewrite Hs in *.
  destruct (Ascii.eqb c sep) eqn:E.
  - apply Ascii.eqb_eq in E; subst c. rewrite join_cons. cbn [append].
    now rewrite IH.
  - rewrite join_cons in *. destruct rest; [now rewrite IH|].
    rewrite <- IH. reflexivity.
Qed.

Lemma split_first_no_sep (sep : ascii) (s : string) :
  hasChar sep (hd EmptyString (split sep s)) = false.
Proof.
  induction s as [|c r IH]; [reflexivity|]. cbn [split].
  destruct (split_cons sep r) as [first [rest Hs]]. rewrite Hs in *.
  destruct (Ascii.eqb c sep) eqn:E; [reflexivity|]. simpl in *.
  now rewrite E, IH.
Qed.

Lemma split_no_sep (sep : ascii) (s : string) :
  hasChar sep s = false -> split sep s = [s].
Proof.
  induction s as [|c r IH]; [reflexivity|]. cbn [split hasChar].
  intros H. apply orb_false_iff in H. destruct H as [Hc Hr].
  now rewrite Hc, (IH Hr).
Qed.

Lemma split_with_sep (sep : ascii) (s : string) :
  hasChar sep s = true -> tl (split sep s) <> [].
Proof.
  induction s as [|c r IH]; [discriminate|]. cbn [split hasChar].
  destruct (Ascii.eqb c sep) eqn:E.
  - intros _. simpl. destruct (split_cons sep r) as [first [rest Hs]].
    rewrite Hs. discriminate.
  - cbn [orb]. intros H. specialize (IH H).
    destruct (split_cons sep r) as [first [rest Hs]]. rewrite Hs in *.
    exact IH.
Qed.

(** X24. The recovery of a session splits a stored name at its first blank:
    the first name holds no blank, a name without a blank is the first name
    with an empty last name, and otherwise the first name, a blank and the
    last name give the stored name back.  The other fields of the record are
    kept.  A record whose name is not a text cannot be converted. *)
Theorem convertEmployee_names (emp : object) :
  (forall name, get emp "name" = VString name ->
   exists converted,
     convertEmployee emp = Return converted
     /\ get converted "firstName" = VString (firstNameOf name)
     /\ get converted "lastName" = VString (lastNameOf name)
     /\ (forall key, String.eqb "firstName" key = false ->
                     String.eqb "lastName" key = false ->
                     get converted key = get emp key)
     /\ hasChar " " (firstNameOf name) = false
     /\ name = (if hasChar " " name
                then firstNameOf name ++ " " ++ lastNameOf name
                else firstNameOf name)%string
     /\ (hasChar " " name = false -> lastNameOf name = ""))
  /\ (isString (get emp "name") = false ->
      exists e, convertEmployee emp = Throw e).
Proof.
  split.
  - intros name Hn. unfold convertEmployee. rewrite Hn. eexists.
    split; [reflexivity|]. split; [|split; [|split; [|split; [|split]]]].
    + rewrite get_set_other by reflexivity. apply get_set_same.
    + apply get_set_same.
    + intros key H1 H2. now rewrite !get_set_other.
    + apply split_first_no_sep.
    + unfold firstNameOf, lastNameOf.
      destruct (hasChar " " name) eqn:E.
      * pose proof (split_with_sep " " name E) as Ht.
        pose proof (join_split " " name) as Hj.
        destruct (split " " name) as [|first rest]; [now elim Ht|].
        simpl in Ht. rewrite join_cons in Hj. simpl.
        destruct rest; [now elim Ht|]. now symmetry.
      * now rewrite (split_no_sep " " name E).
    + intros E. unfold lastNameOf. now rewrite (split_no_sep " " name E).
  - intros Hs. unfold convertEmployee.
    destruct (get emp "name"); try discriminate; eexists; reflexivity.
Qed.

(** X24, witness: a name of three words. *)
Lemma convertEmployee_names_witness :
  exists converted,
    convertEmployee (hd [] Examples.storedEmployees) = Return converted
    /\ get converted "firstName" = VString (firstNameOf "Jane van Doe")
    /\ get converted "lastName" = VString (lastNameOf "Jane van Doe")
    /\ (forall key, String.eqb "firstName" key = false ->
                    String.eqb "lastName" key = false ->
                    get converted key = get (hd [] Examples.storedEmployees) key)
    /\ hasChar " " (firstNameOf "Jane van Doe") = false
    /\ "Jane van Doe"
       = (if hasChar " " "Jane van Doe"
          then firstNameOf "Jane van Doe" ++ " " ++ lastNameOf "Jane van Doe"
          else firstNameOf "Jane van Doe")%string
    /\ (hasChar " " "Jane van Doe" = false -> lastNameOf "Jane van Doe" = "").
Proof.
  exact (proj1 (convertEmployee_names (hd [] Examples.storedEmployees))
           "Jane van Doe" eq_refl).
Defined.

Lemma spread_get_absent (source target : object) (key : string) :
  ~ In key (keys source) -> get (spread target source) key = get target key.
Proof.
  unfold spread. revert target.
  induction source as [|[k v] r IH]; intros target Hn; [reflexivity|].
  cbn [fold_left fst snd]. rewrite IH by (intros H; apply Hn; now right).
  apply get_set_other. destruct (String.eqb k key) eqn:E; [|reflexivity].
  apply String.eqb_eq in E. exfalso. apply Hn. now left.
Qed.

Lemma spread_get_present (source target : object) (key : string) :
  NoDup (keys source) -> In key (keys source) ->
  get (spread target source) key = get source key.
Proof.
  revert target.
  induction source as [|[k v] r IH]; intros target Hnd Hin; [now elim Hin|].
  inversion Hnd as [|? ? Hk Hr]; subst. cbn [get].
  destruct (String.eqb k key) eqn:E.
  - apply String.eqb_eq in E; subst key.
    change (spread target ((k, v) :: r)) with (spread (set target k v) r).
    rewrite (spread_get_absent r _ k Hk). apply get_set_same.
  - destruct Hin as [Hin|Hin].
    + simpl in Hin. subst key. now rewrite String.eqb_refl in E.
    + change (spread target ((k, v) :: r)) with (spread (set target k v) r).
      now apply IH.
Qed.

Lemma existsb_keys (o : object) (key : string) :
  existsb (String.eqb key) (keys o) = true <-> In key (keys o).
Proof.
  rewrite existsb_exists. split.
  - intros [k [Hin Hk]]. apply String.eqb_eq in Hk. now subst k.
  - intros Hin. exists key. split; [assumption|apply String.eqb_refl].
Qed.

(** X25. An update of an employee keeps the number and the order of the
    records.  A record whose identifier is not the given one is left as it
    is; in a record with that identifier every field the update names takes
    the value of the update and every other field keeps its own.  All records
    with the identifier are updated, not only the first, and an identifier
    that no record has changes nothing. *)
Theorem updateEmployees_fields (employeeId : value) (updates : object)
  (prev : list object) :
  NoDup (keys updates) ->
  length (updateEmployees employeeId updates prev) = length prev
  /\ (forall i emp,
        nth_error prev i = Some emp ->
        exists updated,
          nth_error (updateEmployees employeeId updates prev) i = Some updated
          /\ forall key,
               get updated key
               = if strictEquals (get emp "employeeId") employeeId
                    && existsb (String.eqb key) (keys updates)
                 then get updates key else get emp key)
  /\ ((forall emp, In emp prev ->
         strictEquals (get emp "employeeId") employeeId = false) ->
      updateEmployees employeeId updates prev = prev).
Proof.
  intros Hnd. unfold updateEmployees. split; [apply length_map|split].
  - intros i emp Hi. eexists. split; [now rewrite nth_error_map, Hi|].
    intros key. destruct (strictEquals (get emp "employeeId") employeeId);
      [|reflexivity].
    cbn [andb]. destruct (existsb (String.eqb key) (keys updates)) eqn:E.
    + apply existsb_keys in E. now apply spread_get_present.
    + apply spread_get_absent. intros H. apply existsb_keys in H. congruence.
  - intros Hno. induction prev as [|emp rest IH]; [reflexivity|].
    cbn [map]. rewrite (Hno emp (or_introl eq_refl)).
    f_equal. apply IH. intros e He. apply Hno. now right.
Qed.

(** X25, witness: a proposed raise for the first of two employees. *)
Lemma updateEmployees_fields_witness :
  length (updateEmployees (VString "E1") Examples.raiseUpdate
            Examples.storedEmployees)
  = length Examples.storedEmployees
  /\ (forall i emp,
        nth_error Examples.storedEmployees i = Some emp ->
        exists updated,
          nth_error (updateEmployees (VString "E1") Examples.raiseUpdate
                       Examples.storedEmployees) i = Some updated
          /\ forall key,
               get updated key
               = if strictEquals (get emp "employeeId") (VString "E1")
                    && existsb (String.eqb key) (keys Examples.raiseUpdate)
                 then get Examples.raiseUpdate key else get emp key)
  /\ ((forall emp, In emp Examples.storedEmployees ->
         strictEquals (get emp "employeeId") (VString "E1") = false) ->
      updateEmployees (VString "E1") Examples.raiseUpdate
        Examples.storedEmployees = Examples.storedEmployees).
Proof.
  apply (updateEmployees_fields (VString "E1") Examples.raiseUpdate
           Examples.storedEmployees).
  repeat constructor. simpl. intuition.
Defined.

Lemma mapOutcome_throws {A B : Type} (f : A -> outcome B) (xs : list A) (x : A) :
  In x xs -> (exists e, f x = Throw e) -> exists e, mapOutcome f xs = Throw e.
Proof.
  intros Hin [e He]. induction xs as [|y r IH]; [now elim Hin|]. simpl.
  destruct Hin as [->|Hin].
  - rewrite He. now exists e.
  - destruct (f y) as [b|e']; [|now exists e']. simpl.
    destruct (IH Hin) as [e' ->]. now exists e'.
Qed.

Lemma convertEmployee_all (existing : list object) :
  Forall (fun emp => isString (get emp "name") = true) existing ->
  exists converted, mapOutcome convertEmployee existing = Return converted.
Proof.
  induction 1 as [|emp rest He _ [converted IH]]; [now exists []|].
  simpl. unfold convertEmployee at 1.
  destruct (get emp "name"); try discriminate. simpl. rewrite IH. simpl.
  now eexists.
Qed.

Section SessionRecoveryFacts.

Variable getEmployees : outcome (list object).
Variable getCurrentSession : outcome (option Storage.Session).
Variable restoreFromStorage : outcome (option Backup.BackupData).

Let recovered (s : AppState) : AppState :=
  recoverSession getEmployees getCurrentSession restoreFromStorage s.

(** X26. However the recovery of a session ends, by an exception of a store
    as well, the loading flag is off afterwards and no error is shown.  When
    the recovery moves the application from the upload view to the
    dashboard, there is an employee to show. *)
Theorem recoverSession_dashboard_has_employees (s : AppState) :
  isLoadingSession (recovered s) = false
  /\ error (recovered s) = error s
  /\ (currentView s = upload -> currentView (recovered s) = dashboard ->
      processedEmployees (recovered s) <> []).
Proof.
  unfold recovered, recoverSession, recoverSessionTry.
  destruct getEmployees as [existing|e]; [|repeat split; simpl; intros; congruence].
  destruct (Nat.ltb 0 (length existing)) eqn:El.
  - destruct (mapOutcome convertEmployee existing) as [converted|e] eqn:Em;
      [|repeat split; simpl; intros; congruence].
    assert (Hc : converted <> []).
    { apply mapOutcome_length in Em. apply Nat.ltb_lt in El.
      intros ->. simpl in Em. lia. }
    destruct getCurrentSession as [[session|]|e]; repeat split; simpl;
      intros; congruence.
  - destruct restoreFromStorage as [[backup|]|e];
      try (repeat split; simpl; intros; congruence).
    destruct (Nat.ltb 0 (length (Backup.employees backup))) eqn:Eb;
      [|repeat split; simpl; intros; congruence].
    repeat split. simpl. intros _ _ Hn. rewrite Hn in Eb. discriminate.
Qed.

(** X27. With employees in the store the backup is not consulted: the
    recovered state is the same whatever the backup holds or throws, and the
    budget and its currency stay as they were, so that from the initial state
    the budget is 0 in USD after the recovery. *)
Theorem recoverSession_ignores_backup (existing : list object)
  (otherBackup : outcome (option Backup.BackupData)) (s : AppState) :
  getEmployees = Return existing -> existing <> [] ->
  recovered s = recoverSession getEmployees getCurrentSession otherBackup s
  /\ totalBudget (recovered s) = totalBudget s
  /\ budgetCurrency (recovered s) = budgetCurrency s
  /\ (s = initialState ->
      totalBudget (recovered s) = ofZ 0 /\ budgetCurrency (recovered s) = "USD").
Proof.
  intros Hg Hne. unfold recovered, recoverSession, recoverSessionTry.
  rewrite Hg. destruct existing as [|emp rest]; [now elim Hne|].
  cbn [length Nat.ltb Nat.leb].
  destruct (mapOutcome convertEmployee (emp :: rest)) as [converted|e];
    [|repeat split; intros; subst; reflexivity].
  destruct getCurrentSession as [[session|]|e]; repeat split;
    intros; subst; reflexivity.
Qed.

(** X28. One stored employee whose name is not a text undoes the recovery
    of all: nothing of the state changes but the loading flag.  When instead
    the conversion succeeds and the session metadata cannot be read, the
    employees are loaded, but the view is not switched and the list of files
    is left as it was. *)
Theorem recoverSession_failures (existing : list object) (s : AppState) :
  getEmployees = Return existing ->
  ((exists emp, In emp existing /\ isString (get emp "name") = false) ->
   recovered s = setIsLoadingSession false s)
  /\ (forall e, getCurrentSession = Throw e -> existing <> [] ->
      Forall (fun emp => isString (get emp "name") = true) existing ->
      length (processedEmployees (recovered s)) = length existing
      /\ currentView (recovered s) = currentView s
      /\ uploadedFiles (recovered s) = uploadedFiles s).
Proof.
  intros Hg. unfold recovered, recoverSession, recoverSessionTry. rewrite Hg.
  split.
  - intros [emp [Hin Hs]].
    destruct (Nat.ltb 0 (length existing)) eqn:El.
    + destruct (mapOutcome_throws convertEmployee existing emp Hin) as [e ->];
        [|reflexivity].
      unfold convertEmployee. destruct (get emp "name"); try discriminate;
        eexists; reflexivity.
    + apply Nat.ltb_ge in El. destruct existing; [now elim Hin|simpl in El; lia].
  - intros e He Hne Hall. rewrite He.
    destruct existing as [|emp rest]; [now elim Hne|].
    cbn [length Nat.ltb Nat.leb].
    destruct (convertEmployee_all _ Hall) as [converted Em]. rewrite Em.
    apply mapOutcome_length in Em. simpl. repeat split. exact Em.
Qed.

End SessionRecoveryFacts.

(** X26, witness: two stored employees and no session metadata. *)
Lemma recoverSession_dashboard_has_employees_witness :
  processedEmployees
    (recoverSession (Return Examples.storedEmployees) (Return None)
       (Return None) initialState) <> [].
Proof.
  exact (proj2 (proj2 (recoverSession_dashboard_has_employees
                         (Return Examples.storedEmployees) (Return None)
                         (Return None) initialState))
           eq_refl eq_refl).
Defined.

(** X27, witness: stored employees beside a backup with a budget. *)
Lemma recoverSession_ignores_backup_witness :
  recoverSession (Return Examples.storedEmployees) (Return None)
    (Return (Some {| Backup.employees := Examples.storedEmployees;
                     Backup.totalBudget := ofZ 50000;
                     Backup.budgetCurrency := "EUR" |})) initialState
  = recoverSession (Return Examples.storedEmployees) (Return None)
      (Return None) initialState
  /\ totalBudget
       (recoverSession (Return Examples.storedEmployees) (Return None)
          (Return (Some {| Backup.employees := Examples.storedEmployees;
                           Backup.totalBudget := ofZ 50000;
                           Backup.budgetCurrency := "EUR" |})) initialState)
     = ofZ 0.
Proof.
  pose proof (recoverSession_ignores_backup
                (Return Examples.storedEmployees) (Return None)
                (Return (Some {| Backup.employees := Examples.storedEmployees;
                                 Backup.totalBudget := ofZ 50000;
                                 Backup.budgetCurrency := "EUR" |}))
                Examples.storedEmployees (Return None) initialState eq_refl)
    as H.
  destruct H as [H1 [H2 _]]; [discriminate|]. split; [exact H1|exact H2].
Defined.

(** X28, witness: the second stored employee has no name. *)
Lemma recoverSession_failures_witness :
  recoverSession (Return Examples.storedWithoutName) (Return None)
    (Return None) initialState
  = setIsLoadingSession false initialState.
Proof.
  apply (proj1 (recoverSession_failures
                  (Return Examples.storedWithoutName) (Return None)
                  (Return None) Examples.storedWithoutName initialState
                  eq_refl)).
  exists [ ("employeeId", VString "E2") ]. split; [right; left|]; reflexivity.
Defined.
